(** * Med-spa portal: availability, booking and status transitions

    A shallow embedding of [src/server.py] (the agent tools) and
    [src/api_server.py] (the HTTP endpoints), followed by the properties
    of the availability computation, the booking orchestrator and the
    status-transition handler.

    Conventions of the embedding.
    - Python [str] values are Rocq [string]s; the library functions on
      them ([lower], [in], [split], [int], [strptime], ...) are modelled
      on ASCII text.
    - A Python [dict] loaded from a JSON file is an association list in
      iteration order.
    - Every [datetime] of the program has zero seconds; an instant is the
      number of minutes since 1900-01-01 00:00, the date that
      [strptime(_, "%H:%M")] attaches to a time of day.
    - [price] and [total_spent] are binary64 floats, as in Python.
    - A raised exception is a value [Raise e]; the files under [data/] are
      an explicit [world] threaded through every operation;
      [datetime.now().isoformat()] is an argument [now]. *)

From Stdlib Require Import ZArith List String Ascii Bool Lia Floats.
From Stdlib Require Import DecimalString DecimalPos.
From Stdlib Require Finite.
From Equations Require Import Equations.
Import ListNotations.

Local Open Scope string_scope.
Local Open Scope Z_scope.

(** ** Python built-ins on strings and integers *)

Module Py.

Definition code (c : ascii) : Z := Z.of_nat (nat_of_ascii c).

Definition is_upper (c : ascii) : bool := (65 <=? code c) && (code c <=? 90).
Definition is_lower (c : ascii) : bool := (97 <=? code c) && (code c <=? 122).

Definition lower_char (c : ascii) : ascii :=
  if is_upper c then ascii_of_nat (nat_of_ascii c + 32) else c.
Definition upper_char (c : ascii) : ascii :=
  if is_lower c then ascii_of_nat (nat_of_ascii c - 32) else c.

(** [s.lower()] and [s.upper()] on ASCII text: only the letters a-z and
    A-Z are folded.  On other text Python's methods do more ([upper] turns
    the sharp s into two letters), so the two functions stand for the
    methods on ASCII strings only.  The program applies [upper] to a
    status that has passed the test against the four status words, all of
    them ASCII. *)
Fixpoint lower (s : string) : string :=
  match s with
  | EmptyString => EmptyString
  | String c r => String (lower_char c) (lower r)
  end.

Fixpoint upper (s : string) : string :=
  match s with
  | EmptyString => EmptyString
  | String c r => String (upper_char c) (upper r)
  end.

(** [needle in hay] on strings: substring test *)
Fixpoint contains (needle hay : string) : bool :=
  String.prefix needle hay ||
  match hay with
  | EmptyString => false
  | String _ r => contains needle r
  end.

(** [x in l] on a list of strings *)
Definition mem (x : string) (l : list string) : bool :=
  existsb (String.eqb x) l.

(** [s.split(sep)] for a one-character separator *)
Fixpoint split (sep : ascii) (s : string) : list string :=
  match s with
  | EmptyString => [EmptyString]
  | String c r =>
      if Ascii.eqb c sep then EmptyString :: split sep r
      else match split sep r with
           | h :: t => String c h :: t
           | [] => [String c EmptyString]
           end
  end.

(** [sep.join(l)] *)
Fixpoint join (sep : string) (l : list string) : string :=
  match l with
  | [] => ""
  | [x] => x
  | x :: r => x ++ sep ++ join sep r
  end.

(** [c * n] for a one-character string *)
Fixpoint repeat_char (c : ascii) (n : nat) : string :=
  match n with
  | O => EmptyString
  | S k => String c (repeat_char c k)
  end.

Definition digit_val (c : ascii) : option Z :=
  if (48 <=? code c) && (code c <=? 57) then Some (code c - 48) else None.

(** The characters [int] strips at both ends: tab, newline, vertical tab,
    form feed, carriage return, space. *)
Definition is_space (c : ascii) : bool :=
  ((9 <=? code c) && (code c <=? 13)) || (code c =? 32).

Fixpoint lstrip (cs : list ascii) : list ascii :=
  match cs with
  | c :: r => if is_space c then lstrip r else cs
  | [] => []
  end.

Definition strip (cs : list ascii) : list ascii :=
  rev (lstrip (rev (lstrip cs))).

(** Decimal digits, single underscores allowed between two digits. *)
Fixpoint digits_us (cs : list ascii) (acc : Z) (after_digit : bool) : option Z :=
  match cs with
  | [] => if after_digit then Some acc else None
  | c :: r =>
      match digit_val c with
      | Some d => digits_us r (10 * acc + d) true
      | None =>
          if Ascii.eqb c "_"%char && after_digit then digits_us r acc false
          else None
      end
  end.

(** [int(s)]: [None] stands for [ValueError].  (CPython also refuses
    literals of more than 4300 digits; that limit is not modelled.) *)
Definition int (s : string) : option Z :=
  match strip (list_ascii_of_string s) with
  | "+"%char :: r => digits_us r 0 false
  | "-"%char :: r => option_map Z.opp (digits_us r 0 false)
  | cs => digits_us cs 0 false
  end.

(** [str(n)] for an integer *)
Definition str (z : Z) : string := NilZero.string_of_int (Z.to_int z).

(** [f"{z:0{w}d}"]: the sign counts in the width, zeros go after it. *)
Definition zfill (w : nat) (z : Z) : string :=
  if z <? 0 then
    let d := str (- z) in
    String "-" (repeat_char "0" (w - 1 - String.length d) ++ d)
  else
    let d := str z in
    repeat_char "0" (w - String.length d) ++ d.

(** Truth value of an optional string: [None] and [""] are falsy. *)
Definition truthy (s : option string) : bool :=
  match s with
  | None => false
  | Some s => negb (String.eqb s "")
  end.

End Py.

(** ** The parts of [datetime] the program uses *)

Module Datetime.

(** A regular-expression alternative: the value it reads and the rest of
    the input, or [None] when it does not match here. *)
Definition alt (A : Type) : Type := list ascii -> option (A * list ascii).

(** [(a1|a2|...)] followed by the continuation [k], as [re.match] runs it:
    alternatives in order, the next one tried when the continuation
    fails. *)
Fixpoint first_match {A B : Type} (alts : list (alt A))
    (k : A -> list ascii -> option B) (cs : list ascii) : option B :=
  match alts with
  | [] => None
  | a :: more =>
      match a cs with
      | Some (v, r) =>
          match k v r with
          | Some b => Some b
          | None => first_match more k cs
          end
      | None => first_match more k cs
      end
  end.

(** A digit between [lo] and [hi] *)
Definition digit_in (lo hi : Z) (c : ascii) : option Z :=
  match Py.digit_val c with
  | Some d => if (lo <=? d) && (d <=? hi) then Some d else None
  | None => None
  end.

(** The literal character [x], read as the number [v] *)
Definition lit (x : ascii) (v : Z) (c : ascii) : option Z :=
  if Ascii.eqb c x then Some v else None.

Definition one (p : ascii -> option Z) : alt Z :=
  fun cs =>
    match cs with
    | c :: r => option_map (fun d => (d, r)) (p c)
    | [] => None
    end.

Definition two (p q : ascii -> option Z) : alt Z :=
  fun cs =>
    match cs with
    | c1 :: c2 :: r =>
        match p c1, q c2 with
        | Some a, Some b => Some (10 * a + b, r)
        | _, _ => None
        end
    | _ => None
    end.

Definition expect {B : Type} (x : ascii) (k : list ascii -> option B)
    (cs : list ascii) : option B :=
  match cs with
  | c :: r => if Ascii.eqb c x then k r else None
  | [] => None
  end.

(** [(?P<Y>\d\d\d\d)] *)
Definition re_Y : list (alt Z) :=
  [fun cs =>
     match two (digit_in 0 9) (digit_in 0 9) cs with
     | Some (hi, r) =>
         match two (digit_in 0 9) (digit_in 0 9) r with
         | Some (lo, r') => Some (100 * hi + lo, r')
         | None => None
         end
     | None => None
     end].
(** [(?P<m>1[0-2]|0[1-9]|[1-9])] *)
Definition re_m : list (alt Z) :=
  [two (digit_in 1 1) (digit_in 0 2); two (digit_in 0 0) (digit_in 1 9);
   one (digit_in 1 9)].
(** [(?P<d>3[0-1]|[1-2]\d|0[1-9]|[1-9]| [1-9])] *)
Definition re_d : list (alt Z) :=
  [two (digit_in 3 3) (digit_in 0 1); two (digit_in 1 2) (digit_in 0 9);
   two (digit_in 0 0) (digit_in 1 9); one (digit_in 1 9);
   two (lit " " 0) (digit_in 1 9)].
(** [(?P<H>2[0-3]|[0-1]\d|\d)] *)
Definition re_H : list (alt Z) :=
  [two (digit_in 2 2) (digit_in 0 3); two (digit_in 0 1) (digit_in 0 9);
   one (digit_in 0 9)].
(** [(?P<M>[0-5]\d|\d)] *)
Definition re_M : list (alt Z) :=
  [two (digit_in 0 5) (digit_in 0 9); one (digit_in 0 9)].

Definition is_leap (year : Z) : bool :=
  (year mod 4 =? 0) && (negb (year mod 100 =? 0) || (year mod 400 =? 0)).

Definition days_in_month (year month : Z) : Z :=
  if month =? 2 then (if is_leap year then 29 else 28)
  else if (month =? 4) || (month =? 6) || (month =? 9) || (month =? 11)
       then 30 else 31.

Definition days_before_year (year : Z) : Z :=
  let y := year - 1 in 365 * y + y / 4 - y / 100 + y / 400.

Definition days_before_month (year month : Z) : Z :=
  fold_right Z.add 0
    (map (fun m => days_in_month year (Z.of_nat m)) (seq 1 (Z.to_nat month - 1))).

(** Proleptic Gregorian ordinal: 0001-01-01 is day 1. *)
Definition ymd2ord (year month day : Z) : Z :=
  days_before_year year + days_before_month year month + day.

(** [date.weekday()]: Monday is 0. *)
Definition weekday (year month day : Z) : Z :=
  (ymd2ord year month day + 6) mod 7.

(** [strftime("%A")] in the C locale *)
Definition day_names : list string :=
  ["Monday"; "Tuesday"; "Wednesday"; "Thursday"; "Friday"; "Saturday"; "Sunday"].

Definition strftime_A (ymd : Z * Z * Z) : string :=
  let '(y, m, d) := ymd in nth (Z.to_nat (weekday y m d)) day_names "".

(** [datetime.strptime(s, "%Y-%m-%d")]: the regular expression must match
    a prefix, nothing may remain, and the date must exist (years 1 to
    9999).  [None] stands for [ValueError]. *)
Definition strptime_Ymd (s : string) : option (Z * Z * Z) :=
  match
    first_match re_Y (fun y => expect "-" (
    first_match re_m (fun m => expect "-" (
    first_match re_d (fun d r => Some (y, m, d, r))))))
    (list_ascii_of_string s)
  with
  | Some (y, m, d, []) =>
      if (1 <=? y) && (d <=? days_in_month y m) then Some (y, m, d) else None
  | _ => None
  end.

(** [datetime.strptime(s, "%H:%M")] as minutes after 1900-01-01 00:00 *)
Definition strptime_HM (s : string) : option Z :=
  match
    first_match re_H (fun h => expect ":" (
    first_match re_M (fun m r => Some (h, m, r))))
    (list_ascii_of_string s)
  with
  | Some (h, m, []) => Some (60 * h + m)
  | _ => None
  end.

(** [t.strftime("%H:%M")] *)
Definition strftime_HM (t : Z) : string :=
  Py.zfill 2 ((t / 60) mod 24) ++ ":" ++ Py.zfill 2 (t mod 60).

(** 0001-01-01 00:00 and 9999-12-31 23:59 *)
Definition min_instant : Z := - (693595 * 1440).
Definition max_instant : Z := (3652059 - 693596) * 1440 + 1439.

(** [t + timedelta(minutes=d)]; [None] stands for [OverflowError]. *)
Definition add_minutes (t d : Z) : option Z :=
  let r := t + d in
  if (min_instant <=? r) && (r <=? max_instant) then Some r else None.

End Datetime.

(** ** Exceptions and the dictionaries kept in the JSON files *)

Inductive exn : Type :=
| ValueError
| OverflowError
| KeyError
| JSONDecodeError
| HTTPException (status_code : Z) (detail : string).

Inductive outcome (A : Type) : Type :=
| Ok (a : A)
| Raise (e : exn).
Arguments Ok {A} a.
Arguments Raise {A} e.

(** A library call that signals failure with [e] *)
Definition or_raise {A : Type} (e : exn) (o : option A) : outcome A :=
  match o with
  | Some a => Ok a
  | None => Raise e
  end.

Definition rbind {A B : Type} (r : outcome A) (k : A -> outcome B) : outcome B :=
  match r with
  | Ok a => k a
  | Raise e => Raise e
  end.

Module Dict.

Definition dict (A : Type) : Type := list (string * A).

Section Ops.
Context {A : Type}.

(** [d.get(k)] *)
Fixpoint get (k : string) (d : dict A) : option A :=
  match d with
  | [] => None
  | (k', v) :: r => if String.eqb k k' then Some v else get k r
  end.

(** [k in d] *)
Definition mem (k : string) (d : dict A) : bool :=
  match get k d with Some _ => true | None => false end.

(** [d[k] = v]: an existing key keeps its place, a new one goes last. *)
Fixpoint set (k : string) (v : A) (d : dict A) : dict A :=
  match d with
  | [] => [(k, v)]
  | (k', v') :: r =>
      if String.eqb k k' then (k', v) :: r else (k', v') :: set k v r
  end.

Definition keys (d : dict A) : list string := map fst d.
Definition values (d : dict A) : list A := map snd d.
Definition len (d : dict A) : Z := Z.of_nat (List.length d).

(** Keys of a Python dict are distinct. *)
Definition wf (d : dict A) : Prop := NoDup (keys d).

End Ops.
End Dict.
Import Dict.

(** ** The four entities (spec section 3) *)

Module Service.
Record t : Type := {
  id : string;
  name : string;
  category : string;
  duration_minutes : Z;
  price : float;
  description : string
}.
End Service.

Module Staff.
Record hours_t : Type := { start : string; end_ : string }.
Record t : Type := {
  id : string;
  name : string;
  role : string;
  specialties : list string;
  available_days : list string;
  hours : hours_t
}.
End Staff.

Module Client.
Record t : Type := {
  id : string;
  name : string;
  email : option string;
  phone : string;
  date_of_birth : string;
  address : string;
  emergency_contact : string;
  medical_notes : string;
  created_at : string;
  total_visits : Z;
  total_spent : float
}.

(** [client["total_visits"] += 1; client["total_spent"] += price] *)
Definition add_visit (price : float) (c : t) : t :=
  {| id := id c; name := name c; email := email c; phone := phone c;
     date_of_birth := date_of_birth c; address := address c;
     emergency_contact := emergency_contact c;
     medical_notes := medical_notes c; created_at := created_at c;
     total_visits := total_visits c + 1;
     total_spent := (total_spent c + price)%float |}.
End Client.

Module Appointment.
Record t : Type := {
  id : string;
  client_id : string;
  client_name : string;
  service_id : string;
  service_name : string;
  staff_id : string;
  staff_name : string;
  date : string;
  time : string;
  duration_minutes : Z;
  price : float;
  status : string;
  notes : option string;
  created_at : string;
  updated_at : option string
}.

Definition set_status (v : string) (a : t) : t :=
  {| id := id a; client_id := client_id a; client_name := client_name a;
     service_id := service_id a; service_name := service_name a;
     staff_id := staff_id a; staff_name := staff_name a; date := date a;
     time := time a; duration_minutes := duration_minutes a;
     price := price a; status := v; notes := notes a;
     created_at := created_at a; updated_at := updated_at a |}.

Definition set_notes (v : option string) (a : t) : t :=
  {| id := id a; client_id := client_id a; client_name := client_name a;
     service_id := service_id a; service_name := service_name a;
     staff_id := staff_id a; staff_name := staff_name a; date := date a;
     time := time a; duration_minutes := duration_minutes a;
     price := price a; status := status a; notes := v;
     created_at := created_at a; updated_at := updated_at a |}.

Definition set_updated_at (v : string) (a : t) : t :=
  {| id := id a; client_id := client_id a; client_name := client_name a;
     service_id := service_id a; service_name := service_name a;
     staff_id := staff_id a; staff_name := staff_name a; date := date a;
     time := time a; duration_minutes := duration_minutes a;
     price := price a; status := status a; notes := notes a;
     created_at := created_at a; updated_at := Some v |}.
End Appointment.

(** ** The entity store: one JSON file per collection (spec section 4.1) *)

Inductive path : Type :=
| APPOINTMENTS_FILE
| CLIENTS_FILE
| SERVICES_FILE
| STAFF_FILE.

Definition record_of (p : path) : Type :=
  match p with
  | APPOINTMENTS_FILE => Appointment.t
  | CLIENTS_FILE => Client.t
  | SERVICES_FILE => Service.t
  | STAFF_FILE => Staff.t
  end.

(** A file is missing, holds something [json.load] rejects, or holds a
    dictionary. *)
Inductive file (A : Type) : Type :=
| Absent
| Corrupt
| Json (d : dict A).
Arguments Absent {A}.
Arguments Corrupt {A}.
Arguments Json {A} d.

Record world : Type := {
  appointments_file : file Appointment.t;
  clients_file : file Client.t;
  services_file : file Service.t;
  staff_file : file Staff.t
}.

Definition read (p : path) (w : world) : file (record_of p) :=
  match p with
  | APPOINTMENTS_FILE => appointments_file w
  | CLIENTS_FILE => clients_file w
  | SERVICES_FILE => services_file w
  | STAFF_FILE => staff_file w
  end.

Definition write (p : path) : file (record_of p) -> world -> world :=
  match p with
  | APPOINTMENTS_FILE => fun f w =>
      {| appointments_file := f; clients_file := clients_file w;
         services_file := services_file w; staff_file := staff_file w |}
  | CLIENTS_FILE => fun f w =>
      {| appointments_file := appointments_file w; clients_file := f;
         services_file := services_file w; staff_file := staff_file w |}
  | SERVICES_FILE => fun f w =>
      {| appointments_file := appointments_file w;
         clients_file := clients_file w; services_file := f;
         staff_file := staff_file w |}
  | STAFF_FILE => fun f w =>
      {| appointments_file := appointments_file w;
         clients_file := clients_file w; services_file := services_file w;
         staff_file := f |}
  end.

(** What a file holds once loaded *)
Definition contents {A : Type} (f : file A) : outcome (dict A) :=
  match f with
  | Absent => Ok []
  | Corrupt => Raise JSONDecodeError
  | Json d => Ok d
  end.

(** Programs read and write the files and may raise: the world survives an
    exception. *)
Definition M (A : Type) : Type := world -> world * outcome A.

Definition ret {A : Type} (a : A) : M A := fun w => (w, Ok a).
Definition raise {A : Type} (e : exn) : M A := fun w => (w, Raise e).
Definition lift {A : Type} (r : outcome A) : M A := fun w => (w, r).

Definition bind {A B : Type} (c : M A) (k : A -> M B) : M B :=
  fun w =>
    match c w with
    | (w', Ok a) => k a w'
    | (w', Raise e) => (w', Raise e)
    end.

(** [try: c  except Exception as e: h e] *)
Definition try_except {A : Type} (c : M A) (h : exn -> M A) : M A :=
  fun w =>
    match c w with
    | (w', Ok a) => (w', Ok a)
    | (w', Raise e) => h e w'
    end.

Declare Scope py_scope.
Delimit Scope py_scope with py.
Notation "x <- c ;; k" := (bind c (fun x => k))
  (at level 61, c at next level, right associativity) : py_scope.
Notation "' p <- c ;; k" := (bind c (fun x => match x with p => k end))
  (at level 61, p pattern, c at next level, right associativity) : py_scope.
Notation "c ;;; k" := (bind c (fun _ => k))
  (at level 61, right associativity) : py_scope.
Notation "'let?' x := r 'in' k" := (rbind r (fun x => k))
  (at level 61, x pattern, r at next level, right associativity) : py_scope.
Local Open Scope py_scope.

Definition load_data (p : path) : M (dict (record_of p)) :=
  fun w => (w, contents (read p w)).

Definition save_data (p : path) (data : dict (record_of p)) : M unit :=
  fun w => (write p (Json data) w, Ok tt).

(** [file_path.exists()] *)
Definition exists_ (p : path) : M bool :=
  fun w => (w, Ok match read p w with Absent => false | _ => true end).

Definition nl : string := String (ascii_of_nat 10) EmptyString.

(** ** [src/server.py]: the agent tools *)

Module Server.

Definition service (id name category : string) (duration_minutes : Z)
    (price : float) (description : string) : string * Service.t :=
  (id, {| Service.id := id; Service.name := name;
          Service.category := category;
          Service.duration_minutes := duration_minutes;
          Service.price := price; Service.description := description |}).

Definition default_services : dict Service.t :=
  [ service "SVC001" "Botox Treatment" "Injectables" 30 400%float
      "Wrinkle reduction with Botox injections";
    service "SVC002" "Dermal Fillers" "Injectables" 45 650%float
      "Volume restoration with hyaluronic acid fillers";
    service "SVC003" "Hydrafacial" "Facials" 60 250%float
      "Deep cleansing and hydration facial treatment";
    service "SVC004" "Laser Hair Removal" "Laser Treatments" 30 300%float
      "Permanent hair reduction using laser technology";
    service "SVC005" "Chemical Peel" "Skin Treatments" 45 200%float
      "Skin resurfacing treatment for improved texture and tone";
    service "SVC006" "Microneedling" "Skin Treatments" 60 350%float
      "Collagen induction therapy for skin rejuvenation";
    service "SVC007" "CoolSculpting" "Body Contouring" 90 800%float
      "Non-invasive fat reduction treatment" ].

Definition member (id name role : string) (specialties available_days : list string)
    (start end_ : string) : string * Staff.t :=
  (id, {| Staff.id := id; Staff.name := name; Staff.role := role;
          Staff.specialties := specialties;
          Staff.available_days := available_days;
          Staff.hours := {| Staff.start := start; Staff.end_ := end_ |} |}).

Definition default_staff : dict Staff.t :=
  [ member "STF001" "Dr. Maria Rodriguez" "Medical Director"
      ["Injectables"; "Laser Treatments"]
      ["Monday"; "Tuesday"; "Wednesday"; "Thursday"; "Friday"]
      "09:00" "17:00";
    member "STF002" "Sarah Johnson" "Licensed Aesthetician"
      ["Facials"; "Skin Treatments"]
      ["Tuesday"; "Wednesday"; "Thursday"; "Friday"; "Saturday"]
      "10:00" "18:00";
    member "STF003" "Jennifer Martinez" "Nurse Practitioner"
      ["Injectables"; "Body Contouring"]
      ["Monday"; "Wednesday"; "Friday"; "Saturday"]
      "09:00" "17:00" ].

(** Seeds the two catalogs when their files do not exist yet. *)
Definition initialize_default_data : M unit :=
  services_exist <- exists_ SERVICES_FILE ;;
  (if negb services_exist then save_data SERVICES_FILE default_services
   else ret tt) ;;;
  staff_exist <- exists_ STAFF_FILE ;;
  if negb staff_exist then save_data STAFF_FILE default_staff else ret tt.

Definition valid_statuses : list string :=
  ["scheduled"; "completed"; "cancelled"; "no-show"].

Definition update_appointment_status (now appointment_id status : string)
    (notes : option string) : M string :=
  appointments <- load_data APPOINTMENTS_FILE ;;
  match get appointment_id appointments with
  | None => ret ("Error: Appointment " ++ appointment_id ++ " not found")
  | Some apt =>
      if negb (Py.mem status valid_statuses) then
        ret ("Error: Invalid status. Must be one of: "
             ++ Py.join ", " valid_statuses)
      else
        let apt := Appointment.set_status status apt in
        let apt := if Py.truthy notes then Appointment.set_notes notes apt
                   else apt in
        let apt := Appointment.set_updated_at now apt in
        let appointments : dict (record_of APPOINTMENTS_FILE) :=
          set appointment_id apt appointments in
        save_data APPOINTMENTS_FILE appointments ;;;
        ret ("✓ Appointment " ++ appointment_id ++ " status updated to: "
             ++ Py.upper status)
  end.

Definition cancel_appointment (now appointment_id : string)
    (reason : option string) : M string :=
  update_appointment_status now appointment_id "cancelled"
    (Some (match reason with
           | Some r => if String.eqb r "" then "Cancelled"
                       else "Cancellation reason: " ++ r
           | None => "Cancelled"
           end)).

Definition add_client (now name email phone date_of_birth : string)
    (address emergency_contact medical_notes : string) : M string :=
  clients <- load_data CLIENTS_FILE ;;
  let client_num := len clients + 1 in
  let client_id := "CL" ++ Py.zfill 4 client_num in
  let client :=
    {| Client.id := client_id; Client.name := name;
       Client.email := Some email; Client.phone := phone;
       Client.date_of_birth := date_of_birth; Client.address := address;
       Client.emergency_contact := emergency_contact;
       Client.medical_notes := medical_notes; Client.created_at := now;
       Client.total_visits := 0; Client.total_spent := 0%float |} in
  let clients : dict (record_of CLIENTS_FILE) := set client_id client clients in
  save_data CLIENTS_FILE clients ;;;
  ret ("✓ Client added successfully!" ++ nl ++ nl ++ "ID: " ++ client_id ++ nl
       ++ "Name: " ++ name ++ nl ++ "Email: " ++ email ++ nl
       ++ "Phone: " ++ phone).

(** [sorted(l, key=lambda x: x['time'])]: stable, by code points *)
Fixpoint insert_by_time (a : Appointment.t) (l : list Appointment.t)
    : list Appointment.t :=
  match l with
  | [] => [a]
  | b :: r =>
      if String.ltb (Appointment.time b) (Appointment.time a)
      then b :: insert_by_time a r
      else a :: b :: r
  end.

Definition sorted_by_time (l : list Appointment.t) : list Appointment.t :=
  fold_right insert_by_time [] l.

(** The appointments of one staff member on one date that are still
    scheduled (the same comprehension in both front ends) *)
Definition scheduled_for (appointments : dict Appointment.t)
    (staff_id date : string) : list Appointment.t :=
  filter (fun a => String.eqb (Appointment.staff_id a) staff_id
                   && String.eqb (Appointment.date a) date
                   && String.eqb (Appointment.status a) "scheduled")
         (values appointments).

(** [{sid: s for sid, s in staff.items() if day_name in s['available_days']}] *)
Definition working_on (day_name : string) (staff : dict Staff.t) : dict Staff.t :=
  filter (fun '(_, s) => Py.mem day_name (Staff.available_days s)) staff.

(** One line per scheduled appointment of the report *)
Fixpoint appointment_lines (apts : list Appointment.t) (result : string)
    : outcome string :=
  match apts with
  | [] => Ok result
  | apt :: rest =>
      let? t := or_raise ValueError
                  (Datetime.strptime_HM (Appointment.time apt)) in
      let? end_time := or_raise OverflowError
                  (Datetime.add_minutes t (Appointment.duration_minutes apt)) in
      appointment_lines rest
        (result ++ "  " ++ Appointment.time apt ++ " - "
         ++ Datetime.strftime_HM end_time ++ ": "
         ++ Appointment.service_name apt ++ " ("
         ++ Appointment.client_name apt ++ ")" ++ nl)
  end.

(** The loop over the staff working that day *)
Fixpoint staff_sections (appointments : dict Appointment.t) (date : string)
    (available_staff : dict Staff.t) (result : string) : outcome string :=
  match available_staff with
  | [] => Ok result
  | (sid, member) :: rest =>
      let staff_apts := scheduled_for appointments sid date in
      let result :=
        result ++ Staff.name member ++ " (" ++ Staff.role member ++ ")" ++ nl
        ++ "Working hours: " ++ Staff.start (Staff.hours member) ++ " - "
        ++ Staff.end_ (Staff.hours member) ++ nl in
      let? result :=
        match staff_apts with
        | [] => Ok (result ++ "No appointments scheduled - fully available" ++ nl)
        | _ =>
            appointment_lines (sorted_by_time staff_apts)
              (result ++ "Scheduled appointments ("
               ++ Py.str (Z.of_nat (List.length staff_apts)) ++ "):" ++ nl)
        end in
      staff_sections appointments date rest (result ++ nl)
  end.

Definition check_availability (date : string) (staff_id : option string)
    : M string :=
  appointments <- load_data APPOINTMENTS_FILE ;;
  staff <- load_data STAFF_FILE ;;
  match Datetime.strptime_Ymd date with
  | None => ret "Error: Invalid date format. Use YYYY-MM-DD"
  | Some date_obj =>
      let day_name := Datetime.strftime_A date_obj in
      let available_staff := working_on day_name staff in
      let report (available_staff : dict Staff.t) : M string :=
        match available_staff with
        | [] => ret ("No staff members available on " ++ day_name ++ "s")
        | _ =>
            lift (staff_sections appointments date available_staff
                    ("AVAILABILITY FOR " ++ date ++ " (" ++ day_name ++ ")" ++ nl
                     ++ Py.repeat_char "=" 60 ++ nl ++ nl))
        end in
      if Py.truthy staff_id then
        let staff_id := match staff_id with Some s => s | None => "" end in
        match get staff_id available_staff with
        | None => ret ("Error: Staff member " ++ staff_id
                       ++ " is not available on " ++ day_name ++ "s")
        | Some s => report [(staff_id, s)]
        end
      else report available_staff
  end.

Section Tools.

(** [f"{x:.2f}"], a library formatter *)
Variable format_2f : float -> string.

Definition create_appointment (now client_id service_id staff_id date time : string)
    (notes : option string) : M string :=
  appointments <- load_data APPOINTMENTS_FILE ;;
  clients <- load_data CLIENTS_FILE ;;
  services <- load_data SERVICES_FILE ;;
  staff <- load_data STAFF_FILE ;;
  match get client_id clients, get service_id services, get staff_id staff with
  | None, _, _ => ret ("Error: Client " ++ client_id ++ " not found")
  | Some _, None, _ => ret ("Error: Service " ++ service_id ++ " not found")
  | Some _, Some _, None =>
      ret ("Error: Staff member " ++ staff_id ++ " not found")
  | Some client, Some svc, Some member =>
      let apt_num := len appointments + 1 in
      let apt_id := "APT" ++ Py.zfill 4 apt_num in
      let appointment :=
        {| Appointment.id := apt_id;
           Appointment.client_id := client_id;
           Appointment.client_name := Client.name client;
           Appointment.service_id := service_id;
           Appointment.service_name := Service.name svc;
           Appointment.staff_id := staff_id;
           Appointment.staff_name := Staff.name member;
           Appointment.date := date;
           Appointment.time := time;
           Appointment.duration_minutes := Service.duration_minutes svc;
           Appointment.price := Service.price svc;
           Appointment.status := "scheduled";
           Appointment.notes := notes;
           Appointment.created_at := now;
           Appointment.updated_at := None |} in
      let appointments : dict (record_of APPOINTMENTS_FILE) :=
        set apt_id appointment appointments in
      save_data APPOINTMENTS_FILE appointments ;;;
      ret ("✓ Appointment created successfully!" ++ nl ++ nl
           ++ "ID: " ++ apt_id ++ nl
           ++ "Client: " ++ Client.name client ++ nl
           ++ "Service: " ++ Service.name svc ++ nl
           ++ "Provider: " ++ Staff.name member ++ nl
           ++ "Date: " ++ date ++ " at " ++ time ++ nl
           ++ "Duration: " ++ Py.str (Service.duration_minutes svc)
           ++ " minutes" ++ nl
           ++ "Price: $" ++ format_2f (Service.price svc))
  end.

End Tools.

End Server.

(** ** [src/api_server.py]: the HTTP endpoints *)

Module TimeSlot.
Record t : Type := { time : string; staff_id : string; staff_name : string }.
End TimeSlot.

Module Availability.
Record t : Type := {
  date : string;
  day_of_week : string;
  available_slots : list TimeSlot.t
}.
End Availability.

Module BookingRequest.
Record t : Type := {
  service_name : string;
  date : string;
  time : string;
  client_name : string;
  client_phone : string;
  client_email : option string;
  staff_id : option string
}.
End BookingRequest.

Module Confirmation.
Record t : Type := {
  appointment_id : string;
  service : string;
  date : string;
  time : string;
  provider : string;
  price : float;
  duration : Z;
  client_name : string;
  client_phone : string
}.
End Confirmation.

Module BookingResponse.
Record t : Type := {
  success : bool;
  appointment_id : option string;
  message : string;
  confirmation_details : option Confirmation.t
}.
End BookingResponse.

Module Cancellation.
Record t : Type := {
  success : bool;
  message : string;
  appointment : Appointment.t
}.
End Cancellation.

Module Api.

(** [hour, minute = map(int, s.split(':'))] *)
Definition hour_minute (s : string) : outcome (Z * Z) :=
  match Py.split ":" s with
  | [h; m] =>
      match Py.int h, Py.int m with
      | Some h, Some m => Ok (h, m)
      | _, _ => Raise ValueError
      end
  | _ => Raise ValueError
  end.

(** [datetime.strptime(f"{hour:02d}:{minute:02d}", "%H:%M")] *)
Definition clock (hm : Z * Z) : outcome Z :=
  or_raise ValueError
    (Datetime.strptime_HM (Py.zfill 2 (fst hm) ++ ":" ++ Py.zfill 2 (snd hm))).

(** The [for apt in staff_appointments] loop: [Ok false] is the [break]. *)
Fixpoint is_available (current_time : Z) (staff_appointments : list Appointment.t)
    : outcome bool :=
  match staff_appointments with
  | [] => Ok true
  | apt :: rest =>
      let? apt_start := or_raise ValueError
                          (Datetime.strptime_HM (Appointment.time apt)) in
      let? apt_end := or_raise OverflowError
                        (Datetime.add_minutes apt_start
                           (Appointment.duration_minutes apt)) in
      if (apt_start <=? current_time) && (current_time <? apt_end)
      then Ok false
      else is_available current_time rest
  end.

Definition slot (current_time : Z) (staff_id : string) (staff_member : Staff.t)
    : TimeSlot.t :=
  {| TimeSlot.time := Datetime.strftime_HM current_time;
     TimeSlot.staff_id := staff_id;
     TimeSlot.staff_name := Staff.name staff_member |}.

(** The [while current_time < end_time] loop, thirty minutes a step *)
Equations? slots_until (end_time : Z) (staff_id : string) (staff_member : Staff.t)
    (staff_appointments : list Appointment.t) (current_time : Z)
    (available_slots : list TimeSlot.t) : outcome (list TimeSlot.t)
    by wf (Z.to_nat (end_time - current_time)) lt :=
  slots_until end_time staff_id staff_member staff_appointments current_time
      available_slots with Z_lt_dec current_time end_time => {
    | right _ := Ok available_slots;
    | left _ with is_available current_time staff_appointments => {
        | Raise e := Raise e;
        | Ok true :=
            slots_until end_time staff_id staff_member staff_appointments
              (current_time + 30)
              (available_slots ++ [slot current_time staff_id staff_member])%list;
        | Ok false :=
            slots_until end_time staff_id staff_member staff_appointments
              (current_time + 30) available_slots } }.
Proof. all: lia. Qed.

(** The [for staff_id, staff_member in available_staff.items()] loop *)
Fixpoint slots_of_staff (appointments : dict Appointment.t) (date : string)
    (available_staff : dict Staff.t) (available_slots : list TimeSlot.t)
    : outcome (list TimeSlot.t) :=
  match available_staff with
  | [] => Ok available_slots
  | (staff_id, staff_member) :: rest =>
      let staff_appointments := Server.scheduled_for appointments staff_id date in
      let? start := hour_minute (Staff.start (Staff.hours staff_member)) in
      let? stop := hour_minute (Staff.end_ (Staff.hours staff_member)) in
      let? current_time := clock start in
      let? end_time := clock stop in
      let? available_slots :=
        slots_until end_time staff_id staff_member staff_appointments
          current_time available_slots in
      slots_of_staff appointments date rest available_slots
  end.

(** Lines 161 to 203: every free slot of the staff working on [day_name] *)
Definition compute_slots (date day_name : string) (staff : dict Staff.t)
    (appointments : dict Appointment.t) : outcome (list TimeSlot.t) :=
  slots_of_staff appointments date (Server.working_on day_name staff) [].

Definition check_availability (date : string) (service_id : option string)
    : M Availability.t :=
  match Datetime.strptime_Ymd date with
  | None => raise (HTTPException 400 "Invalid date format. Use YYYY-MM-DD")
  | Some date_obj =>
      let day_name := Datetime.strftime_A date_obj in
      services <- load_data SERVICES_FILE ;;
      staff <- load_data STAFF_FILE ;;
      appointments <- load_data APPOINTMENTS_FILE ;;
      let duration :=
        match service_id with
        | Some sid =>
            match get sid services with
            | Some svc => if String.eqb sid "" then 60
                          else Service.duration_minutes svc
            | None => 60
            end
        | None => 60
        end in
      available_slots <- lift (compute_slots date day_name staff appointments) ;;
      ret {| Availability.date := date;
             Availability.day_of_week := day_name;
             Availability.available_slots := firstn 10 available_slots |}
  end.

Definition find_service (service_name : string) (services : dict Service.t)
    : option (string * Service.t) :=
  find (fun '(_, svc) =>
          Py.contains (Py.lower service_name) (Py.lower (Service.name svc)))
       services.

Definition find_client (client_phone : string) (clients : dict Client.t)
    : option string :=
  option_map fst
    (find (fun '(_, client) => String.eqb (Client.phone client) client_phone)
          clients).

Definition find_staff (category : string) (staff : dict Staff.t) : option string :=
  option_map fst
    (find (fun '(_, s) => Py.mem category (Staff.specialties s)) staff).

Definition new_client (now client_id : string) (booking : BookingRequest.t)
    : Client.t :=
  {| Client.id := client_id;
     Client.name := BookingRequest.client_name booking;
     Client.email := BookingRequest.client_email booking;
     Client.phone := BookingRequest.client_phone booking;
     Client.date_of_birth := "";
     Client.address := "";
     Client.emergency_contact := "";
     Client.medical_notes := "";
     Client.created_at := now;
     Client.total_visits := 0;
     Client.total_spent := 0%float |}.

Definition failure (message : string) : BookingResponse.t :=
  {| BookingResponse.success := false;
     BookingResponse.appointment_id := None;
     BookingResponse.message := message;
     BookingResponse.confirmation_details := None |}.

(** [d[k]] on a key that must be there *)
Definition item {A : Type} (k : string) (d : dict A) : M A :=
  lift (or_raise KeyError (get k d)).

(** The "Determine staff" block: the value of [staff_id] after it *)
Definition determine_staff (booking : BookingRequest.t) (service : Service.t)
    (staff : dict Staff.t) : option string :=
  let staff_id := BookingRequest.staff_id booking in
  if negb (Py.truthy staff_id) then
    match find_staff (Service.category service) staff with
    | Some sid => Some sid
    | None => staff_id
    end
  else staff_id.

(** The appointment record of lines 284 to 299 *)
Definition new_appointment (now : string) (booking : BookingRequest.t)
    (apt_id client_id : string) (client : Client.t) (service_id : string)
    (service : Service.t) (staff_id : string) (staff_member : Staff.t)
    : Appointment.t :=
  {| Appointment.id := apt_id;
     Appointment.client_id := client_id;
     Appointment.client_name := Client.name client;
     Appointment.service_id := service_id;
     Appointment.service_name := Service.name service;
     Appointment.staff_id := staff_id;
     Appointment.staff_name := Staff.name staff_member;
     Appointment.date := BookingRequest.date booking;
     Appointment.time := BookingRequest.time booking;
     Appointment.duration_minutes := Service.duration_minutes service;
     Appointment.price := Service.price service;
     Appointment.status := "scheduled";
     Appointment.notes := Some "Booked via voice AI";
     Appointment.created_at := now;
     Appointment.updated_at := None |}.

(** The successful response of lines 309 to 324 *)
Definition booked (booking : BookingRequest.t) (apt_id : string)
    (service : Service.t) (staff_member : Staff.t) : BookingResponse.t :=
  {| BookingResponse.success := true;
     BookingResponse.appointment_id := Some apt_id;
     BookingResponse.message :=
       "Appointment booked successfully for "
       ++ BookingRequest.client_name booking;
     BookingResponse.confirmation_details :=
       Some {| Confirmation.appointment_id := apt_id;
               Confirmation.service := Service.name service;
               Confirmation.date := BookingRequest.date booking;
               Confirmation.time := BookingRequest.time booking;
               Confirmation.provider := Staff.name staff_member;
               Confirmation.price := Service.price service;
               Confirmation.duration := Service.duration_minutes service;
               Confirmation.client_name := BookingRequest.client_name booking;
               Confirmation.client_phone :=
                 BookingRequest.client_phone booking |} |}.

(** The body of the [try] in [book_appointment] *)
Definition book (now : string) (booking : BookingRequest.t) : M BookingResponse.t :=
  clients <- load_data CLIENTS_FILE ;;
  services <- load_data SERVICES_FILE ;;
  staff <- load_data STAFF_FILE ;;
  appointments <- load_data APPOINTMENTS_FILE ;;
  match find_service (BookingRequest.service_name booking) services with
  | None =>
      ret (failure ("Service '" ++ BookingRequest.service_name booking
                    ++ "' not found"))
  | Some (service_id, service) =>
      let client_id := find_client (BookingRequest.client_phone booking) clients in
      ' (client_id, clients) <-
        (if negb (Py.truthy client_id) then
           let client_num := len clients + 1 in
           let client_id := "CL" ++ Py.zfill 4 client_num in
           let clients : dict (record_of CLIENTS_FILE) :=
             set client_id (new_client now client_id booking) clients in
           save_data CLIENTS_FILE clients ;;;
           ret (client_id, clients)
         else
           ret (match client_id with Some c => c | None => "" end, clients)) ;;
      let staff_id := determine_staff booking service staff in
      match (if Py.truthy staff_id then staff_id else None) with
      | None => ret (failure "No staff available for this service")
      | Some staff_id =>
          match get staff_id staff with
          | None => ret (failure "No staff available for this service")
          | Some staff_member =>
              let apt_num := len appointments + 1 in
              let apt_id := "APT" ++ Py.zfill 4 apt_num in
              client <- item client_id clients ;;
              let appointment :=
                new_appointment now booking apt_id client_id client
                  service_id service staff_id staff_member in
              let appointments : dict (record_of APPOINTMENTS_FILE) :=
                set apt_id appointment appointments in
              save_data APPOINTMENTS_FILE appointments ;;;
              client <- item client_id clients ;;
              let clients : dict (record_of CLIENTS_FILE) :=
                set client_id (Client.add_visit (Service.price service) client)
                    clients in
              save_data CLIENTS_FILE clients ;;;
              ret (booked booking apt_id service staff_member)
          end
      end
  end.

(** [GET /services]: the catalog, or the services of one category,
    letter case ignored *)
Definition get_services (category : option string) : M (list Service.t) :=
  services <- load_data SERVICES_FILE ;;
  let service_list := values services in
  ret (if Py.truthy category then
         let category := match category with Some c => c | None => "" end in
         filter (fun s => String.eqb (Py.lower (Service.category s))
                                     (Py.lower category))
                service_list
       else service_list).

(** The three answers of [GET /services/search] *)
Inductive search_result : Type :=
| found_by_name (service : Service.t)
| found_by_category (service : Service.t)
| no_match (message : string).

Definition search_service (query : string) : M search_result :=
  services <- load_data SERVICES_FILE ;;
  let query_lower := Py.lower query in
  match find (fun service =>
                Py.contains query_lower (Py.lower (Service.name service)))
             (values services) with
  | Some service => ret (found_by_name service)
  | None =>
      match find (fun service =>
                    Py.contains query_lower
                                (Py.lower (Service.category service)))
                 (values services) with
      | Some service => ret (found_by_category service)
      | None => ret (no_match ("No service found matching '" ++ query ++ "'"))
      end
  end.

(** [GET /appointment/{appointment_id}] *)
Definition get_appointment (appointment_id : string) : M Appointment.t :=
  appointments <- load_data APPOINTMENTS_FILE ;;
  match get appointment_id appointments with
  | None => raise (HTTPException 404 "Appointment not found")
  | Some apt => ret apt
  end.

(** [POST /appointment/{appointment_id}/cancel] *)
Definition cancel_appointment (now appointment_id : string)
    (reason : option string) : M Cancellation.t :=
  appointments <- load_data APPOINTMENTS_FILE ;;
  match get appointment_id appointments with
  | None => raise (HTTPException 404 "Appointment not found")
  | Some apt =>
      let apt := Appointment.set_status "cancelled" apt in
      let apt := Appointment.set_notes reason apt in
      let apt := Appointment.set_updated_at now apt in
      let appointments : dict (record_of APPOINTMENTS_FILE) :=
        set appointment_id apt appointments in
      save_data APPOINTMENTS_FILE appointments ;;;
      ret {| Cancellation.success := true;
             Cancellation.message :=
               "Appointment " ++ appointment_id ++ " cancelled";
             Cancellation.appointment := apt |}
  end.

(** [GET /staff/available] *)
Definition get_available_staff (specialty : option string) : M (list Staff.t) :=
  staff <- load_data STAFF_FILE ;;
  let staff_list := values staff in
  ret (if Py.truthy specialty then
         let specialty := match specialty with Some s => s | None => "" end in
         filter (fun s => Py.mem specialty (Staff.specialties s)) staff_list
       else staff_list).

Section Booking.

(** [str(e)], the library's text for an exception *)
Variable str_exn : exn -> string.

Definition book_appointment (now : string) (booking : BookingRequest.t)
    : M BookingResponse.t :=
  try_except (book now booking)
    (fun e => ret (failure ("Error booking appointment: " ++ str_exn e))).

End Booking.

End Api.

(** ** Vocabulary of the properties *)

(** The working window of a staff member, as the availability loop reads
    it: start and end instants. *)
Definition window (staff_member : Staff.t) : outcome (Z * Z) :=
  let? start := Api.hour_minute (Staff.start (Staff.hours staff_member)) in
  let? stop := Api.hour_minute (Staff.end_ (Staff.hours staff_member)) in
  let? current_time := Api.clock start in
  let? end_time := Api.clock stop in
  Ok (current_time, end_time).

(** The start instant of [a] and its duration, when its time reads as
    HH:MM *)
Definition span (a : Appointment.t) : option (Z * Z) :=
  option_map (fun t => (t, t + Appointment.duration_minutes a))
             (Datetime.strptime_HM (Appointment.time a)).

(** Two date strings name one day: they are equal, or both read as
    YYYY-MM-DD and give the same year, month and day ("2026-11-7" and
    "2026-11-07" do) *)
Definition same_day (d1 d2 : string) : bool :=
  String.eqb d1 d2
  || match Datetime.strptime_Ymd d1, Datetime.strptime_Ymd d2 with
     | Some (y1, m1, day1), Some (y2, m2, day2) =>
         (y1 =? y2) && (m1 =? m2) && (day1 =? day2)
     | _, _ => false
     end.

(** Two scheduled appointments of one staff member on one day whose
    intervals [time, time + duration_minutes) share an instant *)
Definition conflicts (a b : Appointment.t) : bool :=
  String.eqb (Appointment.staff_id a) (Appointment.staff_id b)
  && same_day (Appointment.date a) (Appointment.date b)
  && String.eqb (Appointment.status a) "scheduled"
  && String.eqb (Appointment.status b) "scheduled"
  && match span a, span b with
     | Some (s1, e1), Some (s2, e2) => Z.max s1 s2 <? Z.min e1 e2
     | _, _ => false
     end.

(** The invariant of spec section 3 on a collection of appointments *)
Fixpoint no_double_booking (l : list Appointment.t) : bool :=
  match l with
  | [] => true
  | a :: r => forallb (fun b => negb (conflicts a b)) r && no_double_booking r
  end.

(** The keys the two front ends generate *)
Definition client_key (n : Z) : string := "CL" ++ Py.zfill 4 n.
Definition appointment_key (n : Z) : string := "APT" ++ Py.zfill 4 n.

(** The client a booking is made for: the first one with the phone number
    of the request, or a new one under the next key *)
Definition booking_client_id (booking : BookingRequest.t)
    (clients : dict Client.t) : string :=
  match Api.find_client (BookingRequest.client_phone booking) clients with
  | Some cid => if String.eqb cid "" then client_key (len clients + 1) else cid
  | None => client_key (len clients + 1)
  end.

(** The clients dictionary once that client is in it *)
Definition clients_with_booker (now : string) (booking : BookingRequest.t)
    (clients : dict Client.t) : dict Client.t :=
  if Py.truthy (Api.find_client (BookingRequest.client_phone booking) clients)
  then clients
  else set (client_key (len clients + 1))
           (Api.new_client now (client_key (len clients + 1)) booking) clients.

(** The keys of a collection that only the tools have filled: the first
    [n] generated keys, in order *)
Definition sequential {A : Type} (key : Z -> string) (d : dict A) : Prop :=
  keys d = map (fun i => key (Z.of_nat i)) (seq 1 (List.length d)).

(** The answers and the slot the properties name *)
Definition STF002_slot (time : string) : TimeSlot.t :=
  {| TimeSlot.time := time; TimeSlot.staff_id := "STF002";
     TimeSlot.staff_name := "Sarah Johnson" |}.

Definition not_found (appointment_id : string) : string :=
  "Error: Appointment " ++ appointment_id ++ " not found".

Definition invalid_status : string :=
  "Error: Invalid status. Must be one of: scheduled, completed, cancelled, no-show".

Definition invalid_date : string := "Invalid date format. Use YYYY-MM-DD".

(** ** Scenarios *)

Definition empty_world : world :=
  {| appointments_file := Absent; clients_file := Absent;
     services_file := Absent; staff_file := Absent |}.

(** The files after the first start of either server *)
Definition seeded : world := fst (Server.initialize_default_data empty_world).

(** A Hydrafacial with STF002, sixty minutes, still scheduled *)
Definition hydrafacial (date time : string) : Appointment.t :=
  {| Appointment.id := "APT0001";
     Appointment.client_id := "CL0001";
     Appointment.client_name := "Ana Diaz";
     Appointment.service_id := "SVC003";
     Appointment.service_name := "Hydrafacial";
     Appointment.staff_id := "STF002";
     Appointment.staff_name := "Sarah Johnson";
     Appointment.date := date;
     Appointment.time := time;
     Appointment.duration_minutes := 60;
     Appointment.price := 250%float;
     Appointment.status := "scheduled";
     Appointment.notes := Some "Booked via voice AI";
     Appointment.created_at := "2026-11-01T09:00:00";
     Appointment.updated_at := None |}.

(** 3 November 2026, a Tuesday *)
Definition tuesday : string := "2026-11-03".

(** The seeded catalogs and one Hydrafacial at ten on that Tuesday *)
Definition one_hydrafacial : world :=
  write APPOINTMENTS_FILE (Json [("APT0001", hydrafacial tuesday "10:00")]) seeded.

Definition request (service_name date time phone : string)
    (staff_id : option string) : BookingRequest.t :=
  {| BookingRequest.service_name := service_name;
     BookingRequest.date := date;
     BookingRequest.time := time;
     BookingRequest.client_name := "Ana Diaz";
     BookingRequest.client_phone := phone;
     BookingRequest.client_email := Some "ana@example.com";
     BookingRequest.staff_id := staff_id |}.

Definition no_text (e : exn) : string := "".
Definition no_digits (x : float) : string := "".
Definition clock_now : string := "2026-11-01T09:00:00".

(** The answer of the HTTP availability endpoint in [one_hydrafacial] *)
Definition tuesday_answer : Availability.t :=
  Eval vm_compute in
    match snd (Api.check_availability tuesday None one_hydrafacial) with
    | Ok r => r
    | Raise _ => {| Availability.date := ""; Availability.day_of_week := "";
                    Availability.available_slots := [] |}
    end.

(** A first booking on the seeded files, and the same request once more *)
Definition first_booking : world * outcome BookingResponse.t :=
  Eval vm_compute in
    Api.book_appointment no_text clock_now
      (request "hydrafacial" tuesday "10:00" "305-555-0100" None) seeded.

Definition second_booking : world * outcome BookingResponse.t :=
  Eval vm_compute in
    Api.book_appointment no_text clock_now
      (request "hydrafacial" tuesday "10:00" "305-555-0100" None)
      (fst first_booking).

(** A Hydrafacial asked of STF001, whose specialties are injectables and
    laser treatments *)
Definition off_specialty_booking : world * outcome BookingResponse.t :=
  Eval vm_compute in
    Api.book_appointment no_text clock_now
      (request "Hydrafacial" tuesday "11:00" "305-555-0100" (Some "STF001"))
      seeded.

Definition response_of (run : world * outcome BookingResponse.t)
    : BookingResponse.t :=
  match snd run with
  | Ok r => r
  | Raise _ => Api.failure ""
  end.

Definition stored_appointments (w : world) : list Appointment.t :=
  match contents (appointments_file w) with
  | Ok d => values d
  | Raise _ => []
  end.

(** 7 November 2026, a Saturday: STF002 is the first to work that day *)
Definition saturday : string := "2026-11-07".

Definition saturday_hydrafacial : world :=
  write APPOINTMENTS_FILE (Json [("APT0001", hydrafacial saturday "10:00")]) seeded.

Definition saturday_answer : Availability.t :=
  Eval vm_compute in
    match snd (Api.check_availability saturday None saturday_hydrafacial) with
    | Ok r => r
    | Raise _ => {| Availability.date := ""; Availability.day_of_week := "";
                    Availability.available_slots := [] |}
    end.

(** The same Saturday written with a one-digit day, which [strptime]
    accepts, and a Hydrafacial booked under that spelling *)
Definition saturday_one_digit : string := "2026-11-7".

Definition one_digit_booking : world * outcome BookingResponse.t :=
  Eval vm_compute in
    Api.book_appointment no_text clock_now
      (request "hydrafacial" saturday_one_digit "10:00" "305-555-0100" None)
      seeded.

Definition answer_after_one_digit_booking : Availability.t :=
  Eval vm_compute in
    match snd (Api.check_availability saturday None (fst one_digit_booking)) with
    | Ok r => r
    | Raise _ => {| Availability.date := ""; Availability.day_of_week := "";
                    Availability.available_slots := [] |}
    end.

(** A booking with a staff id nobody has *)
Definition unknown_staff_booking : world * outcome BookingResponse.t :=
  Eval vm_compute in
    Api.book_appointment no_text clock_now
      (request "Botox" tuesday "09:00" "305-555-0199" (Some "STF999")) seeded.

(** ** Vocabulary of the further properties *)

(** The instants the [while] loop visits: [current_time], thirty minutes
    later, and so on below [end_time] *)
Definition ticks (current_time end_time : Z) : list Z :=
  map (fun k => current_time + 30 * Z.of_nat k)
      (seq 0 (Z.to_nat ((end_time - current_time + 29) / 30))).

(** The instant [t] lies in [time, time + duration_minutes) of [apt]. *)
Definition covers (apt : Appointment.t) (t : Z) : bool :=
  match Datetime.strptime_HM (Appointment.time apt) with
  | Some apt_start =>
      (apt_start <=? t) && (t <? apt_start + Appointment.duration_minutes apt)
  | None => false
  end.

Definition uncovered (apts : list Appointment.t) (t : Z) : bool :=
  forallb (fun apt => negb (covers apt t)) apts.

(** The slots of one entry of the staff file on [date]: the instants of
    the working window that no scheduled appointment of the member covers *)
Definition staff_slots (appointments : dict Appointment.t) (date : string)
    (entry : string * Staff.t) : list TimeSlot.t :=
  match window (snd entry) with
  | Ok (start_time, end_time) =>
      map (fun t => Api.slot t (fst entry) (snd entry))
          (filter (uncovered (Server.scheduled_for appointments (fst entry) date))
                  (ticks start_time end_time))
  | Raise _ => []
  end.

(** The same request for another date and time *)
Definition rescheduled (date time : string) (booking : BookingRequest.t)
    : BookingRequest.t :=
  {| BookingRequest.service_name := BookingRequest.service_name booking;
     BookingRequest.date := date;
     BookingRequest.time := time;
     BookingRequest.client_name := BookingRequest.client_name booking;
     BookingRequest.client_phone := BookingRequest.client_phone booking;
     BookingRequest.client_email := BookingRequest.client_email booking;
     BookingRequest.staff_id := BookingRequest.staff_id booking |}.

(** The record a status update stores *)
Definition restamped (now status : string) (notes : option string)
    (apt : Appointment.t) : Appointment.t :=
  Appointment.set_updated_at now
    ((if Py.truthy notes then Appointment.set_notes notes else fun a => a)
       (Appointment.set_status status apt)).

(** The files with another appointments dictionary *)
Definition with_appointments (appointments : dict Appointment.t) (w : world)
    : world :=
  write APPOINTMENTS_FILE (Json appointments) w.

(** The record [create_appointment] stores (lines 186 to 201) *)
Definition tool_appointment (now apt_id client_id : string) (client : Client.t)
    (service_id : string) (svc : Service.t) (staff_id : string)
    (member : Staff.t) (date time : string) (notes : option string)
    : Appointment.t :=
  {| Appointment.id := apt_id;
     Appointment.client_id := client_id;
     Appointment.client_name := Client.name client;
     Appointment.service_id := service_id;
     Appointment.service_name := Service.name svc;
     Appointment.staff_id := staff_id;
     Appointment.staff_name := Staff.name member;
     Appointment.date := date;
     Appointment.time := time;
     Appointment.duration_minutes := Service.duration_minutes svc;
     Appointment.price := Service.price svc;
     Appointment.status := "scheduled";
     Appointment.notes := notes;
     Appointment.created_at := now;
     Appointment.updated_at := None |}.

(** A booking for the Saturday of the scenarios whose time is no time *)
Definition noon_booking : world * outcome BookingResponse.t :=
  Eval vm_compute in
    Api.book_appointment no_text clock_now
      (request "hydrafacial" saturday "noon" "305-555-0100" None) seeded.

(** The record [add_client] stores (lines 345 to 357) *)
Definition registered_client (now client_id name email phone date_of_birth
    address emergency_contact medical_notes : string) : Client.t :=
  {| Client.id := client_id; Client.name := name;
     Client.email := Some email; Client.phone := phone;
     Client.date_of_birth := date_of_birth; Client.address := address;
     Client.emergency_contact := emergency_contact;
     Client.medical_notes := medical_notes; Client.created_at := now;
     Client.total_visits := 0; Client.total_spent := 0%float |}.

(** A client registered through the tool on the seeded files, then a
    booking with her phone number under another name *)
Definition registered : world :=
  Eval vm_compute in
    fst (Server.add_client clock_now "Ana Diaz" "ana@example.com"
           "305-555-0100" "1990-04-12" "" "" "" seeded).

Definition booking_after_registration : world * outcome BookingResponse.t :=
  Eval vm_compute in
    Api.book_appointment no_text clock_now
      {| BookingRequest.service_name := "botox";
         BookingRequest.date := tuesday;
         BookingRequest.time := "09:00";
         BookingRequest.client_name := "A. Diaz";
         BookingRequest.client_phone := "305-555-0100";
         BookingRequest.client_email := None;
         BookingRequest.staff_id := None |}
      registered.

(** * Properties *)

(** ** The library models *)

Lemma digit_val_range c d : Py.digit_val c = Some d -> 0 <= d <= 9.
Proof.
  unfold Py.digit_val.
  destruct ((48 <=? Py.code c) && (Py.code c <=? 57)) eqn:E; [|discriminate].
  intros [= <-]. apply andb_true_iff in E as [E1 E2]. lia.
Qed.

Lemma digit_in_range lo hi c d :
  Datetime.digit_in lo hi c = Some d -> lo <= d <= hi.
Proof.
  unfold Datetime.digit_in. destruct (Py.digit_val c); [|discriminate].
  destruct ((lo <=? z) && (z <=? hi)) eqn:E; [|discriminate].
  intros [= <-]. apply andb_true_iff in E as [E1 E2]. lia.
Qed.

Lemma one_range lo hi cs v r :
  Datetime.one (Datetime.digit_in lo hi) cs = Some (v, r) -> lo <= v <= hi.
Proof.
  destruct cs as [|c cs]; simpl; [discriminate|].
  destruct (Datetime.digit_in lo hi c) eqn:E; simpl; [|discriminate].
  intros [= <- _]. eauto using digit_in_range.
Qed.

Lemma two_range a b c d cs v r :
  Datetime.two (Datetime.digit_in a b) (Datetime.digit_in c d) cs = Some (v, r) ->
  10 * a + c <= v <= 10 * b + d.
Proof.
  unfold Datetime.two. destruct cs as [|c1 [|c2 cs]]; try discriminate.
  destruct (Datetime.digit_in a b c1) eqn:E1; [|discriminate].
  destruct (Datetime.digit_in c d c2) eqn:E2; [|discriminate].
  intros H. assert (v = 10 * z + z0) as -> by congruence.
  apply digit_in_range in E1. apply digit_in_range in E2. lia.
Qed.

(** Whatever [first_match] returns comes from one of the alternatives. *)
Lemma first_match_inv {A B : Type} (alts : list (Datetime.alt A))
    (k : A -> list ascii -> option B) cs b :
  Datetime.first_match alts k cs = Some b ->
  exists a v r, In a alts /\ a cs = Some (v, r) /\ k v r = Some b.
Proof.
  induction alts as [|a more IH]; simpl; [discriminate|].
  destruct (a cs) as [[v r]|] eqn:Ea.
  - destruct (k v r) eqn:Ek.
    + intros [= <-]. exists a, v, r. auto.
    + intros H. destruct (IH H) as (a' & v' & r' & Hin & H1 & H2).
      exists a', v', r'. auto.
  - intros H. destruct (IH H) as (a' & v' & r' & Hin & H1 & H2).
    exists a', v', r'. auto.
Qed.

Lemma expect_inv {B : Type} x (k : list ascii -> option B) cs b :
  Datetime.expect x k cs = Some b -> exists r, k r = Some b.
Proof.
  destruct cs as [|c r]; simpl; [discriminate|].
  destruct (Ascii.eqb c x); [eauto|discriminate].
Qed.

(** A time of day read by [strptime(_, "%H:%M")] lies within the day. *)
Lemma strptime_HM_range s t : Datetime.strptime_HM s = Some t -> 0 <= t < 1440.
Proof.
  unfold Datetime.strptime_HM.
  destruct (Datetime.first_match _ _ _) as [[[h m] r]|] eqn:E; [|discriminate].
  destruct r; [|discriminate].
  intros H. assert (t = 60 * h + m) as -> by congruence. clear H.
  apply first_match_inv in E as (a & h' & r1 & Ha & Hh & E).
  apply expect_inv in E as (r2 & E).
  apply first_match_inv in E as (a' & m' & r3 & Ha' & Hm & E).
  injection E as -> -> _.
  assert (0 <= h <= 23) as Hh'.
  { simpl in Ha. destruct Ha as [<-|[<-|[<-|[]]]].
    - apply two_range in Hh. lia.
    - apply two_range in Hh. lia.
    - apply one_range in Hh. lia. }
  assert (0 <= m <= 59) as Hm'.
  { simpl in Ha'. destruct Ha' as [<-|[<-|[]]].
    - apply two_range in Hm. lia.
    - apply one_range in Hm. lia. }
  lia.
Qed.

(** Formatting an instant of 1900-01-01 and reading it back *)
Lemma strptime_strftime_HM t :
  0 <= t < 1440 -> Datetime.strptime_HM (Datetime.strftime_HM t) = Some t.
Proof.
  intros Ht.
  assert (forallb (fun n => match Datetime.strptime_HM
                                    (Datetime.strftime_HM (Z.of_nat n)) with
                            | Some t' => t' =? Z.of_nat n
                            | None => false
                            end) (seq 0 1440) = true) as Hall
    by (vm_compute; reflexivity).
  rewrite forallb_forall in Hall.
  specialize (Hall (Z.to_nat t)).
  rewrite Z2Nat.id in Hall by lia.
  destruct (Datetime.strptime_HM (Datetime.strftime_HM t)) as [t'|].
  - f_equal. apply Z.eqb_eq. apply Hall. apply in_seq. lia.
  - discriminate Hall. apply in_seq. lia.
Qed.

Lemma add_minutes_sum t d e : Datetime.add_minutes t d = Some e -> e = t + d.
Proof.
  unfold Datetime.add_minutes.
  destruct (_ && _); [intros [= <-]; reflexivity | discriminate].
Qed.

(** ** Dictionaries *)

Lemma get_In {A : Type} k (d : dict A) v : get k d = Some v -> In (k, v) d.
Proof.
  induction d as [|[k' v'] d IH]; simpl; [discriminate|].
  destruct (String.eqb_spec k k') as [->|Hne].
  - intros [= ->]. auto.
  - auto.
Qed.

Lemma In_get {A : Type} k (d : dict A) v :
  Dict.wf d -> In (k, v) d -> get k d = Some v.
Proof.
  unfold Dict.wf, keys.
  induction d as [|[k' v'] d IH]; simpl; [tauto|].
  intros Hwf [Heq|Hin].
  - injection Heq as -> ->. rewrite String.eqb_refl. reflexivity.
  - inversion Hwf as [|? ? Hnotin Hwf']; subst.
    destruct (String.eqb_spec k k') as [->|Hne]; [|auto].
    exfalso. apply Hnotin. apply (in_map fst) in Hin. exact Hin.
Qed.

Lemma In_some_get {A : Type} k (d : dict A) v :
  In (k, v) d -> exists v', get k d = Some v'.
Proof.
  induction d as [|[k' v'] d IH]; simpl; [tauto|].
  intros [Heq|Hin].
  - injection Heq as -> ->. rewrite String.eqb_refl. eauto.
  - destruct (String.eqb k k'); eauto.
Qed.

Lemma get_set_same {A : Type} k v (d : dict A) : get k (set k v d) = Some v.
Proof.
  induction d as [|[k' v'] d IH]; simpl.
  - rewrite String.eqb_refl. reflexivity.
  - destruct (String.eqb_spec k k') as [->|Hne]; simpl.
    + rewrite String.eqb_refl. reflexivity.
    + destruct (String.eqb_spec k k'); [contradiction|exact IH].
Qed.

Lemma get_set_other {A : Type} k k' v (d : dict A) :
  k' <> k -> get k' (set k v d) = get k' d.
Proof.
  intros Hne. induction d as [|[k0 v0] d IH]; simpl.
  - destruct (String.eqb_spec k' k); [contradiction|reflexivity].
  - destruct (String.eqb_spec k k0) as [->|Hk]; simpl.
    + destruct (String.eqb_spec k' k0); [contradiction|reflexivity].
    + rewrite IH. reflexivity.
Qed.

(** A new key goes last. *)
Lemma set_fresh {A : Type} k v (d : dict A) :
  get k d = None -> set k v d = (d ++ [(k, v)])%list.
Proof.
  induction d as [|[k' v'] d IH]; simpl; [reflexivity|].
  destruct (String.eqb k k'); [discriminate|].
  intros H. rewrite IH by exact H. reflexivity.
Qed.

(** An existing key keeps the number and the order of the entries. *)
Lemma keys_set_present {A : Type} k v (d : dict A) :
  get k d <> None -> keys (set k v d) = keys d.
Proof.
  unfold keys. induction d as [|[k' v'] d IH]; simpl; [congruence|].
  destruct (String.eqb_spec k k') as [->|Hne]; simpl; [reflexivity|].
  intros H. rewrite IH by exact H. reflexivity.
Qed.

Lemma find_In_fst {A : Type} (p : string * A -> bool) (d : dict A) k v :
  find p d = Some (k, v) -> In (k, v) d /\ p (k, v) = true.
Proof. apply find_some. Qed.

(** ** The availability loops *)

(** A slot is kept only when no appointment of the list covers its start. *)
Lemma is_available_true t apts :
  Api.is_available t apts = Ok true ->
  forall apt, In apt apts ->
  exists st, Datetime.strptime_HM (Appointment.time apt) = Some st /\
             ~ (st <= t < st + Appointment.duration_minutes apt).
Proof.
  induction apts as [|a apts IH]; simpl; [tauto|].
  destruct (Datetime.strptime_HM (Appointment.time a)) as [st|] eqn:Est;
    simpl; [|discriminate].
  destruct (Datetime.add_minutes st (Appointment.duration_minutes a))
    as [en|] eqn:Een; simpl; [|discriminate].
  apply add_minutes_sum in Een. subst en.
  destruct ((st <=? t) && (t <? st + Appointment.duration_minutes a)) eqn:Ein;
    [discriminate|].
  intros Hrest apt [<-|Hin].
  - exists st. split; [exact Est|].
    apply andb_false_iff in Ein. destruct Ein as [E|E]; lia.
  - apply IH; assumption.
Qed.

(** The invariant of the [while] loop: every slot it adds starts at an
    instant of [current_time, end_time) that passed the check. *)
Lemma slots_until_inv end_time sid m apts cur acc out :
  Api.slots_until end_time sid m apts cur acc = Ok out ->
  forall s, In s out ->
  In s acc \/
  exists t, s = Api.slot t sid m /\ cur <= t < end_time /\
            Api.is_available t apts = Ok true.
Proof.
  funelim (Api.slots_until end_time sid m apts cur acc);
    intros Hout s Hs.
  - injection Hout as <-. left; exact Hs.
  - match goal with
    | IH : forall out, _ = Ok out -> _ |- _ =>
        destruct (IH _ Hout s Hs) as [Hacc|(t & -> & Ht & Hav)]
    end.
    + apply in_app_or in Hacc as [Hacc|[<-|[]]]; [left; exact Hacc|].
      right. exists current_time. repeat split; try lia. assumption.
    + right. exists t. repeat split; try lia. assumption.
  - match goal with
    | IH : forall out, _ = Ok out -> _ |- _ =>
        destruct (IH _ Hout s Hs) as [Hacc|(t & -> & Ht & Hav)]
    end.
    + left; exact Hacc.
    + right. exists t. repeat split; try lia. assumption.
  - discriminate.
Qed.

Lemma clock_range hm t : Api.clock hm = Ok t -> 0 <= t < 1440.
Proof.
  unfold Api.clock.
  destruct (Datetime.strptime_HM _) as [x|] eqn:Ex; simpl; [|discriminate].
  intros [= <-]. eapply strptime_HM_range; eassumption.
Qed.

(** The working window read from a staff record lies within the day. *)
Lemma window_range m st en :
  window m = Ok (st, en) -> 0 <= st < 1440 /\ 0 <= en < 1440.
Proof.
  unfold window.
  destruct (Api.hour_minute (Staff.start _)) as [a|]; simpl; [|discriminate].
  destruct (Api.hour_minute (Staff.end_ _)) as [b|]; simpl; [|discriminate].
  destruct (Api.clock a) as [x|] eqn:Ex; simpl; [|discriminate].
  destruct (Api.clock b) as [y|] eqn:Ey; simpl; [|discriminate].
  intros [= <- <-]. split; eapply clock_range; eassumption.
Qed.

(** The invariant of the loop over the staff *)
Lemma slots_of_staff_inv appointments date staff acc out :
  Api.slots_of_staff appointments date staff acc = Ok out ->
  forall s, In s out ->
  In s acc \/
  exists sid m st en t,
    In (sid, m) staff /\ window m = Ok (st, en) /\
    s = Api.slot t sid m /\ st <= t < en /\
    Api.is_available t (Server.scheduled_for appointments sid date) = Ok true.
Proof.
  revert acc. induction staff as [|[sid m] staff IH]; intros acc; simpl.
  - intros [= <-] s Hs. left; exact Hs.
  - destruct (Api.hour_minute (Staff.start (Staff.hours m))) as [a|] eqn:Ea;
      simpl; [|discriminate].
    destruct (Api.hour_minute (Staff.end_ (Staff.hours m))) as [b|] eqn:Eb;
      simpl; [|discriminate].
    destruct (Api.clock a) as [st|] eqn:Est; simpl; [|discriminate].
    destruct (Api.clock b) as [en|] eqn:Een; simpl; [|discriminate].
    destruct (Api.slots_until en sid m _ st acc) as [mid|] eqn:Emid;
      simpl; [|discriminate].
    intros Hout s Hs.
    destruct (IH _ Hout s Hs) as [Hmid|(sid' & m' & st' & en' & t & Hin & Hw & -> & Ht & Hav)].
    + destruct (slots_until_inv _ _ _ _ _ _ _ Emid s Hmid)
        as [Hacc|(t & -> & Ht & Hav)]; [left; exact Hacc|].
      right. exists sid, m, st, en, t. repeat split; auto; try lia.
      unfold window. rewrite Ea, Eb. simpl. rewrite Est, Een. reflexivity.
    + right. exists sid', m', st', en', t. repeat split; auto; lia.
Qed.

(** Every computed slot belongs to a staff member working that day, starts
    inside the member's window and passed the check against the member's
    scheduled appointments of the date. *)
Lemma compute_slots_sound date day_name staff appointments slots :
  Api.compute_slots date day_name staff appointments = Ok slots ->
  forall s, In s slots ->
  exists m st en t,
    In (TimeSlot.staff_id s, m) staff /\
    TimeSlot.staff_name s = Staff.name m /\
    Py.mem day_name (Staff.available_days m) = true /\
    window m = Ok (st, en) /\
    Datetime.strptime_HM (TimeSlot.time s) = Some t /\
    st <= t < en /\
    Api.is_available t
      (Server.scheduled_for appointments (TimeSlot.staff_id s) date) = Ok true.
Proof.
  unfold Api.compute_slots. intros Hc s Hs.
  destruct (slots_of_staff_inv _ _ _ _ _ Hc s Hs)
    as [[]|(sid & m & st & en & t & Hin & Hw & -> & Ht & Hav)].
  unfold Server.working_on in Hin. apply filter_In in Hin as [Hin Hday].
  exists m, st, en, t. simpl.
  destruct (window_range _ _ _ Hw) as [Hst Hen].
  repeat split; auto; try lia.
  apply strptime_strftime_HM. lia.
Qed.

(** What a successful answer of the HTTP availability endpoint is made of *)
Lemma check_availability_inv date service_id w w' r :
  Api.check_availability date service_id w = (w', Ok r) ->
  exists ymd staff appointments slots,
    Datetime.strptime_Ymd date = Some ymd /\
    contents (staff_file w) = Ok staff /\
    contents (appointments_file w) = Ok appointments /\
    Api.compute_slots date (Datetime.strftime_A ymd) staff appointments
      = Ok slots /\
    Availability.available_slots r = firstn 10 slots /\
    w' = w.
Proof.
  unfold Api.check_availability.
  destruct (Datetime.strptime_Ymd date) as [ymd|]; [|discriminate].
  unfold bind, load_data, lift, ret. simpl.
  destruct (contents (services_file w)) as [services|]; [|discriminate].
  destruct (contents (staff_file w)) as [staff|]; [|discriminate].
  destruct (contents (appointments_file w)) as [appointments|]; [|discriminate].
  destruct (Api.compute_slots _ _ _ _) as [slots|] eqn:Es; [|discriminate].
  intros [= <- <-]. exists ymd, staff, appointments, slots.
  repeat split; auto.
Qed.

Lemma In_firstn {A : Type} n (l : list A) x : In x (firstn n l) -> In x l.
Proof.
  revert l. induction n as [|n IH]; intros [|y l]; simpl; try tauto.
  intros [->|H]; auto.
Qed.

(** ** C3 *)

(** C3. Every slot the availability endpoint returns starts inside the
    working window of its staff member (start <= time < end), and that
    member's [available_days] contain the weekday of the requested date. *)
Theorem slots_within_working_hours date service_id w w' r staff :
  contents (staff_file w) = Ok staff ->
  Dict.wf staff ->
  Api.check_availability date service_id w = (w', Ok r) ->
  forall s, In s (Availability.available_slots r) ->
  exists ymd member start_time end_time t,
    Datetime.strptime_Ymd date = Some ymd /\
    get (TimeSlot.staff_id s) staff = Some member /\
    TimeSlot.staff_name s = Staff.name member /\
    Py.mem (Datetime.strftime_A ymd) (Staff.available_days member) = true /\
    window member = Ok (start_time, end_time) /\
    Datetime.strptime_HM (TimeSlot.time s) = Some t /\
    start_time <= t < end_time.
Proof.
  intros Hstaff Hwf Hrun s Hs.
  apply check_availability_inv in Hrun
    as (ymd & staff' & appointments & slots & Hd & Hstaff' & _ & Hc & Hr & _).
  rewrite Hstaff in Hstaff'. injection Hstaff' as <-.
  rewrite Hr in Hs. apply In_firstn in Hs.
  destruct (compute_slots_sound _ _ _ _ _ Hc s Hs)
    as (m & st & en & t & Hin & Hname & Hday & Hw & Ht & Hrange & _).
  exists ymd, m, st, en, t. repeat split; auto; try lia.
  apply In_get; assumption.
Qed.

(** ** C4 *)

(** C4 (as the code has it). No slot the availability endpoint returns
    starts inside [apt.time, apt.time + apt.duration_minutes) for a
    scheduled appointment of the same staff member whose stored date is,
    character for character, the date string of the query: line 172
    compares the two strings, not the days they name. *)
Theorem slots_avoid_scheduled_appointments date service_id w w' r appointments :
  contents (appointments_file w) = Ok appointments ->
  Api.check_availability date service_id w = (w', Ok r) ->
  forall s, In s (Availability.available_slots r) ->
  forall k apt, In (k, apt) appointments ->
    Appointment.staff_id apt = TimeSlot.staff_id s ->
    Appointment.date apt = date ->
    Appointment.status apt = "scheduled" ->
    exists t apt_start,
      Datetime.strptime_HM (TimeSlot.time s) = Some t /\
      Datetime.strptime_HM (Appointment.time apt) = Some apt_start /\
      ~ (apt_start <= t < apt_start + Appointment.duration_minutes apt).
Proof.
  intros Happ Hrun s Hs k apt Hin Hsid Hdate Hstatus.
  apply check_availability_inv in Hrun
    as (ymd & staff & appointments' & slots & Hd & _ & Happ' & Hc & Hr & _).
  rewrite Happ in Happ'. injection Happ' as <-.
  rewrite Hr in Hs. apply In_firstn in Hs.
  destruct (compute_slots_sound _ _ _ _ _ Hc s Hs)
    as (m & st & en & t & _ & _ & _ & _ & Ht & _ & Hav).
  assert (In apt (Server.scheduled_for appointments (TimeSlot.staff_id s) date))
    as Hsched.
  { unfold Server.scheduled_for. apply filter_In. split.
    - unfold values. apply (in_map snd) in Hin. exact Hin.
    - rewrite Hsid, Hdate, Hstatus, !String.eqb_refl. reflexivity. }
  destruct (is_available_true _ _ Hav apt Hsched) as (apt_start & Hstart & Hout).
  exists t, apt_start. auto.
Qed.

(** ** The booking orchestrator, step by step *)

(** Once the four collections are loaded and the service is resolved, a
    booking ends in one of three ways: no staff, an unknown client key
    (which cannot happen, see [booking_client_present]) or an appointment. *)
Lemma book_run now booking w clients services staff appointments
    service_id service :
  contents (clients_file w) = Ok clients ->
  contents (services_file w) = Ok services ->
  contents (staff_file w) = Ok staff ->
  contents (appointments_file w) = Ok appointments ->
  Api.find_service (BookingRequest.service_name booking) services
    = Some (service_id, service) ->
  let found := Api.find_client (BookingRequest.client_phone booking) clients in
  let new_id := client_key (len clients + 1) in
  let client_id :=
    if Py.truthy found then match found with Some c => c | None => "" end
    else new_id in
  let clients1 :=
    if Py.truthy found then clients
    else set new_id (Api.new_client now new_id booking) clients in
  let w1 := if Py.truthy found then w else write CLIENTS_FILE (Json clients1) w in
  let apt_id := appointment_key (len appointments + 1) in
  let chosen := Api.determine_staff booking service staff in
  Api.book now booking w =
    match (if Py.truthy chosen then chosen else None) with
    | None => (w1, Ok (Api.failure "No staff available for this service"))
    | Some staff_id =>
        match get staff_id staff with
        | None => (w1, Ok (Api.failure "No staff available for this service"))
        | Some staff_member =>
            match get client_id clients1 with
            | None => (w1, Raise KeyError)
            | Some client =>
                (write CLIENTS_FILE
                   (Json (set client_id
                            (Client.add_visit (Service.price service) client)
                            clients1))
                   (write APPOINTMENTS_FILE
                      (Json (set apt_id
                               (Api.new_appointment now booking apt_id client_id
                                  client service_id service staff_id staff_member)
                               appointments))
                      w1),
                 Ok (Api.booked booking apt_id service staff_member))
            end
        end
    end.
Proof.
  intros Hc Hs Hst Ha Hfind found new_id client_id clients1 w1 apt_id chosen.
  unfold Api.book, bind, load_data. simpl.
  rewrite Hc, Hs, Hst, Ha, Hfind.
  fold found. fold chosen.
  subst client_id clients1 w1.
  destruct (Py.truthy found) eqn:Efound; simpl.
  - destruct (if Py.truthy chosen then chosen else None) as [staff_id|];
      [|reflexivity].
    destruct (get staff_id staff) as [staff_member|]; [|reflexivity].
    unfold Api.item, lift, save_data, ret. simpl.
    destruct (get _ clients) as [client|]; reflexivity.
  - unfold save_data, ret. simpl.
    destruct (if Py.truthy chosen then chosen else None) as [staff_id|];
      [|reflexivity].
    destruct (get staff_id staff) as [staff_member|]; [|reflexivity].
    unfold Api.item, lift, new_id, apt_id, client_key, appointment_key. simpl.
    rewrite !get_set_same. reflexivity.
Qed.

Lemma find_all_false {A : Type} (p : A -> bool) (l : list A) :
  (forall x, In x l -> p x = false) -> find p l = None.
Proof.
  induction l as [|x l IH]; simpl; [reflexivity|].
  intros H. rewrite (H x) by auto. apply IH. auto.
Qed.

(** The handler of [book_appointment] turns every exception into a
    response. *)
Lemma book_appointment_returns str_exn now booking w :
  exists w' r, Api.book_appointment str_exn now booking w = (w', Ok r).
Proof.
  unfold Api.book_appointment, try_except.
  destruct (Api.book now booking w) as [w' [r|e]]; unfold ret; eauto.
Qed.

Lemma contents_cases {A : Type} (f : file A) :
  (exists d, contents f = Ok d) \/ contents f = Raise JSONDecodeError.
Proof. destruct f; simpl; eauto. Qed.

(** A booking that fails while loading leaves the files as they are. *)
Lemma book_load_failure now booking w :
  contents (clients_file w) = Raise JSONDecodeError \/
  contents (services_file w) = Raise JSONDecodeError \/
  contents (staff_file w) = Raise JSONDecodeError \/
  contents (appointments_file w) = Raise JSONDecodeError ->
  Api.book now booking w = (w, Raise JSONDecodeError).
Proof.
  intros H. unfold Api.book, bind, load_data. simpl.
  destruct (contents_cases (clients_file w)) as [[clients Hc]|Hc];
    rewrite Hc; [|reflexivity].
  destruct (contents_cases (services_file w)) as [[services Hs]|Hs];
    rewrite Hs; [|reflexivity].
  destruct (contents_cases (staff_file w)) as [[staff Hst]|Hst];
    rewrite Hst; [|reflexivity].
  destruct (contents_cases (appointments_file w)) as [[appointments Ha]|Ha];
    rewrite Ha; [|reflexivity].
  destruct H as [H|[H|[H|H]]]; congruence.
Qed.

(** ** C7 *)

(** C7. A booking whose service name is a case-insensitive substring of no
    catalog service name answers [success = false] without an
    [appointment_id] and leaves every store as it was; and whatever the
    request and the state of the files, [book_appointment] answers with a
    response instead of raising. *)
Theorem unknown_service_is_refused str_exn now booking w :
  (forall services, contents (services_file w) = Ok services ->
     forall sid svc, In (sid, svc) services ->
       Py.contains (Py.lower (BookingRequest.service_name booking))
                   (Py.lower (Service.name svc)) = false) ->
  (exists r, Api.book_appointment str_exn now booking w = (w, Ok r) /\
             BookingResponse.success r = false /\
             BookingResponse.appointment_id r = None) /\
  (forall now' booking' w0, exists w' r',
     Api.book_appointment str_exn now' booking' w0 = (w', Ok r')).
Proof.
  intros Hnone. split; [|intros; apply book_appointment_returns].
  unfold Api.book_appointment, try_except.
  destruct (contents_cases (clients_file w)) as [[clients Hc]|Hc];
    [|rewrite book_load_failure by auto; unfold ret, Api.failure; eauto].
  destruct (contents_cases (services_file w)) as [[services Hs]|Hs];
    [|rewrite book_load_failure by auto; unfold ret, Api.failure; eauto].
  destruct (contents_cases (staff_file w)) as [[staff Hst]|Hst];
    [|rewrite book_load_failure by auto; unfold ret, Api.failure; eauto].
  destruct (contents_cases (appointments_file w)) as [[appointments Ha]|Ha];
    [|rewrite book_load_failure by auto; unfold ret, Api.failure; eauto].
  unfold Api.book, bind, load_data. simpl. rewrite Hc, Hs, Hst, Ha.
  unfold Api.find_service. rewrite find_all_false.
  - unfold ret, Api.failure. eauto.
  - intros [sid svc] Hin. eapply Hnone; eauto.
Qed.

(** ** Resolving the client and the staff member *)

Lemma find_client_none phone (clients : dict Client.t) :
  (forall cid c, In (cid, c) clients -> Client.phone c <> phone) ->
  Api.find_client phone clients = None.
Proof.
  intros H. unfold Api.find_client. rewrite find_all_false; [reflexivity|].
  intros [cid c] Hin. apply String.eqb_neq. eauto.
Qed.

Lemma find_client_some phone (clients : dict Client.t) cid :
  Api.find_client phone clients = Some cid ->
  exists c, find (fun '(_, client) => String.eqb (Client.phone client) phone)
                 clients = Some (cid, c) /\
            In (cid, c) clients /\ Client.phone c = phone.
Proof.
  unfold Api.find_client.
  destruct (find _ clients) as [[cid' c]|] eqn:E; simpl; [|discriminate].
  intros [= ->]. exists c. split; [reflexivity|].
  apply find_some in E as [Hin Hp]. apply String.eqb_eq in Hp. auto.
Qed.

Lemma find_staff_none category (staff : dict Staff.t) :
  (forall sid m, In (sid, m) staff ->
     Py.mem category (Staff.specialties m) = false) ->
  Api.find_staff category staff = None.
Proof.
  intros H. unfold Api.find_staff. rewrite find_all_false; [reflexivity|].
  intros [sid m] Hin. eauto.
Qed.

Lemma truthy_some s : s <> "" -> Py.truthy (Some s) = true.
Proof.
  intros H. simpl. destruct (String.eqb_spec s ""); [contradiction|reflexivity].
Qed.

Lemma truthy_inv o : Py.truthy o = true -> exists s, o = Some s /\ s <> "".
Proof.
  destruct o as [s|]; simpl; [|discriminate].
  destruct (String.eqb_spec s ""); [discriminate|eauto].
Qed.

(** ** C10 *)

(** C10. When the service resolves, no client has the phone number of the
    request and staff resolution fails (nobody has the specialty when no
    staff id is given, or the given staff id is unknown), the booking
    answers [success = false], yet the client created for it is already
    saved in the clients store, which therefore differs from what it was;
    the appointments store is untouched. *)
Theorem new_client_survives_failed_staff_resolution str_exn now booking w
    clients services staff appointments service_id service :
  contents (clients_file w) = Ok clients ->
  contents (services_file w) = Ok services ->
  contents (staff_file w) = Ok staff ->
  contents (appointments_file w) = Ok appointments ->
  Api.find_service (BookingRequest.service_name booking) services
    = Some (service_id, service) ->
  (forall cid c, In (cid, c) clients ->
     Client.phone c <> BookingRequest.client_phone booking) ->
  (Py.truthy (BookingRequest.staff_id booking) = false /\
   forall sid m, In (sid, m) staff ->
     Py.mem (Service.category service) (Staff.specialties m) = false) \/
  (exists sid, BookingRequest.staff_id booking = Some sid /\ sid <> "" /\
               get sid staff = None) ->
  let new_id := client_key (len clients + 1) in
  exists w' r clients',
    Api.book_appointment str_exn now booking w = (w', Ok r) /\
    BookingResponse.success r = false /\
    BookingResponse.appointment_id r = None /\
    clients_file w' = Json clients' /\
    get new_id clients' = Some (Api.new_client now new_id booking) /\
    Client.total_visits (Api.new_client now new_id booking) = 0 /\
    clients_file w' <> clients_file w /\
    appointments_file w' = appointments_file w.
Proof.
  intros Hc Hs Hst Ha Hfind Hphone Hstaff new_id.
  pose proof (book_run now booking w _ _ _ _ _ _ Hc Hs Hst Ha Hfind) as Hrun.
  cbv zeta in Hrun. rewrite (find_client_none _ _ Hphone) in Hrun.
  simpl Py.truthy in Hrun. cbv iota in Hrun. fold new_id in Hrun.
  set (clients' := set new_id (Api.new_client now new_id booking) clients) in *.
  assert (clients_file (write CLIENTS_FILE (Json clients') w) <> clients_file w)
    as Hdiff.
  { simpl. intros Heq. rewrite <- Heq in Hc. simpl in Hc.
    injection Hc as Hc.
    assert (get new_id clients = Some (Api.new_client now new_id booking)) as Hg
      by (rewrite <- Hc; apply get_set_same).
    apply get_In in Hg. apply Hphone in Hg. apply Hg. reflexivity. }
  assert (Api.book now booking w =
          (write CLIENTS_FILE (Json clients') w,
           Ok (Api.failure "No staff available for this service"))) as Hfail.
  { rewrite Hrun. destruct Hstaff as [[Hnone Hnobody]|(sid & Hsid & Hne & Hget)].
    - unfold Api.determine_staff. rewrite Hnone. simpl.
      rewrite (find_staff_none _ _ Hnobody). rewrite Hnone. reflexivity.
    - unfold Api.determine_staff. rewrite Hsid, (truthy_some _ Hne).
      cbn [negb]. rewrite (truthy_some _ Hne), Hget. reflexivity. }
  exists (write CLIENTS_FILE (Json clients') w),
         (Api.failure "No staff available for this service"), clients'.
  unfold Api.book_appointment, try_except. rewrite Hfail.
  repeat split; auto. apply get_set_same.
Qed.

(** The client of a booking is in the dictionary when the appointment is
    built, so [clients[client_id]] does not raise. *)
Lemma booking_client_present now booking (clients : dict Client.t) :
  exists client,
    get (booking_client_id booking clients)
        (clients_with_booker now booking clients) = Some client.
Proof.
  unfold booking_client_id, clients_with_booker.
  destruct (Api.find_client _ clients) as [cid|] eqn:E; simpl.
  - destruct (String.eqb_spec cid "") as [->|Hne]; simpl.
    + rewrite get_set_same. eauto.
    + apply find_client_some in E as (c & _ & Hin & _).
      eapply In_some_get; eassumption.
  - rewrite get_set_same. eauto.
Qed.

(** What a successful booking did *)
Lemma book_appointment_success str_exn now booking w w' r :
  Api.book_appointment str_exn now booking w = (w', Ok r) ->
  BookingResponse.success r = true ->
  exists clients services staff appointments service_id service
         staff_id staff_member client,
    contents (clients_file w) = Ok clients /\
    contents (services_file w) = Ok services /\
    contents (staff_file w) = Ok staff /\
    contents (appointments_file w) = Ok appointments /\
    Api.find_service (BookingRequest.service_name booking) services
      = Some (service_id, service) /\
    Api.determine_staff booking service staff = Some staff_id /\
    staff_id <> "" /\
    get staff_id staff = Some staff_member /\
    get (booking_client_id booking clients)
        (clients_with_booker now booking clients) = Some client /\
    appointments_file w' =
      Json (set (appointment_key (len appointments + 1))
              (Api.new_appointment now booking
                 (appointment_key (len appointments + 1))
                 (booking_client_id booking clients) client
                 service_id service staff_id staff_member)
              appointments) /\
    clients_file w' =
      Json (set (booking_client_id booking clients)
              (Client.add_visit (Service.price service) client)
              (clients_with_booker now booking clients)) /\
    r = Api.booked booking (appointment_key (len appointments + 1))
          service staff_member.
Proof.
  intros Hrun Hok. unfold Api.book_appointment, try_except in Hrun.
  destruct (contents_cases (clients_file w)) as [[clients Hc]|Hc];
    [|rewrite book_load_failure in Hrun by auto; unfold ret in Hrun;
      injection Hrun as _ <-; discriminate Hok].
  destruct (contents_cases (services_file w)) as [[services Hs]|Hs];
    [|rewrite book_load_failure in Hrun by auto; unfold ret in Hrun;
      injection Hrun as _ <-; discriminate Hok].
  destruct (contents_cases (staff_file w)) as [[staff Hst]|Hst];
    [|rewrite book_load_failure in Hrun by auto; unfold ret in Hrun;
      injection Hrun as _ <-; discriminate Hok].
  destruct (contents_cases (appointments_file w)) as [[appointments Ha]|Ha];
    [|rewrite book_load_failure in Hrun by auto; unfold ret in Hrun;
      injection Hrun as _ <-; discriminate Hok].
  destruct (Api.find_service (BookingRequest.service_name booking) services)
    as [[service_id service]|] eqn:Hfind.
  - rewrite (book_run now booking w _ _ _ _ _ _ Hc Hs Hst Ha Hfind) in Hrun.
    cbv zeta in Hrun.
    assert (forall found : option string,
              (if Py.truthy found
               then match found with Some c => c | None => "" end
               else client_key (len clients + 1)) =
              match found with
              | Some cid => if String.eqb cid "" then client_key (len clients + 1)
                            else cid
              | None => client_key (len clients + 1)
              end) as Hid
      by (intros [cid|]; simpl; [destruct (String.eqb cid "")|]; reflexivity).
    rewrite Hid in Hrun.
    fold (booking_client_id booking clients) in Hrun.
    fold (clients_with_booker now booking clients) in Hrun.
    destruct (Api.determine_staff booking service staff) as [staff_id|] eqn:Ed;
      [|simpl in Hrun; injection Hrun as _ <-; discriminate Hok].
    destruct (Py.truthy (Some staff_id)) eqn:Et;
      [|injection Hrun as _ <-; discriminate Hok].
    apply truthy_inv in Et as (s' & [= <-] & Hne).
    destruct (get staff_id staff) as [staff_member|] eqn:Eg;
      [|injection Hrun as _ <-; discriminate Hok].
    destruct (booking_client_present now booking clients) as [client Hcl].
    rewrite Hcl in Hrun. injection Hrun as <- <-.
    exists clients, services, staff, appointments, service_id, service,
           staff_id, staff_member, client.
    repeat split; auto.
  - unfold Api.book, bind, load_data in Hrun. simpl in Hrun.
    rewrite Hc, Hs, Hst, Ha, Hfind in Hrun. unfold ret in Hrun.
    injection Hrun as _ <-. discriminate Hok.
Qed.

Lemma set_last {A : Type} k (v v' : A) (d : dict A) :
  get k d = None -> set k v' (d ++ [(k, v)])%list = (d ++ [(k, v')])%list.
Proof.
  induction d as [|[k0 v0] d IH]; simpl.
  - rewrite String.eqb_refl. reflexivity.
  - destruct (String.eqb k k0); [discriminate|].
    intros H. rewrite IH by exact H. reflexivity.
Qed.

(** ** C8 *)

(** C8. After a successful booking: when no client has the phone number
    of the request (and the next sequential key is free, as it is in every
    store the tools built), the clients store is the old one followed by
    exactly one new record, created under that key with zero counters and
    credited with this first visit; when a client has that phone number,
    no record is added and the first such client gets one more visit and
    the price of the resolved service added to the amount spent. *)
Theorem booking_creates_or_reuses_client str_exn now booking w w' r clients :
  contents (clients_file w) = Ok clients ->
  Dict.wf clients ->
  Api.book_appointment str_exn now booking w = (w', Ok r) ->
  BookingResponse.success r = true ->
  exists services service_id service,
    contents (services_file w) = Ok services /\
    Api.find_service (BookingRequest.service_name booking) services
      = Some (service_id, service) /\
    (let new_id := client_key (len clients + 1) in
     let created := Api.new_client now new_id booking in
     (forall cid c, In (cid, c) clients ->
        Client.phone c <> BookingRequest.client_phone booking) ->
     get new_id clients = None ->
     Client.id created = new_id /\
     Client.total_visits created = 0 /\
     Client.total_spent created = 0%float /\
     clients_file w' =
       Json (clients
             ++ [(new_id, Client.add_visit (Service.price service) created)])%list) /\
    (forall cid c,
       find (fun '(_, client) =>
               String.eqb (Client.phone client)
                          (BookingRequest.client_phone booking)) clients
         = Some (cid, c) ->
       cid <> "" ->
       let visited := Client.add_visit (Service.price service) c in
       clients_file w' = Json (set cid visited clients) /\
       keys (set cid visited clients) = keys clients /\
       get cid (set cid visited clients) = Some visited /\
       Client.total_visits visited = Client.total_visits c + 1 /\
       Client.total_spent visited
         = (Client.total_spent c + Service.price service)%float).
Proof.
  intros Hc Hwf Hrun Hok.
  destruct (book_appointment_success _ _ _ _ _ _ Hrun Hok)
    as (clients' & services & staff & appointments & service_id & service
        & staff_id & staff_member & client & Hc' & Hs & _ & _ & Hfind & _ & _
        & _ & Hclient & _ & Hfile & _).
  rewrite Hc in Hc'. injection Hc' as <-.
  exists services, service_id, service. split; [exact Hs|]. split; [exact Hfind|].
  split.
  - intros new_id created Hphone Hfresh.
    repeat split.
    rewrite Hfile. f_equal.
    unfold booking_client_id, clients_with_booker in *.
    rewrite (find_client_none _ _ Hphone) in *. simpl in Hclient |- *.
    fold new_id in Hclient |- *. fold created in Hclient |- *.
    rewrite get_set_same in Hclient. injection Hclient as <-.
    rewrite (set_fresh _ _ _ Hfresh). apply set_last. exact Hfresh.
  - intros cid c Hfound Hne visited.
    assert (Api.find_client (BookingRequest.client_phone booking) clients
            = Some cid) as Hfc
      by (unfold Api.find_client; rewrite Hfound; reflexivity).
    apply find_some in Hfound as [Hin _].
    pose proof (In_get _ _ _ Hwf Hin) as Hget.
    unfold booking_client_id, clients_with_booker in *.
    rewrite Hfc in *. rewrite (truthy_some _ Hne) in *.
    destruct (String.eqb_spec cid ""); [contradiction|].
    rewrite Hget in Hclient. injection Hclient as <-.
    repeat split.
    + exact Hfile.
    + apply keys_set_present. congruence.
    + apply get_set_same.
Qed.

(** A resolved service and a resolved staff member give an appointment. *)
Lemma book_appointment_books str_exn now booking w clients services staff
    appointments service_id service staff_id staff_member :
  contents (clients_file w) = Ok clients ->
  contents (services_file w) = Ok services ->
  contents (staff_file w) = Ok staff ->
  contents (appointments_file w) = Ok appointments ->
  Api.find_service (BookingRequest.service_name booking) services
    = Some (service_id, service) ->
  Api.determine_staff booking service staff = Some staff_id ->
  staff_id <> "" ->
  get staff_id staff = Some staff_member ->
  let apt_id := appointment_key (len appointments + 1) in
  exists w' client,
    Api.book_appointment str_exn now booking w
      = (w', Ok (Api.booked booking apt_id service staff_member)) /\
    appointments_file w' =
      Json (set apt_id
              (Api.new_appointment now booking apt_id
                 (booking_client_id booking clients) client
                 service_id service staff_id staff_member)
              appointments).
Proof.
  intros Hc Hs Hst Ha Hfind Hd Hne Hg apt_id.
  pose proof (book_run now booking w _ _ _ _ _ _ Hc Hs Hst Ha Hfind) as Hrun.
  cbv zeta in Hrun. rewrite Hd, (truthy_some _ Hne), Hg in Hrun.
  destruct (booking_client_present now booking clients) as [client Hcl].
  unfold booking_client_id, clients_with_booker in Hcl.
  unfold Api.book_appointment, try_except. rewrite Hrun.
  destruct (Api.find_client (BookingRequest.client_phone booking) clients)
    as [cid|] eqn:Ef.
  - simpl in Hcl |- *. destruct (String.eqb_spec cid "") as [->|Hcid];
      simpl in Hcl |- *; rewrite Hcl; eexists _, client; split;
      try reflexivity; simpl; unfold booking_client_id; rewrite Ef;
      try rewrite String.eqb_refl; try reflexivity.
    destruct (String.eqb_spec cid ""); [contradiction|reflexivity].
  - simpl in Hcl |- *. rewrite Hcl. eexists _, client; split;
      try reflexivity; simpl; unfold booking_client_id; rewrite Ef; reflexivity.
Qed.

(** No staff member: the booking is refused and no appointment is stored. *)
Lemma book_appointment_no_staff str_exn now booking w clients services staff
    appointments service_id service :
  contents (clients_file w) = Ok clients ->
  contents (services_file w) = Ok services ->
  contents (staff_file w) = Ok staff ->
  contents (appointments_file w) = Ok appointments ->
  Api.find_service (BookingRequest.service_name booking) services
    = Some (service_id, service) ->
  Py.truthy (Api.determine_staff booking service staff) = false \/
  (exists sid, Api.determine_staff booking service staff = Some sid /\
               get sid staff = None) ->
  exists w',
    Api.book_appointment str_exn now booking w
      = (w', Ok (Api.failure "No staff available for this service")) /\
    appointments_file w' = appointments_file w.
Proof.
  intros Hc Hs Hst Ha Hfind Hd.
  pose proof (book_run now booking w _ _ _ _ _ _ Hc Hs Hst Ha Hfind) as Hrun.
  cbv zeta in Hrun.
  unfold Api.book_appointment, try_except. rewrite Hrun.
  assert (forall f : file Client.t, appointments_file
            (if Py.truthy (Api.find_client
                             (BookingRequest.client_phone booking) clients)
             then w else write CLIENTS_FILE f w) = appointments_file w) as Hw
    by (intros; destruct (Py.truthy (Api.find_client _ _)); reflexivity).
  destruct Hd as [Hd|(sid & Hd & Hg)].
  - rewrite Hd. eexists; split; [reflexivity|apply Hw].
  - rewrite Hd. destruct (Py.truthy (Some sid)).
    + rewrite Hg. eexists; split; [reflexivity|apply Hw].
    + eexists; split; [reflexivity|apply Hw].
Qed.

(** ** C9 *)

(** C9 (as the code has it). With the service resolved: when the request
    names no staff member, the appointment goes to the first staff member in
    iteration order whose specialties contain the category of the service,
    and the booking is refused with "No staff available for this service"
    when nobody has it; when the request names a staff member, the
    appointment goes to that member provided the id exists, whatever the
    member's specialties, and the booking is refused when the id is
    unknown. *)
Theorem staff_assignment str_exn now booking w clients services staff
    appointments service_id service :
  contents (clients_file w) = Ok clients ->
  contents (services_file w) = Ok services ->
  contents (staff_file w) = Ok staff ->
  contents (appointments_file w) = Ok appointments ->
  Api.find_service (BookingRequest.service_name booking) services
    = Some (service_id, service) ->
  Dict.wf staff ->
  let apt_id := appointment_key (len appointments + 1) in
  let category := Service.category service in
  let refused w' :=
    Api.book_appointment str_exn now booking w
      = (w', Ok (Api.failure "No staff available for this service")) /\
    appointments_file w' = appointments_file w in
  let assigned sid m w' apt :=
    Api.book_appointment str_exn now booking w
      = (w', Ok (Api.booked booking apt_id service m)) /\
    appointments_file w' = Json (set apt_id apt appointments) /\
    Appointment.staff_id apt = sid /\
    Appointment.staff_name apt = Staff.name m in
  (Py.truthy (BookingRequest.staff_id booking) = false ->
     (forall sid m,
        find (fun '(_, s) => Py.mem category (Staff.specialties s)) staff
          = Some (sid, m) ->
        sid <> "" ->
        Py.mem category (Staff.specialties m) = true /\
        exists w' apt, assigned sid m w' apt) /\
     ((forall sid m, In (sid, m) staff ->
         Py.mem category (Staff.specialties m) = false) ->
      exists w', refused w')) /\
  (forall sid, BookingRequest.staff_id booking = Some sid -> sid <> "" ->
     (forall m, get sid staff = Some m -> exists w' apt, assigned sid m w' apt) /\
     (get sid staff = None -> exists w', refused w')).
Proof.
  intros Hc Hs Hst Ha Hfind Hwf apt_id category refused assigned.
  subst category. split.
  - intros Hnone. split.
    + intros sid m Hfirst Hne.
      pose proof (find_some _ _ Hfirst) as [Hin Hspec].
      split; [exact Hspec|].
      assert (Api.determine_staff booking service staff = Some sid) as Hd.
      { unfold Api.determine_staff, Api.find_staff. rewrite Hnone, Hfirst.
        reflexivity. }
      destruct (book_appointment_books str_exn now booking w _ _ _ _ _ _ _ m
                  Hc Hs Hst Ha Hfind Hd Hne (In_get _ _ _ Hwf Hin))
        as (w' & client & Hrun & Hfile).
      exists w'. eexists. unfold assigned. split; [exact Hrun|].
      split; [exact Hfile|]. split; reflexivity.
    + intros Hnobody.
      apply (book_appointment_no_staff str_exn now booking w _ _ _ _ _ _
               Hc Hs Hst Ha Hfind).
      left. unfold Api.determine_staff. rewrite Hnone. cbn [negb].
      rewrite (find_staff_none _ _ Hnobody). exact Hnone.
  - intros sid Hsid Hne.
    assert (Api.determine_staff booking service staff = Some sid) as Hd.
    { unfold Api.determine_staff. rewrite Hsid, (truthy_some _ Hne).
      reflexivity. }
    split.
    + intros m Hg.
      destruct (book_appointment_books str_exn now booking w _ _ _ _ _ _ _ m
                  Hc Hs Hst Ha Hfind Hd Hne Hg)
        as (w' & client & Hrun & Hfile).
      exists w'. eexists. unfold assigned. split; [exact Hrun|].
      split; [exact Hfile|]. split; reflexivity.
    + intros Hg.
      apply (book_appointment_no_staff str_exn now booking w _ _ _ _ _ _
               Hc Hs Hst Ha Hfind).
      right. exists sid. auto.
Qed.

(** ** The invariant of the appointments store *)

Lemma values_app {A : Type} (d : dict A) k v :
  values (d ++ [(k, v)])%list = (values d ++ [v])%list.
Proof. unfold values. rewrite map_app. reflexivity. Qed.

(** Adding an appointment keeps the invariant exactly when it conflicts
    with none of the appointments already there. *)
Lemma no_double_booking_app l x :
  no_double_booking (l ++ [x]) =
  no_double_booking l && forallb (fun a => negb (conflicts a x)) l.
Proof.
  induction l as [|a l IH]; simpl; [reflexivity|].
  rewrite forallb_app, IH. simpl.
  destruct (forallb _ l), (conflicts a x), (no_double_booking l),
    (forallb _ l); reflexivity.
Qed.

Lemma no_double_booking_set (appointments : dict Appointment.t) k apt :
  get k appointments = None ->
  no_double_booking (values (set k apt appointments)) =
  no_double_booking (values appointments)
  && forallb (fun a => negb (conflicts a apt)) (values appointments).
Proof.
  intros Hfresh. rewrite (set_fresh _ _ _ Hfresh), values_app.
  apply no_double_booking_app.
Qed.

(** ** C1 *)

(** C1 (as the code has it). Neither front end compares a new booking with
    the appointments already stored.  A successful [book_appointment]
    stores, whatever the store holds, one scheduled appointment with the
    date and time of the request, the duration of the service the
    requested name resolves to, and the staff member the "Determine staff"
    block yields (the requested one when the request names one).  A
    [create_appointment] whose client, service and staff ids exist stores
    one scheduled appointment at the requested staff, date and time with
    the duration of the service.  Under a fresh key, the store is free of
    double bookings afterwards exactly when it was before and that
    appointment conflicts with none of the stored ones. *)
Theorem booking_stores_without_overlap_check str_exn format_2f now :
  (forall booking w w' r,
     Api.book_appointment str_exn now booking w = (w', Ok r) ->
     BookingResponse.success r = true ->
     exists services staff appointments service_id service staff_id apt,
       let apt_id := appointment_key (len appointments + 1) in
       contents (services_file w) = Ok services /\
       contents (staff_file w) = Ok staff /\
       contents (appointments_file w) = Ok appointments /\
       Api.find_service (BookingRequest.service_name booking) services
         = Some (service_id, service) /\
       Api.determine_staff booking service staff = Some staff_id /\
       (Py.truthy (BookingRequest.staff_id booking) = true ->
        BookingRequest.staff_id booking = Some staff_id) /\
       appointments_file w' = Json (set apt_id apt appointments) /\
       Appointment.status apt = "scheduled" /\
       Appointment.staff_id apt = staff_id /\
       Appointment.date apt = BookingRequest.date booking /\
       Appointment.time apt = BookingRequest.time booking /\
       Appointment.duration_minutes apt = Service.duration_minutes service /\
       (get apt_id appointments = None ->
        no_double_booking (values (set apt_id apt appointments)) =
        no_double_booking (values appointments)
        && forallb (fun a => negb (conflicts a apt)) (values appointments))) /\
  (forall client_id service_id staff_id date time notes w
          clients services staff appointments client svc member,
     contents (appointments_file w) = Ok appointments ->
     contents (clients_file w) = Ok clients ->
     contents (services_file w) = Ok services ->
     contents (staff_file w) = Ok staff ->
     get client_id clients = Some client ->
     get service_id services = Some svc ->
     get staff_id staff = Some member ->
     exists apt message,
       let apt_id := appointment_key (len appointments + 1) in
       Server.create_appointment format_2f now client_id service_id staff_id
         date time notes w
       = (write APPOINTMENTS_FILE (Json (set apt_id apt appointments)) w,
          Ok message) /\
       Appointment.status apt = "scheduled" /\
       Appointment.staff_id apt = staff_id /\
       Appointment.date apt = date /\
       Appointment.time apt = time /\
       Appointment.duration_minutes apt = Service.duration_minutes svc /\
       (get apt_id appointments = None ->
        no_double_booking (values (set apt_id apt appointments)) =
        no_double_booking (values appointments)
        && forallb (fun a => negb (conflicts a apt)) (values appointments))).
Proof.
  split.
  - intros booking w w' r Hrun Hok.
    destruct (book_appointment_success _ _ _ _ _ _ Hrun Hok)
      as (clients & services & staff & appointments & service_id & service
          & staff_id & staff_member & client & _ & Hs & Hst & Ha & Hfind
          & Hdet & _ & _ & _ & Hfile & _).
    exists services, staff, appointments, service_id, service, staff_id.
    eexists. cbv zeta.
    split; [exact Hs|]. split; [exact Hst|]. split; [exact Ha|].
    split; [exact Hfind|]. split; [exact Hdet|].
    split.
    { intros Hnamed. unfold Api.determine_staff in Hdet.
      rewrite Hnamed in Hdet. exact Hdet. }
    split; [exact Hfile|].
    repeat split. apply no_double_booking_set.
  - intros client_id service_id staff_id date time notes w
           clients services staff appointments client svc member
           Ha Hc Hs Hst Hgc Hgs Hgst.
    eexists. eexists. cbv zeta.
    split.
    + unfold Server.create_appointment, bind, load_data. simpl.
      rewrite Ha, Hc, Hs, Hst, Hgc, Hgs, Hgst.
      unfold save_data, ret. simpl. reflexivity.
    + repeat split. apply no_double_booking_set.
Qed.

(** ** C2 *)

(** C2 (as the code has it). With the seeded staff and, as only
    appointment, a scheduled one of STF002 at 10:00 for sixty minutes on a
    Tuesday, the slots computed for that date contain no STF002 slot at
    10:00 and none at 10:30 (both start inside the appointment), contain
    the 11:00 slot, and every STF002 slot starts at or after 10:00 and
    before 18:00. *)
Theorem STF002_tuesday_slots date ymd k apt :
  Datetime.strptime_Ymd date = Some ymd ->
  Datetime.strftime_A ymd = "Tuesday" ->
  Appointment.staff_id apt = "STF002" ->
  Appointment.date apt = date ->
  Appointment.time apt = "10:00" ->
  Appointment.duration_minutes apt = 60 ->
  Appointment.status apt = "scheduled" ->
  exists slots,
    Api.compute_slots date (Datetime.strftime_A ymd) Server.default_staff
      [(k, apt)] = Ok slots /\
    (forall s, In s slots -> TimeSlot.staff_id s = "STF002" ->
       TimeSlot.time s <> "10:00" /\ TimeSlot.time s <> "10:30") /\
    In (STF002_slot "11:00") slots /\
    (forall s, In s slots -> TimeSlot.staff_id s = "STF002" ->
       exists t, Datetime.strptime_HM (TimeSlot.time s) = Some t /\
                 10 * 60 <= t < 18 * 60).
Proof.
  intros _ -> Hsid Hdate Htime Hdur Hstatus.
  destruct apt; simpl in Hsid, Hdate, Htime, Hdur, Hstatus; subst.
  unfold Api.compute_slots.
  change (Server.working_on "Tuesday" Server.default_staff)
    with (firstn 2 Server.default_staff).
  cbn [firstn Server.default_staff Server.member Api.slots_of_staff].
  match goal with
  | |- context [Server.scheduled_for ?d "STF001" ?x] =>
      replace (Server.scheduled_for d "STF001" x) with (@nil Appointment.t)
        by reflexivity
  end.
  match goal with
  | |- context [Server.scheduled_for [(?k, ?a)] "STF002" ?x] =>
      replace (Server.scheduled_for [(k, a)] "STF002" x) with [a]
        by (unfold Server.scheduled_for; simpl;
            rewrite String.eqb_refl; reflexivity)
  end.
  match goal with
  | |- exists slots, ?c = Ok slots /\ _ =>
      let v := eval vm_compute in c in
      match v with
      | Ok ?l => exists l; split; [vm_compute; reflexivity|]
      end
  end.
  split; [|split].
  - intros s Hs. simpl in Hs.
    repeat (destruct Hs as [<-|Hs];
            [intros Hid; first [discriminate Hid | split; discriminate]|]).
    contradiction.
  - unfold STF002_slot. simpl.
    repeat (first [left; reflexivity | right]).
  - intros s Hs. simpl in Hs.
    repeat (destruct Hs as [<-|Hs];
            [intros Hid; first [discriminate Hid
                               | eexists; split; [vm_compute; reflexivity|lia]]|]).
    contradiction.
Qed.

(** ** C5 *)

Lemma mem_In x l : Py.mem x l = true <-> In x l.
Proof.
  unfold Py.mem. rewrite existsb_exists. split.
  - intros (y & Hin & Heq). apply String.eqb_eq in Heq. subst. exact Hin.
  - intros Hin. exists x. split; [exact Hin|apply String.eqb_refl].
Qed.

(** C5. On any appointment collection: an absent [appointment_id] gives the
    not-found answer (the id is tested first, so whatever the status); for
    a stored [appointment_id], a status outside scheduled, completed,
    cancelled, no-show gives the invalid-status answer; both leave every
    store, and so the stored status, as they were. *)
Theorem status_update_failures now appointment_id status notes w appointments :
  contents (appointments_file w) = Ok appointments ->
  (get appointment_id appointments = None ->
   Server.update_appointment_status now appointment_id status notes w
     = (w, Ok (not_found appointment_id))) /\
  (forall apt, get appointment_id appointments = Some apt ->
   ~ In status Server.valid_statuses ->
   Server.update_appointment_status now appointment_id status notes w
     = (w, Ok invalid_status)).
Proof.
  intros Ha. unfold Server.update_appointment_status, bind, load_data.
  cbn [read record_of]. rewrite Ha. split.
  - intros ->. reflexivity.
  - intros apt -> Hbad.
    destruct (Py.mem status Server.valid_statuses) eqn:E.
    + apply mem_In in E. contradiction.
    + reflexivity.
Qed.

(** ** C6 *)

(** C6 (as the code has it). For a date string that
    [strptime(_, "%Y-%m-%d")] rejects, the HTTP endpoint raises
    [HTTPException(400)] before reading any file, and the agent tool, once
    its two files are loaded, returns the text "Error: Invalid date format.
    Use YYYY-MM-DD"; neither changes a store. *)
Theorem invalid_date_is_refused date :
  Datetime.strptime_Ymd date = None ->
  (forall service_id w,
     Api.check_availability date service_id w
       = (w, Raise (HTTPException 400 invalid_date))) /\
  (forall staff_id w appointments staff,
     contents (appointments_file w) = Ok appointments ->
     contents (staff_file w) = Ok staff ->
     Server.check_availability date staff_id w
       = (w, Ok ("Error: " ++ invalid_date))).
Proof.
  intros Hbad. split.
  - intros service_id w. unfold Api.check_availability. rewrite Hbad.
    reflexivity.
  - intros staff_id w appointments staff Ha Hst.
    unfold Server.check_availability, bind, load_data. simpl.
    rewrite Ha, Hst, Hbad. reflexivity.
Qed.

(** * Counterexamples to the claims the code does not meet *)

(** C1 fails: on the seeded files the same request booked twice leaves two
    scheduled Hydrafacials of STF002 at 10:00 on the same day, and a
    Hydrafacial created at 10:30 through the tool overlaps the first. *)
Lemma double_booking_is_reachable :
  first_booking =
    Api.book_appointment no_text clock_now
      (request "hydrafacial" tuesday "10:00" "305-555-0100" None) seeded /\
  second_booking =
    Api.book_appointment no_text clock_now
      (request "hydrafacial" tuesday "10:00" "305-555-0100" None)
      (fst first_booking) /\
  BookingResponse.success (response_of first_booking) = true /\
  BookingResponse.success (response_of second_booking) = true /\
  no_double_booking (stored_appointments (fst first_booking)) = true /\
  no_double_booking (stored_appointments (fst second_booking)) = false /\
  no_double_booking
    (stored_appointments
       (fst (Server.create_appointment no_digits clock_now "CL0001" "SVC003"
               "STF002" tuesday "10:30" None (fst first_booking)))) = false.
Proof. repeat split; vm_compute; reflexivity. Qed.

(** C2 fails: with the Hydrafacial of STF002 from 10:00 to 11:00, the
    computed slots have no STF002 slot at 10:30, and neither has the answer
    of the endpoint. *)
Lemma ten_thirty_is_not_offered :
  option_map Datetime.strftime_A (Datetime.strptime_Ymd tuesday) = Some "Tuesday" /\
  exists slots,
    Api.compute_slots tuesday "Tuesday" Server.default_staff
      [("APT0001", hydrafacial tuesday "10:00")] = Ok slots /\
    ~ In (STF002_slot "10:30") slots /\
    ~ In (STF002_slot "10:30") (Availability.available_slots tuesday_answer).
Proof.
  split; [reflexivity|].
  eexists. split; [vm_compute; reflexivity|].
  split; simpl; intuition discriminate.
Qed.

(** C4 fails: [strptime] reads "2026-11-7" and "2026-11-07" as the same
    Saturday.  A Hydrafacial booked through the endpoint under the first
    spelling is stored as a scheduled appointment of STF002 from 10:00 to
    11:00 on that day, and the availability endpoint asked for
    "2026-11-07" still offers STF002 at 10:00. *)
Lemma other_spelling_of_the_day_is_not_blocked :
  Datetime.strptime_Ymd saturday_one_digit = Some (2026, 11, 7) /\
  Datetime.strptime_Ymd saturday = Some (2026, 11, 7) /\
  one_digit_booking =
    Api.book_appointment no_text clock_now
      (request "hydrafacial" saturday_one_digit "10:00" "305-555-0100" None)
      seeded /\
  BookingResponse.success (response_of one_digit_booking) = true /\
  Api.check_availability saturday None (fst one_digit_booking)
    = (fst one_digit_booking, Ok answer_after_one_digit_booking) /\
  exists k apt s t apt_start,
    contents (appointments_file (fst one_digit_booking)) = Ok [(k, apt)] /\
    In s (Availability.available_slots answer_after_one_digit_booking) /\
    Appointment.staff_id apt = TimeSlot.staff_id s /\
    same_day (Appointment.date apt) saturday = true /\
    Appointment.status apt = "scheduled" /\
    Datetime.strptime_HM (TimeSlot.time s) = Some t /\
    Datetime.strptime_HM (Appointment.time apt) = Some apt_start /\
    apt_start <= t < apt_start + Appointment.duration_minutes apt.
Proof.
  split; [reflexivity|]. split; [reflexivity|]. split; [reflexivity|].
  split; [reflexivity|]. split; [vm_compute; reflexivity|].
  eexists _, _, (STF002_slot "10:00"), 600, 600.
  split; [vm_compute; reflexivity|].
  split; [simpl; left; reflexivity|].
  repeat split; try reflexivity; vm_compute; discriminate.
Qed.

(** C6 fails: on a date that does not exist the HTTP endpoint raises
    instead of answering; and a date with a one-digit month and day, not
    of the form YYYY-MM-DD, is accepted by both front ends. *)
Lemma http_invalid_date_raises :
  Datetime.strptime_Ymd "2024-02-30" = None /\
  (forall r, snd (Api.check_availability "2024-02-30" None seeded) <> Ok r) /\
  snd (Api.check_availability "2024-02-30" None seeded)
    = Raise (HTTPException 400 invalid_date) /\
  Datetime.strptime_Ymd "2024-1-5" = Some (2024, 1, 5) /\
  (exists r, snd (Api.check_availability "2024-1-5" None seeded) = Ok r).
Proof.
  split; [reflexivity|]. split; [intros r; vm_compute; discriminate|].
  split; [reflexivity|]. split; [reflexivity|].
  eexists. vm_compute. reflexivity.
Qed.

(** C9 fails: a Hydrafacial (category Facials) booked with STF001 named in
    the request is stored for STF001, whose specialties do not contain
    Facials. *)
Lemma named_staff_without_the_specialty :
  off_specialty_booking =
    Api.book_appointment no_text clock_now
      (request "Hydrafacial" tuesday "11:00" "305-555-0100" (Some "STF001"))
      seeded /\
  BookingResponse.success (response_of off_specialty_booking) = true /\
  exists apt svc m,
    stored_appointments (fst off_specialty_booking) = [apt] /\
    get (Appointment.service_id apt) Server.default_services = Some svc /\
    get (Appointment.staff_id apt) Server.default_staff = Some m /\
    Appointment.staff_id apt = "STF001" /\
    Service.category svc = "Facials" /\
    Py.mem (Service.category svc) (Staff.specialties m) = false.
Proof.
  split; [vm_compute; reflexivity|]. split; [reflexivity|].
  do 3 eexists. repeat split; vm_compute; reflexivity.
Qed.

(** * The theorems at work on the scenarios *)

Lemma default_staff_wf : Dict.wf Server.default_staff.
Proof.
  unfold Dict.wf. simpl. repeat constructor; simpl; intuition discriminate.
Qed.

Lemma booking_stores_without_overlap_check_witness :
  exists appointments service staff_id apt,
    contents (appointments_file (fst first_booking)) = Ok appointments /\
    appointments_file (fst second_booking)
      = Json (set (appointment_key (len appointments + 1)) apt appointments) /\
    Appointment.status apt = "scheduled" /\
    Appointment.staff_id apt = staff_id /\
    Appointment.date apt = tuesday /\
    Appointment.time apt = "10:00" /\
    Appointment.duration_minutes apt = Service.duration_minutes service.
Proof.
  destruct (proj1 (booking_stores_without_overlap_check no_text no_digits
                     clock_now)
              (request "hydrafacial" tuesday "10:00" "305-555-0100" None)
              (fst first_booking) (fst second_booking)
              (response_of second_booking))
    as (services & staff & appointments & service_id & service & staff_id
        & apt & _ & _ & Ha & _ & _ & _ & Hfile & Hst & Hsid & Hd & Ht & Hdur
        & _).
  - vm_compute. reflexivity.
  - reflexivity.
  - exists appointments, service, staff_id, apt. repeat split; assumption.
Defined.

Lemma STF002_tuesday_slots_witness :
  exists slots,
    Api.compute_slots tuesday (Datetime.strftime_A (2026, 11, 3))
      Server.default_staff [("APT0001", hydrafacial tuesday "10:00")]
      = Ok slots /\
    (forall s, In s slots -> TimeSlot.staff_id s = "STF002" ->
       TimeSlot.time s <> "10:00" /\ TimeSlot.time s <> "10:30") /\
    In (STF002_slot "11:00") slots /\
    (forall s, In s slots -> TimeSlot.staff_id s = "STF002" ->
       exists t, Datetime.strptime_HM (TimeSlot.time s) = Some t /\
                 10 * 60 <= t < 18 * 60).
Proof.
  apply (STF002_tuesday_slots tuesday (2026, 11, 3) "APT0001"
           (hydrafacial tuesday "10:00")); reflexivity.
Defined.

Lemma slots_within_working_hours_witness :
  In (STF002_slot "11:00") (Availability.available_slots saturday_answer) /\
  exists ymd member start_time end_time t,
    Datetime.strptime_Ymd saturday = Some ymd /\
    get "STF002" Server.default_staff = Some member /\
    "Sarah Johnson" = Staff.name member /\
    Py.mem (Datetime.strftime_A ymd) (Staff.available_days member) = true /\
    window member = Ok (start_time, end_time) /\
    Datetime.strptime_HM "11:00" = Some t /\
    start_time <= t < end_time.
Proof.
  split; [simpl; left; reflexivity|].
  apply (slots_within_working_hours saturday None saturday_hydrafacial
           saturday_hydrafacial saturday_answer Server.default_staff
           eq_refl default_staff_wf)
    with (s := STF002_slot "11:00").
  - vm_compute. reflexivity.
  - simpl. left. reflexivity.
Defined.

Lemma slots_avoid_scheduled_appointments_witness :
  In (STF002_slot "11:00") (Availability.available_slots saturday_answer) /\
  exists t apt_start,
    Datetime.strptime_HM "11:00" = Some t /\
    Datetime.strptime_HM "10:00" = Some apt_start /\
    ~ (apt_start <= t < apt_start + 60).
Proof.
  split; [simpl; left; reflexivity|].
  apply (slots_avoid_scheduled_appointments saturday None saturday_hydrafacial
           saturday_hydrafacial saturday_answer
           [("APT0001", hydrafacial saturday "10:00")] eq_refl)
    with (s := STF002_slot "11:00") (k := "APT0001")
         (apt := hydrafacial saturday "10:00").
  - vm_compute. reflexivity.
  - simpl. left. reflexivity.
  - simpl. left. reflexivity.
  - reflexivity.
  - reflexivity.
  - reflexivity.
Defined.

Lemma status_update_failures_witness :
  Server.update_appointment_status clock_now "APT0009" "done" None
    (fst first_booking)
    = (fst first_booking, Ok (not_found "APT0009")) /\
  Server.update_appointment_status clock_now "APT0001" "done" None
    (fst first_booking)
    = (fst first_booking, Ok invalid_status).
Proof.
  split.
  - apply (proj1 (status_update_failures clock_now "APT0009" "done" None
                    (fst first_booking) _ eq_refl)).
    reflexivity.
  - eapply (proj2 (status_update_failures clock_now "APT0001" "done" None
                     (fst first_booking) _ eq_refl)).
    + reflexivity.
    + simpl. intuition discriminate.
Defined.

Lemma invalid_date_is_refused_witness :
  Api.check_availability "2024-02-30" None seeded
    = (seeded, Raise (HTTPException 400 invalid_date)) /\
  Server.check_availability "2024-02-30" None seeded
    = (seeded, Ok ("Error: " ++ invalid_date)).
Proof.
  destruct (invalid_date_is_refused "2024-02-30" eq_refl) as [Hhttp Htool].
  split.
  - apply Hhttp.
  - apply (Htool None seeded [] Server.default_staff); reflexivity.
Defined.

Lemma unknown_service_is_refused_witness :
  exists r,
    Api.book_appointment no_text clock_now
      (request "Massage" tuesday "10:00" "305-555-0100" None) seeded
      = (seeded, Ok r) /\
    BookingResponse.success r = false /\
    BookingResponse.appointment_id r = None.
Proof.
  apply (unknown_service_is_refused no_text clock_now
           (request "Massage" tuesday "10:00" "305-555-0100" None) seeded).
  intros services Hs sid svc Hin.
  vm_compute in Hs. injection Hs as <-.
  simpl in Hin.
  repeat (destruct Hin as [Hin|Hin]; [injection Hin as <- <-; reflexivity|]).
  contradiction.
Defined.

Lemma booking_creates_or_reuses_client_witness :
  exists service,
    Api.find_service "hydrafacial" Server.default_services
      = Some ("SVC003", service) /\
    clients_file (fst first_booking)
      = Json [("CL0001",
               Client.add_visit (Service.price service)
                 (Api.new_client clock_now "CL0001"
                    (request "hydrafacial" tuesday "10:00" "305-555-0100" None)))].
Proof.
  destruct (booking_creates_or_reuses_client no_text clock_now
              (request "hydrafacial" tuesday "10:00" "305-555-0100" None)
              seeded (fst first_booking) (response_of first_booking) []
              eq_refl (NoDup_nil _))
    as (services & service_id & service & Hs & Hfind & Hnew & _).
  - vm_compute. reflexivity.
  - reflexivity.
  - vm_compute in Hs. injection Hs as <-.
    assert (service_id = "SVC003") as ->
      by (vm_compute in Hfind; congruence).
    exists service. split; [exact Hfind|].
    apply Hnew.
    + intros cid c [].
    + reflexivity.
Defined.

Lemma staff_assignment_witness :
  exists w' apt,
    Api.book_appointment no_text clock_now
      (request "Hydrafacial" tuesday "11:00" "305-555-0100" (Some "STF001"))
      seeded = (w', Ok (response_of off_specialty_booking)) /\
    appointments_file w' = Json [("APT0001", apt)] /\
    Appointment.staff_id apt = "STF001" /\
    Appointment.staff_name apt = "Dr. Maria Rodriguez".
Proof.
  destruct (staff_assignment no_text clock_now
              (request "Hydrafacial" tuesday "11:00" "305-555-0100"
                 (Some "STF001"))
              seeded [] Server.default_services Server.default_staff []
              "SVC003"
              (snd (Server.service "SVC003" "Hydrafacial" "Facials" 60
                      250%float
                      "Deep cleansing and hydration facial treatment"))
              eq_refl eq_refl eq_refl eq_refl eq_refl default_staff_wf)
    as [_ Hnamed].
  destruct (Hnamed "STF001" eq_refl) as [Hthere _]; [discriminate|].
  destruct (Hthere (snd (Server.member "STF001" "Dr. Maria Rodriguez"
                           "Medical Director"
                           ["Injectables"; "Laser Treatments"]
                           ["Monday"; "Tuesday"; "Wednesday"; "Thursday";
                            "Friday"] "09:00" "17:00")) eq_refl)
    as (w' & apt & Hrun & Hfile & Hsid & Hname).
  exists w', apt. repeat split; assumption.
Defined.

Lemma new_client_survives_failed_staff_resolution_witness :
  exists w' r clients',
    Api.book_appointment no_text clock_now
      (request "Botox" tuesday "09:00" "305-555-0199" (Some "STF999")) seeded
      = (w', Ok r) /\
    BookingResponse.success r = false /\
    BookingResponse.appointment_id r = None /\
    clients_file w' = Json clients' /\
    get "CL0001" clients'
      = Some (Api.new_client clock_now "CL0001"
                (request "Botox" tuesday "09:00" "305-555-0199" (Some "STF999"))) /\
    Client.total_visits
      (Api.new_client clock_now "CL0001"
         (request "Botox" tuesday "09:00" "305-555-0199" (Some "STF999"))) = 0 /\
    clients_file w' <> clients_file seeded /\
    appointments_file w' = appointments_file seeded.
Proof.
  apply (new_client_survives_failed_staff_resolution no_text clock_now
           (request "Botox" tuesday "09:00" "305-555-0199" (Some "STF999"))
           seeded [] Server.default_services Server.default_staff []
           "SVC001"
           (snd (Server.service "SVC001" "Botox Treatment" "Injectables" 30
                   400%float "Wrinkle reduction with Botox injections"))
           eq_refl eq_refl eq_refl eq_refl eq_refl).
  - intros cid c [].
  - right. exists "STF999". repeat split. discriminate.
Defined.

(** * Stores filled by the tools *)

(** Reading a zero-padded positive number back *)
Lemma decode_zfill w p :
  option_map Pos.of_uint (NilEmpty.uint_of_string (Py.zfill w (Z.pos p)))
  = Some (N.pos p).
Proof.
  unfold Py.zfill, Py.str. cbn [Z.ltb Z.compare Z.to_int NilZero.string_of_int].
  assert (NilZero.string_of_uint (Pos.to_uint p)
          = NilEmpty.string_of_uint (Pos.to_uint p)) as ->.
  { pose proof (DecimalPos.Unsigned.to_uint_nonnil p) as Hnn.
    unfold NilZero.string_of_uint. destruct (Pos.to_uint p); congruence. }
  induction (w - String.length (NilEmpty.string_of_uint (Pos.to_uint p)))%nat
    as [|n IH].
  - cbn [Py.repeat_char append]. rewrite NilEmpty.usu. cbn [option_map].
    rewrite DecimalPos.Unsigned.of_to. reflexivity.
  - cbn [Py.repeat_char append NilEmpty.uint_of_string].
    destruct (NilEmpty.uint_of_string _) as [d|]; [|discriminate IH].
    exact IH.
Qed.

Lemma zfill_inj w a b : 0 < a -> 0 < b -> Py.zfill w a = Py.zfill w b -> a = b.
Proof.
  intros Ha Hb Heq.
  destruct a as [|p|p]; try lia. destruct b as [|q|q]; try lia.
  pose proof (decode_zfill w p) as Hp. rewrite Heq, decode_zfill in Hp.
  congruence.
Qed.

Lemma client_key_inj a b : 0 < a -> 0 < b -> client_key a = client_key b -> a = b.
Proof.
  unfold client_key. intros Ha Hb Heq. injection Heq as Heq.
  eapply zfill_inj; eassumption.
Qed.

Lemma get_None_keys {A : Type} k (d : dict A) :
  ~ In k (keys d) -> get k d = None.
Proof.
  unfold keys. induction d as [|[k' v] d IH]; simpl; [reflexivity|].
  intros Hn. destruct (String.eqb_spec k k') as [->|Hne]; [tauto|].
  apply IH. tauto.
Qed.

Section Sequential.
Context {A : Type} (key : Z -> string).
Hypothesis key_inj : forall a b, 0 < a -> 0 < b -> key a = key b -> a = b.

(** The next key is free. *)
Lemma sequential_fresh (d : dict A) :
  sequential key d -> get (key (len d + 1)) d = None.
Proof.
  intros Hseq. apply get_None_keys. rewrite Hseq. intros Hin.
  apply in_map_iff in Hin as (i & Hi & Hrange). apply in_seq in Hrange.
  unfold len in Hi. apply key_inj in Hi; lia.
Qed.

(** The keys are distinct. *)
Lemma sequential_wf (d : dict A) : sequential key d -> Dict.wf d.
Proof.
  unfold Dict.wf. intros ->.
  apply Finite.Injective_map_NoDup_in; [|apply seq_NoDup].
  intros i j Hi Hj Heq. apply in_seq in Hi, Hj.
  apply key_inj in Heq; lia.
Qed.

(** Storing under the next key keeps the keys sequential. *)
Lemma sequential_add (d : dict A) v :
  sequential key d -> sequential key (set (key (len d + 1)) v d).
Proof.
  intros Hseq. rewrite (set_fresh _ _ _ (sequential_fresh d Hseq)).
  unfold sequential, keys in *. rewrite map_app, length_app. simpl.
  rewrite Nat.add_1_r, seq_S, map_app, Hseq. simpl.
  unfold len. do 3 f_equal. lia.
Qed.

(** So does replacing the record of a key that is there. *)
Lemma sequential_update (d : dict A) k v :
  get k d <> None -> sequential key d -> sequential key (set k v d).
Proof.
  intros Hk Hseq. unfold sequential.
  rewrite (keys_set_present _ _ _ Hk), Hseq.
  assert (List.length (set k v d) = List.length d) as ->; [|reflexivity].
  rewrite <- (length_map fst (set k v d)), <- (length_map fst d).
  fold (keys (set k v d)). fold (keys d).
  rewrite (keys_set_present _ _ _ Hk). reflexivity.
Qed.

End Sequential.

(** A clients store with sequential keys meets what C8 asks of it. *)
Lemma sequential_clients_ready (clients : dict Client.t) :
  sequential client_key clients ->
  Dict.wf clients /\
  get (client_key (len clients + 1)) clients = None /\
  (forall cid c, In (cid, c) clients -> cid <> "").
Proof.
  intros Hseq. split; [|split].
  - eapply sequential_wf; [exact client_key_inj|exact Hseq].
  - apply sequential_fresh; [exact client_key_inj|exact Hseq].
  - intros cid c Hin.
    assert (In cid (keys clients)) as Hk
      by (unfold keys; apply (in_map fst) in Hin; exact Hin).
    rewrite Hseq in Hk. apply in_map_iff in Hk as (i & <- & _).
    discriminate.
Qed.

Lemma sequential_empty {A : Type} key : sequential key (@nil (string * A)).
Proof. reflexivity. Qed.

(** [add_client] keeps the keys of the clients store sequential. *)
Lemma add_client_sequential now name email phone date_of_birth address
    emergency_contact medical_notes w clients :
  contents (clients_file w) = Ok clients ->
  sequential client_key clients ->
  exists clients',
    clients_file (fst (Server.add_client now name email phone date_of_birth
                         address emergency_contact medical_notes w))
      = Json clients' /\
    sequential client_key clients'.
Proof.
  intros Hc Hseq. unfold Server.add_client, bind, load_data.
  cbn [read record_of]. rewrite Hc. cbn [save_data write fst clients_file].
  eexists. split; [reflexivity|].
  apply (sequential_add client_key client_key_inj). exact Hseq.
Qed.

(** So does [book_appointment], whether or not it succeeds. *)
Lemma book_appointment_sequential str_exn now booking w clients :
  contents (clients_file w) = Ok clients ->
  sequential client_key clients ->
  exists clients',
    contents (clients_file (fst (Api.book_appointment str_exn now booking w)))
      = Ok clients' /\
    sequential client_key clients'.
Proof.
  intros Hc Hseq. unfold Api.book_appointment, try_except.
  destruct (contents_cases (services_file w)) as [[services Hs]|Hs];
    [|rewrite book_load_failure by auto; simpl; eauto].
  destruct (contents_cases (staff_file w)) as [[staff Hst]|Hst];
    [|rewrite book_load_failure by auto; simpl; eauto].
  destruct (contents_cases (appointments_file w)) as [[appointments Ha]|Ha];
    [|rewrite book_load_failure by auto; simpl; eauto].
  destruct (Api.find_service (BookingRequest.service_name booking) services)
    as [[service_id service]|] eqn:Hfind.
  - rewrite (book_run now booking w _ _ _ _ _ _ Hc Hs Hst Ha Hfind).
    cbv zeta.
    set (found := Api.find_client (BookingRequest.client_phone booking) clients).
    set (new_id := client_key (len clients + 1)).
    set (clients1 := if Py.truthy found then clients
                     else set new_id (Api.new_client now new_id booking) clients).
    set (w1 := if Py.truthy found then w
               else write CLIENTS_FILE (Json clients1) w).
    assert (sequential client_key clients1) as Hseq1.
    { subst clients1. destruct (Py.truthy found); [exact Hseq|].
      apply (sequential_add client_key client_key_inj). exact Hseq. }
    assert (contents (clients_file w1) = Ok clients1) as Hw1.
    { subst w1 clients1. destruct (Py.truthy found); [exact Hc|reflexivity]. }
    destruct (if Py.truthy _ then _ else None) as [staff_id|];
      [|simpl; eauto].
    destruct (get staff_id staff) as [staff_member|]; [|simpl; eauto].
    match goal with
    | |- context [get ?cid clients1] =>
        destruct (get cid clients1) as [client|] eqn:Hcl
    end; [|simpl; eauto].
    simpl. eexists. split; [reflexivity|].
    apply (sequential_update client_key); [congruence|exact Hseq1].
  - unfold Api.book, bind, load_data. cbn [read record_of].
    rewrite Hc, Hs, Hst, Ha, Hfind. simpl. eauto.
Qed.

(** * The library models on sample inputs

    Each value below is what CPython 3.11 returns for the same call. *)

Example lower_contains :
  Py.lower "Botox Treatment" = "botox treatment" /\
  Py.contains "botox" (Py.lower "Botox Treatment") = true /\
  Py.contains "" "" = true /\
  Py.contains "facial" (Py.lower "Botox Treatment") = false.
Proof. repeat split; reflexivity. Qed.

Example split_colon :
  Py.split ":" "a:b:c" = ["a"; "b"; "c"] /\ Py.split ":" "" = [""] /\
  Py.split ":" ":" = [""; ""] /\ Py.split ":" "ab" = ["ab"].
Proof. repeat split; reflexivity. Qed.

Example int_literals :
  Py.int " 9" = Some 9 /\ Py.int "-9" = Some (-9) /\ Py.int "1_0" = Some 10 /\
  Py.int "1__0" = None /\ Py.int "_1" = None /\ Py.int "1_" = None /\
  Py.int "" = None /\ Py.int "+ 9" = None /\ Py.int "09" = Some 9 /\
  Py.int "0x10" = None /\ Py.int "9 " = Some 9.
Proof. repeat split; reflexivity. Qed.

Example zero_padding :
  Py.zfill 2 (-1) = "-1" /\ Py.zfill 4 (-1) = "-001" /\ Py.zfill 2 5 = "05" /\
  Py.zfill 2 100 = "100" /\ Py.zfill 4 0 = "0000" /\ Py.zfill 4 24 = "0024" /\
  client_key 1 = "CL0001" /\ appointment_key 12345 = "APT12345".
Proof. repeat split; reflexivity. Qed.

Example dates_read :
  map Datetime.strptime_Ymd
    ["2024-1-5"; "2024-01- 5"; "2024-13-01"; "2024-02-30"; "0000-01-01";
     "2024-01-011"; "2024-02-29"; "2023-02-29"; " 2024-01-01"; "2024-01-01 ";
     "02024-01-01"; "2024-00-10"; "2024-010-1"; "2024-10-3"; "2024-1-32";
     "9999-12-31"]
  = [Some (2024, 1, 5); Some (2024, 1, 5); None; None; None;
     None; Some (2024, 2, 29); None; None; None;
     None; None; None; Some (2024, 10, 3); None;
     Some (9999, 12, 31)].
Proof. reflexivity. Qed.

Example weekdays :
  map (fun s => option_map Datetime.strftime_A (Datetime.strptime_Ymd s))
    ["2024-1-5"; "2024-02-29"; "9999-12-31"; "0001-01-01"; "2024-10-3";
     tuesday; saturday]
  = [Some "Friday"; Some "Thursday"; Some "Friday"; Some "Monday";
     Some "Thursday"; Some "Tuesday"; Some "Saturday"].
Proof. reflexivity. Qed.

Example times_read :
  map Datetime.strptime_HM
    ["10:00"; "9:5"; "24:00"; "23:59"; "7:60"; "1:599"; "-1:00"; "100:00";
     "10:0"; "010:00"; "1 :00"; ""; "10:"; "12:5x"]
  = [Some 600; Some 545; None; Some 1439; None; None; None; None;
     Some 600; None; None; None; None; None].
Proof. reflexivity. Qed.

Example times_written :
  map Datetime.strftime_HM [0; 545; 1439; 600; -1; 1440]
  = ["00:00"; "09:05"; "23:59"; "10:00"; "23:59"; "00:00"].
Proof. reflexivity. Qed.

Example timedelta_range :
  Datetime.add_minutes 600 4260187559 = Some 4260188159 /\
  Datetime.add_minutes 600 4260187560 = None /\
  Datetime.add_minutes 600 (-998777400) = Some (-998776800) /\
  Datetime.add_minutes 600 (-998777401) = None.
Proof. repeat split; reflexivity. Qed.

(** The first start seeds seven services and three staff members. *)
Example seeding :
  services_file seeded = Json Server.default_services /\
  staff_file seeded = Json Server.default_staff /\
  List.length Server.default_services = 7%nat /\
  List.length Server.default_staff = 3%nat /\
  Server.initialize_default_data seeded = (seeded, Ok tt).
Proof. repeat split; reflexivity. Qed.

(** The endpoint cuts its answer to ten slots: on the Tuesday of the
    scenarios they are all slots of STF001, the first in the staff file. *)
Example answer_is_cut_to_ten :
  snd (Api.check_availability tuesday None one_hydrafacial) = Ok tuesday_answer /\
  List.length (Availability.available_slots tuesday_answer) = 10%nat /\
  forallb (fun s => String.eqb (TimeSlot.staff_id s) "STF001")
          (Availability.available_slots tuesday_answer) = true.
Proof. repeat split; vm_compute; reflexivity. Qed.

(** The report of the agent tool for that Tuesday names the appointment. *)
Example tool_report :
  exists report,
    Server.check_availability tuesday (Some "STF002") one_hydrafacial
      = (one_hydrafacial, Ok report) /\
    Py.contains "10:00 - 11:00: Hydrafacial (Ana Diaz)" report = true.
Proof. eexists. split; vm_compute; reflexivity. Qed.

(** * Further properties of the availability computation *)

Lemma ticks_done current_time end_time :
  ~ current_time < end_time -> ticks current_time end_time = [].
Proof.
  intros H. unfold ticks.
  assert ((end_time - current_time + 29) / 30 <= 0) as Hq.
  { apply Z.lt_succ_r. apply Z.div_lt_upper_bound; lia. }
  replace (Z.to_nat ((end_time - current_time + 29) / 30)) with 0%nat by lia.
  reflexivity.
Qed.

Lemma ticks_step current_time end_time :
  current_time < end_time ->
  ticks current_time end_time
  = current_time :: ticks (current_time + 30) end_time.
Proof.
  intros H. unfold ticks.
  replace (end_time - current_time + 29)
    with ((end_time - (current_time + 30) + 29) + 1 * 30) by lia.
  rewrite Z.div_add by lia.
  assert (0 <= (end_time - (current_time + 30) + 29) / 30) as Hq
    by (apply Z.div_pos; lia).
  rewrite Z2Nat.inj_add by lia.
  rewrite Nat.add_comm. change (Z.to_nat 1) with 1%nat.
  cbn [Nat.add seq map]. f_equal; [lia|].
  rewrite <- seq_shift, map_map. apply map_ext. intros k. lia.
Qed.

(** When the [for] loop ends without raising, its verdict is that no
    appointment of the list covers the instant. *)
Lemma is_available_uncovered t apts b :
  Api.is_available t apts = Ok b -> b = uncovered apts t.
Proof.
  induction apts as [|a apts IH]; simpl.
  - intros [= <-]. reflexivity.
  - unfold covers.
    destruct (Datetime.strptime_HM (Appointment.time a)) as [st|];
      simpl; [|discriminate].
    destruct (Datetime.add_minutes st (Appointment.duration_minutes a))
      as [en|] eqn:Een; simpl; [|discriminate].
    apply add_minutes_sum in Een. subst en.
    destruct ((st <=? t) && (t <? st + Appointment.duration_minutes a)).
    + intros [= <-]. reflexivity.
    + exact IH.
Qed.

(** What the [while] loop appends *)
Lemma slots_until_exact end_time sid m apts cur acc out :
  Api.slots_until end_time sid m apts cur acc = Ok out ->
  out = (acc ++ map (fun t => Api.slot t sid m)
                    (filter (uncovered apts) (ticks cur end_time)))%list.
Proof.
  funelim (Api.slots_until end_time sid m apts cur acc); intros Hout.
  - injection Hout as <-. rewrite ticks_done by assumption.
    simpl. rewrite app_nil_r. reflexivity.
  - match goal with
    | IH : forall out, _ = Ok out -> _ |- _ => rewrite (IH _ Hout)
    end.
    rewrite (ticks_step current_time end_time) by assumption.
    match goal with
    | H : Api.is_available _ _ = Ok true |- _ =>
        apply is_available_uncovered in H
    end.
    cbn [filter]. rewrite <- Heq. cbn [map]. rewrite <- app_assoc.
    reflexivity.
  - match goal with
    | IH : forall out, _ = Ok out -> _ |- _ => rewrite (IH _ Hout)
    end.
    rewrite (ticks_step current_time end_time) by assumption.
    match goal with
    | H : Api.is_available _ _ = Ok false |- _ =>
        apply is_available_uncovered in H
    end.
    cbn [filter]. rewrite <- Heq. reflexivity.
  - discriminate.
Qed.

(** What the loop over the staff appends *)
Lemma slots_of_staff_exact appointments date staff acc out :
  Api.slots_of_staff appointments date staff acc = Ok out ->
  out = (acc ++ flat_map (staff_slots appointments date) staff)%list.
Proof.
  revert acc. induction staff as [|[sid m] staff IH]; intros acc; simpl.
  - intros [= <-]. rewrite app_nil_r. reflexivity.
  - unfold staff_slots at 1, window. cbn [fst snd].
    destruct (Api.hour_minute (Staff.start (Staff.hours m))) as [a|];
      simpl; [|discriminate].
    destruct (Api.hour_minute (Staff.end_ (Staff.hours m))) as [b|];
      simpl; [|discriminate].
    destruct (Api.clock a) as [st|]; simpl; [|discriminate].
    destruct (Api.clock b) as [en|]; simpl; [|discriminate].
    destruct (Api.slots_until en sid m _ st acc) as [mid|] eqn:Emid;
      simpl; [|discriminate].
    intros Hout. rewrite (IH _ Hout).
    rewrite (slots_until_exact _ _ _ _ _ _ _ Emid), <- app_assoc.
    reflexivity.
Qed.

(** X1. An answer of the HTTP availability endpoint is the first ten
    entries of this list: for each staff member working on the weekday of
    the date, in the order of the staff file, the instants start,
    start + 30, start + 60, ... below the end of the member's window that
    no scheduled appointment of the member on that date covers, in
    increasing order. *)
Theorem availability_answer_exact date service_id w w' r :
  Api.check_availability date service_id w = (w', Ok r) ->
  exists ymd staff appointments,
    Datetime.strptime_Ymd date = Some ymd /\
    contents (staff_file w) = Ok staff /\
    contents (appointments_file w) = Ok appointments /\
    Availability.available_slots r =
      firstn 10
        (flat_map (staff_slots appointments date)
                  (Server.working_on (Datetime.strftime_A ymd) staff)).
Proof.
  intros Hrun.
  apply check_availability_inv in Hrun
    as (ymd & staff & appointments & slots & Hd & Hst & Ha & Hc & Hr & _).
  exists ymd, staff, appointments. repeat split; auto.
  rewrite Hr. f_equal.
  unfold Api.compute_slots in Hc.
  apply slots_of_staff_exact in Hc. exact Hc.
Qed.

Lemma availability_answer_exact_witness :
  Availability.available_slots saturday_answer =
  map STF002_slot ["11:00"; "11:30"; "12:00"; "12:30"; "13:00"; "13:30";
                   "14:00"; "14:30"; "15:00"; "15:30"] /\
  exists ymd staff appointments,
    Datetime.strptime_Ymd saturday = Some ymd /\
    contents (staff_file saturday_hydrafacial) = Ok staff /\
    contents (appointments_file saturday_hydrafacial) = Ok appointments /\
    Availability.available_slots saturday_answer =
      firstn 10
        (flat_map (staff_slots appointments saturday)
                  (Server.working_on (Datetime.strftime_A ymd) staff)).
Proof.
  split; [reflexivity|].
  apply (availability_answer_exact saturday None saturday_hydrafacial
           saturday_hydrafacial saturday_answer).
  vm_compute. reflexivity.
Defined.

(** X2. Neither availability operation writes: whatever it answers or
    raises, every file is as it was. *)
Theorem availability_never_writes date service_id staff_id w :
  fst (Api.check_availability date service_id w) = w /\
  fst (Server.check_availability date staff_id w) = w.
Proof.
  split.
  - unfold Api.check_availability.
    destruct (Datetime.strptime_Ymd date) as [ymd|]; [|reflexivity].
    unfold bind, load_data, lift, ret. cbn [read record_of].
    destruct (contents (services_file w)); [|reflexivity].
    destruct (contents (staff_file w)); [|reflexivity].
    destruct (contents (appointments_file w)); [|reflexivity].
    destruct (Api.compute_slots _ _ _ _); reflexivity.
  - unfold Server.check_availability, bind, load_data. cbn [read record_of].
    destruct (contents (appointments_file w)); [|reflexivity].
    destruct (contents (staff_file w)) as [staff|]; [|reflexivity].
    destruct (Datetime.strptime_Ymd date) as [ymd|]; [|reflexivity].
    assert (forall l text, fst (match l with
              | [] => ret text
              | _ :: _ => lift (Server.staff_sections a date l
                   ("AVAILABILITY FOR " ++ date ++ " ("
                    ++ Datetime.strftime_A ymd ++ ")" ++ nl
                    ++ Py.repeat_char "=" 60 ++ nl ++ nl))
              end w) = w) as Hreport
      by (intros [|x l] text; reflexivity).
    destruct (Py.truthy staff_id); [|apply Hreport].
    destruct (get _ (Server.working_on _ staff)); reflexivity.
Qed.

(** * Status changes and cancellations *)

(** [get] finds the first entry of a key. *)
Lemma get_split {A : Type} k (d : dict A) v :
  get k d = Some v ->
  exists l1 l2, d = (l1 ++ (k, v) :: l2)%list /\ get k l1 = None.
Proof.
  induction d as [|[k' v'] d IH]; simpl; [discriminate|].
  destruct (String.eqb_spec k k') as [->|Hne].
  - intros [= ->]. exists [], d. split; reflexivity.
  - intros H. destruct (IH H) as (l1 & l2 & -> & Hl1).
    exists ((k', v') :: l1), l2. split; [reflexivity|].
    simpl. destruct (String.eqb_spec k k'); [contradiction|exact Hl1].
Qed.

(** [set] replaces that entry where it stands. *)
Lemma set_split {A : Type} k (v v' : A) l1 l2 :
  get k l1 = None ->
  set k v' (l1 ++ (k, v) :: l2)%list = (l1 ++ (k, v') :: l2)%list.
Proof.
  induction l1 as [|[k0 v0] l1 IH]; simpl.
  - rewrite String.eqb_refl. reflexivity.
  - destruct (String.eqb k k0); [discriminate|].
    intros H. rewrite IH by exact H. reflexivity.
Qed.

Lemma update_status_run now appointment_id status notes w appointments apt :
  contents (appointments_file w) = Ok appointments ->
  get appointment_id appointments = Some apt ->
  In status Server.valid_statuses ->
  Server.update_appointment_status now appointment_id status notes w
  = (with_appointments
       (set appointment_id (restamped now status notes apt) appointments) w,
     Ok ("✓ Appointment " ++ appointment_id ++ " status updated to: "
         ++ Py.upper status)).
Proof.
  intros Ha Hg Hin. apply mem_In in Hin.
  unfold Server.update_appointment_status, bind, load_data.
  cbn [read record_of]. rewrite Ha, Hg, Hin. cbn [negb].
  unfold restamped. destruct (Py.truthy notes); reflexivity.
Qed.

(** An appointment that is not scheduled counts for nothing in the
    availability of any staff member or date. *)
Lemma scheduled_for_skips l1 k apt l2 sid date :
  Appointment.status apt <> "scheduled" ->
  Server.scheduled_for (l1 ++ (k, apt) :: l2)%list sid date
  = Server.scheduled_for (l1 ++ l2)%list sid date.
Proof.
  intros Hst. unfold Server.scheduled_for, values.
  rewrite !map_app, !filter_app. cbn [map filter snd].
  apply String.eqb_neq in Hst. rewrite Hst, andb_false_r. reflexivity.
Qed.

(** The slots depend on the appointments only through the scheduled ones
    of each staff member. *)
Lemma slots_of_staff_ext a1 a2 date staff acc :
  (forall sid, Server.scheduled_for a1 sid date = Server.scheduled_for a2 sid date) ->
  Api.slots_of_staff a1 date staff acc = Api.slots_of_staff a2 date staff acc.
Proof.
  intros Hext. revert acc.
  induction staff as [|[sid m] staff IH]; intros acc; simpl; [reflexivity|].
  rewrite Hext.
  destruct (Api.hour_minute (Staff.start _)); simpl; [|reflexivity].
  destruct (Api.hour_minute (Staff.end_ _)); simpl; [|reflexivity].
  destruct (Api.clock _); simpl; [|reflexivity].
  destruct (Api.clock _); simpl; [|reflexivity].
  destruct (Api.slots_until _ _ _ _ _ _); simpl; [apply IH|reflexivity].
Qed.

Lemma check_availability_ext a1 a2 date service_id w :
  (forall sid, Server.scheduled_for a1 sid date = Server.scheduled_for a2 sid date) ->
  snd (Api.check_availability date service_id (with_appointments a1 w))
  = snd (Api.check_availability date service_id (with_appointments a2 w)).
Proof.
  intros Hext. unfold Api.check_availability.
  destruct (Datetime.strptime_Ymd date) as [ymd|]; [|reflexivity].
  unfold bind, load_data, lift, ret. cbn [read record_of].
  cbn [with_appointments write services_file staff_file appointments_file contents].
  destruct (contents (services_file w)); [|reflexivity].
  destruct (contents (staff_file w)); [|reflexivity].
  unfold Api.compute_slots.
  rewrite (slots_of_staff_ext a1 a2 date _ [] Hext).
  destruct (Api.slots_of_staff a2 date _ []); reflexivity.
Qed.

(** X3. [update_appointment_status] with an id that exists and one of the
    four statuses succeeds whatever the status was before: the record
    under the id takes the new status and the stamp [updated_at], its
    notes are replaced only by non-empty notes, each of its twelve other
    fields and every other appointment stay, the keys keep their order,
    and the three other files are not touched. *)
Theorem status_update_applies now appointment_id status notes w appointments apt :
  contents (appointments_file w) = Ok appointments ->
  get appointment_id appointments = Some apt ->
  In status Server.valid_statuses ->
  exists w' appointments' updated,
    Server.update_appointment_status now appointment_id status notes w
      = (w', Ok ("✓ Appointment " ++ appointment_id ++ " status updated to: "
                 ++ Py.upper status)) /\
    appointments_file w' = Json appointments' /\
    get appointment_id appointments' = Some updated /\
    Appointment.status updated = status /\
    Appointment.updated_at updated = Some now /\
    Appointment.notes updated
      = (if Py.truthy notes then notes else Appointment.notes apt) /\
    (Appointment.id updated = Appointment.id apt /\
     Appointment.client_id updated = Appointment.client_id apt /\
     Appointment.client_name updated = Appointment.client_name apt /\
     Appointment.service_id updated = Appointment.service_id apt /\
     Appointment.service_name updated = Appointment.service_name apt /\
     Appointment.staff_id updated = Appointment.staff_id apt /\
     Appointment.staff_name updated = Appointment.staff_name apt /\
     Appointment.date updated = Appointment.date apt /\
     Appointment.time updated = Appointment.time apt /\
     Appointment.duration_minutes updated = Appointment.duration_minutes apt /\
     Appointment.price updated = Appointment.price apt /\
     Appointment.created_at updated = Appointment.created_at apt) /\
    keys appointments' = keys appointments /\
    (forall k, k <> appointment_id -> get k appointments' = get k appointments) /\
    clients_file w' = clients_file w /\
    services_file w' = services_file w /\
    staff_file w' = staff_file w.
Proof.
  intros Ha Hg Hin.
  exists (with_appointments
            (set appointment_id (restamped now status notes apt) appointments) w),
         (set appointment_id (restamped now status notes apt) appointments),
         (restamped now status notes apt).
  split; [apply update_status_run; assumption|].
  split; [reflexivity|]. split; [apply get_set_same|].
  unfold restamped.
  split; [destruct (Py.truthy notes); reflexivity|].
  split; [reflexivity|].
  split; [destruct (Py.truthy notes); reflexivity|].
  split; [destruct (Py.truthy notes); repeat split|].
  split; [apply keys_set_present; congruence|].
  split; [intros k Hk; apply get_set_other; exact Hk|].
  repeat split.
Qed.

Lemma status_update_applies_witness :
  exists w' appointments' updated,
    Server.update_appointment_status clock_now "APT0001" "completed" None
      (fst first_booking)
      = (w', Ok "✓ Appointment APT0001 status updated to: COMPLETED") /\
    appointments_file w' = Json appointments' /\
    get "APT0001" appointments' = Some updated /\
    Appointment.status updated = "completed" /\
    Appointment.notes updated = Some "Booked via voice AI" /\
    Appointment.time updated = "10:00".
Proof.
  destruct (status_update_applies clock_now "APT0001" "completed" None
              (fst first_booking)
              [("APT0001", hydrafacial tuesday "10:00")]
              (hydrafacial tuesday "10:00") eq_refl eq_refl)
    as (w' & appointments' & updated & Hrun & Hfile & Hget & Hst & _ & Hnotes
        & (_ & _ & _ & _ & _ & _ & _ & _ & Htime & _) & _).
  - simpl. tauto.
  - exists w', appointments', updated. repeat split; assumption.
Defined.

(** X4. Once [update_appointment_status] has given an appointment a status
    other than "scheduled" (completed, cancelled or no-show), the HTTP
    availability endpoint answers for every date as if the appointment had
    been deleted from the store. *)
Theorem closed_appointment_stops_blocking now appointment_id status notes
    w l1 apt l2 :
  contents (appointments_file w) = Ok (l1 ++ (appointment_id, apt) :: l2)%list ->
  get appointment_id l1 = None ->
  In status Server.valid_statuses ->
  status <> "scheduled" ->
  forall date service_id,
    snd (Api.check_availability date service_id
           (fst (Server.update_appointment_status now appointment_id status
                   notes w)))
    = snd (Api.check_availability date service_id
             (with_appointments (l1 ++ l2)%list w)).
Proof.
  intros Ha Hl1 Hin Hne date service_id.
  assert (get appointment_id (l1 ++ (appointment_id, apt) :: l2)%list = Some apt)
    as Hg.
  { clear Ha. induction l1 as [|[k0 v0] l1 IH]; simpl in *.
    - rewrite String.eqb_refl. reflexivity.
    - destruct (String.eqb appointment_id k0); [discriminate|]. apply IH.
      exact Hl1. }
  rewrite (update_status_run _ _ _ _ _ _ _ Ha Hg Hin). cbn [fst].
  rewrite (set_split _ _ _ _ _ Hl1).
  apply check_availability_ext. intros sid.
  apply scheduled_for_skips.
  unfold restamped. destruct (Py.truthy notes); exact Hne.
Qed.

Lemma closed_appointment_stops_blocking_witness :
  snd (Api.check_availability saturday None
         (fst (Server.update_appointment_status clock_now "APT0001" "no-show"
                 None saturday_hydrafacial)))
  = snd (Api.check_availability saturday None
           (with_appointments [] saturday_hydrafacial)) /\
  exists r,
    snd (Api.check_availability saturday None
           (with_appointments [] saturday_hydrafacial)) = Ok r /\
    In (STF002_slot "10:00") (Availability.available_slots r).
Proof.
  split.
  - apply (closed_appointment_stops_blocking clock_now "APT0001" "no-show" None
             saturday_hydrafacial [] (hydrafacial saturday "10:00") []).
    + reflexivity.
    + reflexivity.
    + simpl. tauto.
    + discriminate.
  - eexists. split; [vm_compute; reflexivity|]. simpl. tauto.
Defined.

Lemma get_middle {A : Type} k (v : A) l1 l2 :
  get k l1 = None -> get k (l1 ++ (k, v) :: l2)%list = Some v.
Proof.
  induction l1 as [|[k0 v0] l1 IH]; simpl.
  - rewrite String.eqb_refl. reflexivity.
  - destruct (String.eqb k k0); [discriminate|]. exact IH.
Qed.

(** X5. The [cancel_appointment] tool answers not-found for an unknown id
    and changes nothing; for a known id it stores the status "cancelled"
    with the note "Cancelled", or "Cancellation reason: " and the reason
    when a non-empty reason is given, and from then on the HTTP
    availability endpoint answers as if the appointment had been deleted. *)
Theorem tool_cancellation now appointment_id reason w appointments :
  contents (appointments_file w) = Ok appointments ->
  (get appointment_id appointments = None ->
   Server.cancel_appointment now appointment_id reason w
     = (w, Ok (not_found appointment_id))) /\
  (forall apt, get appointment_id appointments = Some apt ->
   exists w' cancelled l1 l2,
     Server.cancel_appointment now appointment_id reason w
       = (w', Ok ("✓ Appointment " ++ appointment_id
                  ++ " status updated to: CANCELLED")) /\
     appointments = (l1 ++ (appointment_id, apt) :: l2)%list /\
     appointments_file w'
       = Json (l1 ++ (appointment_id, cancelled) :: l2)%list /\
     Appointment.status cancelled = "cancelled" /\
     Appointment.notes cancelled
       = Some (match reason with
               | Some r => if String.eqb r "" then "Cancelled"
                           else "Cancellation reason: " ++ r
               | None => "Cancelled"
               end) /\
     forall date service_id,
       snd (Api.check_availability date service_id w')
       = snd (Api.check_availability date service_id
                (with_appointments (l1 ++ l2)%list w))).
Proof.
  intros Ha. split.
  - intros Hg. unfold Server.cancel_appointment.
    unfold Server.update_appointment_status, bind, load_data.
    cbn [read record_of]. rewrite Ha, Hg. reflexivity.
  - intros apt Hg.
    destruct (get_split _ _ _ Hg) as (l1 & l2 & -> & Hl1).
    unfold Server.cancel_appointment.
    rewrite (update_status_run _ _ "cancelled" _ _ _ _ Ha Hg)
      by (simpl; tauto).
    rewrite (set_split _ _ _ _ _ Hl1).
    set (note := match reason with
                 | Some r => if String.eqb r "" then "Cancelled"
                             else "Cancellation reason: " ++ r
                 | None => "Cancelled"
                 end).
    assert (Py.truthy (Some note) = true) as Hnote.
    { subst note. destruct reason as [r|]; [|reflexivity].
      destruct (String.eqb r ""); reflexivity. }
    eexists _, (restamped now "cancelled" (Some note) apt), l1, l2.
    split; [reflexivity|]. split; [reflexivity|]. split; [reflexivity|].
    unfold restamped. rewrite Hnote.
    split; [reflexivity|]. split; [reflexivity|].
    intros date service_id.
    apply check_availability_ext. intros sid.
    apply scheduled_for_skips. discriminate.
Qed.

Lemma tool_cancellation_witness :
  exists w' cancelled,
    Server.cancel_appointment clock_now "APT0001" (Some "client is ill")
      saturday_hydrafacial
      = (w', Ok "✓ Appointment APT0001 status updated to: CANCELLED") /\
    appointments_file w' = Json [("APT0001", cancelled)] /\
    Appointment.notes cancelled = Some "Cancellation reason: client is ill" /\
    exists r, snd (Api.check_availability saturday None w') = Ok r /\
              In (STF002_slot "10:00") (Availability.available_slots r).
Proof.
  destruct (proj2 (tool_cancellation clock_now "APT0001" (Some "client is ill")
                     saturday_hydrafacial
                     [("APT0001", hydrafacial saturday "10:00")] eq_refl)
              (hydrafacial saturday "10:00") eq_refl)
    as (w' & cancelled & l1 & l2 & Hrun & Hsplit & Hfile & _ & Hnotes & Hav).
  destruct l1 as [|x l1]; [|destruct l1; discriminate Hsplit].
  injection Hsplit as <-.
  exists w', cancelled. repeat split; try assumption.
  eexists. rewrite Hav. split; [vm_compute; reflexivity|]. simpl. tauto.
Defined.

(** X6. The HTTP cancellation raises [HTTPException(404)] for an unknown
    id and changes nothing; for a known id it stores the status
    "cancelled", the reason as notes (also when there is none) and the
    stamp [updated_at], answers with that record, leaves the other
    appointments and files alone, and from then on the availability
    endpoint answers as if the appointment had been deleted. *)
Theorem http_cancellation now appointment_id reason w appointments :
  contents (appointments_file w) = Ok appointments ->
  (get appointment_id appointments = None ->
   Api.cancel_appointment now appointment_id reason w
     = (w, Raise (HTTPException 404 "Appointment not found"))) /\
  (forall apt, get appointment_id appointments = Some apt ->
   exists w' answer l1 l2,
     Api.cancel_appointment now appointment_id reason w = (w', Ok answer) /\
     Cancellation.success answer = true /\
     appointments = (l1 ++ (appointment_id, apt) :: l2)%list /\
     appointments_file w'
       = Json (l1 ++ (appointment_id, Cancellation.appointment answer) :: l2)%list /\
     Appointment.status (Cancellation.appointment answer) = "cancelled" /\
     Appointment.notes (Cancellation.appointment answer) = reason /\
     Appointment.updated_at (Cancellation.appointment answer) = Some now /\
     Appointment.time (Cancellation.appointment answer) = Appointment.time apt /\
     clients_file w' = clients_file w /\
     forall date service_id,
       snd (Api.check_availability date service_id w')
       = snd (Api.check_availability date service_id
                (with_appointments (l1 ++ l2)%list w))).
Proof.
  intros Ha. unfold Api.cancel_appointment, bind, load_data.
  cbn [read record_of]. rewrite Ha. split.
  - intros ->. reflexivity.
  - intros apt Hg. rewrite Hg.
    destruct (get_split _ _ _ Hg) as (l1 & l2 & -> & Hl1).
    rewrite (set_split _ _ _ _ _ Hl1).
    eexists _, _, l1, l2. split; [reflexivity|].
    cbn [Cancellation.success Cancellation.appointment].
    repeat (split; [reflexivity|]).
    intros date service_id.
    apply (check_availability_ext _ (l1 ++ l2)%list). intros sid.
    apply scheduled_for_skips. discriminate.
Qed.

Lemma http_cancellation_witness :
  exists w' answer,
    Api.cancel_appointment clock_now "APT0001" None saturday_hydrafacial
      = (w', Ok answer) /\
    Appointment.status (Cancellation.appointment answer) = "cancelled" /\
    Appointment.notes (Cancellation.appointment answer) = None.
Proof.
  destruct (proj2 (http_cancellation clock_now "APT0001" None
                     saturday_hydrafacial
                     [("APT0001", hydrafacial saturday "10:00")] eq_refl)
              (hydrafacial saturday "10:00") eq_refl)
    as (w' & answer & l1 & l2 & Hrun & _ & _ & _ & Hst & Hnotes & _).
  exists w', answer. repeat split; assumption.
Defined.

(** * Bookings seen by the other endpoints *)

(** A scheduled appointment in the store keeps every returned slot of its
    staff member on its date out of its interval. *)
Lemma scheduled_appointment_blocks date service_id w w' r appointments k apt :
  contents (appointments_file w) = Ok appointments ->
  In (k, apt) appointments ->
  Appointment.date apt = date ->
  Appointment.status apt = "scheduled" ->
  Api.check_availability date service_id w = (w', Ok r) ->
  forall s, In s (Availability.available_slots r) ->
    TimeSlot.staff_id s = Appointment.staff_id apt ->
    exists t apt_start,
      Datetime.strptime_HM (TimeSlot.time s) = Some t /\
      Datetime.strptime_HM (Appointment.time apt) = Some apt_start /\
      ~ (apt_start <= t < apt_start + Appointment.duration_minutes apt).
Proof.
  intros Happ Hin Hdate Hstatus Hrun s Hs Hsid.
  apply check_availability_inv in Hrun
    as (ymd & staff & appointments' & slots & Hd & _ & Happ' & Hc & Hr & _).
  rewrite Happ in Happ'. injection Happ' as <-.
  rewrite Hr in Hs. apply In_firstn in Hs.
  destruct (compute_slots_sound _ _ _ _ _ Hc s Hs)
    as (m & st & en & t & _ & _ & _ & _ & Ht & _ & Hav).
  assert (In apt (Server.scheduled_for appointments (TimeSlot.staff_id s) date))
    as Hsched.
  { unfold Server.scheduled_for. apply filter_In. split.
    - unfold values. apply (in_map snd) in Hin. exact Hin.
    - rewrite Hsid, Hdate, Hstatus, !String.eqb_refl. reflexivity. }
  destruct (is_available_true _ _ Hav apt Hsched) as (apt_start & Hstart & Hout).
  exists t, apt_start. auto.
Qed.

(** X7. After a successful booking, [GET /appointment/{id}] with the id of
    the response returns the stored appointment: scheduled, at the date and
    time of the request, for the client the request resolved to, with the
    id, name, duration and price of the resolved catalog service copied
    into it; the confirmation of the response repeats the same service,
    provider, price and duration.  An unknown id raises
    [HTTPException(404)]. *)
Theorem booked_appointment_is_retrievable str_exn now booking w w' r :
  Api.book_appointment str_exn now booking w = (w', Ok r) ->
  BookingResponse.success r = true ->
  (exists apt_id apt services service_id service details,
     BookingResponse.appointment_id r = Some apt_id /\
     Api.get_appointment apt_id w' = (w', Ok apt) /\
     contents (services_file w) = Ok services /\
     Api.find_service (BookingRequest.service_name booking) services
       = Some (service_id, service) /\
     Appointment.status apt = "scheduled" /\
     Appointment.date apt = BookingRequest.date booking /\
     Appointment.time apt = BookingRequest.time booking /\
     Appointment.service_id apt = service_id /\
     Appointment.service_name apt = Service.name service /\
     Appointment.duration_minutes apt = Service.duration_minutes service /\
     Appointment.price apt = Service.price service /\
     BookingResponse.confirmation_details r = Some details /\
     Confirmation.appointment_id details = apt_id /\
     Confirmation.service details = Appointment.service_name apt /\
     Confirmation.provider details = Appointment.staff_name apt /\
     Confirmation.price details = Appointment.price apt /\
     Confirmation.duration details = Appointment.duration_minutes apt) /\
  (forall unknown appointments,
     contents (appointments_file w') = Ok appointments ->
     get unknown appointments = None ->
     Api.get_appointment unknown w'
       = (w', Raise (HTTPException 404 "Appointment not found"))).
Proof.
  intros Hrun Hok. split.
  - destruct (book_appointment_success _ _ _ _ _ _ Hrun Hok)
      as (clients & services & staff & appointments & service_id & service
          & staff_id & staff_member & client & _ & Hs & _ & _ & Hfind & _ & _
          & _ & _ & Hfile & _ & ->).
    eexists _, _, services, service_id, service, _.
    split; [reflexivity|]. split.
    { unfold Api.get_appointment, bind, load_data. cbn [read record_of].
      rewrite Hfile. cbn [contents]. rewrite get_set_same. reflexivity. }
    split; [exact Hs|]. split; [exact Hfind|].
    repeat split.
  - intros unknown appointments Ha Hg.
    unfold Api.get_appointment, bind, load_data. cbn [read record_of].
    rewrite Ha, Hg. reflexivity.
Qed.

Lemma booked_appointment_is_retrievable_witness :
  exists apt,
    Api.get_appointment "APT0001" (fst first_booking)
      = (fst first_booking, Ok apt) /\
    Appointment.service_name apt = "Hydrafacial" /\
    Appointment.duration_minutes apt = 60 /\
    Appointment.price apt = 250%float.
Proof.
  destruct (proj1 (booked_appointment_is_retrievable no_text clock_now
                     (request "hydrafacial" tuesday "10:00" "305-555-0100" None)
                     seeded (fst first_booking) (response_of first_booking)
                     eq_refl eq_refl))
    as (apt_id & apt & services & service_id & service & details & Hid & Hget
        & Hs & Hfind & _ & _ & _ & _ & Hname & Hdur & Hprice & _).
  injection Hid as <-.
  vm_compute in Hs. injection Hs as <-.
  vm_compute in Hfind. injection Hfind as <- <-.
  exists apt. repeat split; assumption.
Defined.

(** X8. After a successful booking, an answer of the availability endpoint
    queried with the very date string of the request offers the booked
    staff member no slot that starts inside [time, time + duration) of the
    new appointment.  (A query that spells the same day otherwise is not
    covered: the endpoint compares date strings.) *)
Theorem booked_interval_is_no_longer_offered str_exn now booking w w' r
    service_id w'' answer :
  Api.book_appointment str_exn now booking w = (w', Ok r) ->
  BookingResponse.success r = true ->
  Api.check_availability (BookingRequest.date booking) service_id w'
    = (w'', Ok answer) ->
  exists apt_id apt,
    BookingResponse.appointment_id r = Some apt_id /\
    Api.get_appointment apt_id w' = (w', Ok apt) /\
    forall s, In s (Availability.available_slots answer) ->
      TimeSlot.staff_id s = Appointment.staff_id apt ->
      exists t start,
        Datetime.strptime_HM (TimeSlot.time s) = Some t /\
        Datetime.strptime_HM (BookingRequest.time booking) = Some start /\
        ~ (start <= t < start + Appointment.duration_minutes apt).
Proof.
  intros Hrun Hok Hav.
  destruct (book_appointment_success _ _ _ _ _ _ Hrun Hok)
    as (clients & services & staff & appointments & svc_id & service
        & staff_id & staff_member & client & _ & _ & _ & _ & _ & _ & _
        & _ & _ & Hfile & _ & ->).
  eexists _, _. split; [reflexivity|]. split.
  { unfold Api.get_appointment, bind, load_data. cbn [read record_of].
    rewrite Hfile. cbn [contents]. rewrite get_set_same. reflexivity. }
  intros s Hs Hsid.
  match type of Hfile with
  | _ = Json (set ?k ?a ?d) =>
      apply (scheduled_appointment_blocks (BookingRequest.date booking)
               service_id w' w'' answer (set k a d) k a)
        with (s := s)
  end; try assumption.
  - rewrite Hfile. reflexivity.
  - apply get_In. apply get_set_same.
  - reflexivity.
  - reflexivity.
Qed.

Lemma booked_interval_is_no_longer_offered_witness :
  exists w'' answer,
    Api.check_availability tuesday None (fst first_booking) = (w'', Ok answer) /\
    forall s, In s (Availability.available_slots answer) ->
      TimeSlot.staff_id s = "STF002" ->
      exists t start,
        Datetime.strptime_HM (TimeSlot.time s) = Some t /\
        Datetime.strptime_HM "10:00" = Some start /\
        ~ (start <= t < start + 60).
Proof.
  assert (Api.check_availability tuesday None (fst first_booking)
          = (fst first_booking, Ok tuesday_answer)) as Hav
    by (vm_compute; reflexivity).
  destruct (booked_interval_is_no_longer_offered no_text clock_now
              (request "hydrafacial" tuesday "10:00" "305-555-0100" None)
              seeded (fst first_booking) (response_of first_booking)
              None (fst first_booking) tuesday_answer eq_refl eq_refl Hav)
    as (apt_id & apt & Hid & Hget & Hslots).
  injection Hid as <-.
  vm_compute in Hget. injection Hget as <-.
  exists (fst first_booking), tuesday_answer. split; [exact Hav|].
  exact Hslots.
Defined.

Lemma create_appointment_run format_2f now client_id service_id staff_id date
    time notes w clients services staff appointments client svc member :
  contents (appointments_file w) = Ok appointments ->
  contents (clients_file w) = Ok clients ->
  contents (services_file w) = Ok services ->
  contents (staff_file w) = Ok staff ->
  get client_id clients = Some client ->
  get service_id services = Some svc ->
  get staff_id staff = Some member ->
  exists message,
    Server.create_appointment format_2f now client_id service_id staff_id
      date time notes w
    = (with_appointments
         (set (appointment_key (len appointments + 1))
            (tool_appointment now (appointment_key (len appointments + 1))
               client_id client service_id svc staff_id member date time notes)
            appointments) w,
       Ok message).
Proof.
  intros Ha Hc Hs Hst Hgc Hgs Hgst. eexists.
  unfold Server.create_appointment, bind, load_data. cbn [read record_of].
  rewrite Ha, Hc, Hs, Hst, Hgc, Hgs, Hgst. reflexivity.
Qed.

(** X9. An appointment created through the tool keeps the availability
    endpoint, queried with the very date string given to
    [create_appointment], from offering its staff member a slot that
    starts inside [time, time + duration of the service).  (A query that
    spells the same day otherwise is not covered: the endpoint compares
    date strings.) *)
Theorem created_interval_is_no_longer_offered format_2f now client_id
    service_id staff_id date time notes w clients services staff appointments
    client svc member query w'' answer :
  contents (appointments_file w) = Ok appointments ->
  contents (clients_file w) = Ok clients ->
  contents (services_file w) = Ok services ->
  contents (staff_file w) = Ok staff ->
  get client_id clients = Some client ->
  get service_id services = Some svc ->
  get staff_id staff = Some member ->
  Api.check_availability date query
    (fst (Server.create_appointment format_2f now client_id service_id
            staff_id date time notes w)) = (w'', Ok answer) ->
  forall s, In s (Availability.available_slots answer) ->
    TimeSlot.staff_id s = staff_id ->
    exists t start,
      Datetime.strptime_HM (TimeSlot.time s) = Some t /\
      Datetime.strptime_HM time = Some start /\
      ~ (start <= t < start + Service.duration_minutes svc).
Proof.
  intros Ha Hc Hs Hst Hgc Hgs Hgst Hav s Hin Hsid.
  destruct (create_appointment_run format_2f now client_id service_id staff_id
              date time notes w _ _ _ _ _ _ _ Ha Hc Hs Hst Hgc Hgs Hgst)
    as (message & Hrun).
  rewrite Hrun in Hav. cbn [fst] in Hav.
  match type of Hav with
  | Api.check_availability _ _ (with_appointments (set ?k ?a ?d) ?w0) = _ =>
      apply (scheduled_appointment_blocks date query
               (with_appointments (set k a d) w0) w'' answer (set k a d) k a)
        with (s := s)
  end; try assumption.
  - reflexivity.
  - apply get_In. apply get_set_same.
  - reflexivity.
  - reflexivity.
Qed.

Lemma created_interval_is_no_longer_offered_witness :
  exists w'' answer,
    Api.check_availability saturday None
      (fst (Server.create_appointment no_digits clock_now "CL0001" "SVC005"
              "STF002" saturday "12:00" None (fst first_booking)))
      = (w'', Ok answer) /\
    In (STF002_slot "11:30") (Availability.available_slots answer) /\
    forall s, In s (Availability.available_slots answer) ->
      TimeSlot.staff_id s = "STF002" ->
      exists t start,
        Datetime.strptime_HM (TimeSlot.time s) = Some t /\
        Datetime.strptime_HM "12:00" = Some start /\
        ~ (start <= t < start + 45).
Proof.
  eexists _, _. split; [vm_compute; reflexivity|].
  split; [simpl; tauto|].
  eapply (created_interval_is_no_longer_offered no_digits clock_now "CL0001"
            "SVC005" "STF002" saturday "12:00" None (fst first_booking)
            _ Server.default_services Server.default_staff _ _
            (snd (Server.service "SVC005" "Chemical Peel" "Skin Treatments" 45
                    200%float
                    "Skin resurfacing treatment for improved texture and tone"))
            _ None);
    try reflexivity.
  vm_compute. reflexivity.
Defined.

(** X10. [create_appointment] checks that the client, then the service,
    then the staff member exists; the first missing one is reported by id
    and nothing is written. *)
Theorem create_appointment_refusals format_2f now client_id service_id
    staff_id date time notes w clients services staff appointments :
  contents (appointments_file w) = Ok appointments ->
  contents (clients_file w) = Ok clients ->
  contents (services_file w) = Ok services ->
  contents (staff_file w) = Ok staff ->
  let run := Server.create_appointment format_2f now client_id service_id
               staff_id date time notes w in
  (get client_id clients = None ->
   run = (w, Ok ("Error: Client " ++ client_id ++ " not found"))) /\
  (get client_id clients <> None -> get service_id services = None ->
   run = (w, Ok ("Error: Service " ++ service_id ++ " not found"))) /\
  (get client_id clients <> None -> get service_id services <> None ->
   get staff_id staff = None ->
   run = (w, Ok ("Error: Staff member " ++ staff_id ++ " not found"))).
Proof.
  intros Ha Hc Hs Hst run. subst run.
  unfold Server.create_appointment, bind, load_data. cbn [read record_of].
  rewrite Ha, Hc, Hs, Hst.
  destruct (get client_id clients), (get service_id services),
    (get staff_id staff); repeat split; intros; try congruence; reflexivity.
Qed.

Lemma create_appointment_refusals_witness :
  Server.create_appointment no_digits clock_now "CL0001" "SVC999" "STF999"
    tuesday "10:00" None (fst first_booking)
  = (fst first_booking, Ok "Error: Service SVC999 not found").
Proof.
  apply (proj1 (proj2 (create_appointment_refusals no_digits clock_now "CL0001"
                         "SVC999" "STF999" tuesday "10:00" None
                         (fst first_booking) _ _ _ _
                         eq_refl eq_refl eq_refl eq_refl))).
  - discriminate.
  - reflexivity.
Defined.

(** * Dates and times are not validated *)

(** X11. [book_appointment] never looks at the date and the time of the
    request: with any other two strings in their place, readable or not,
    the booking succeeds or fails alike, with the same message and
    appointment id and the same clients store. *)
Theorem booking_ignores_date_and_time str_exn now booking date time w :
  exists w1 r1 w2 r2,
    Api.book_appointment str_exn now booking w = (w1, Ok r1) /\
    Api.book_appointment str_exn now (rescheduled date time booking) w
      = (w2, Ok r2) /\
    BookingResponse.success r1 = BookingResponse.success r2 /\
    BookingResponse.appointment_id r1 = BookingResponse.appointment_id r2 /\
    BookingResponse.message r1 = BookingResponse.message r2 /\
    clients_file w1 = clients_file w2.
Proof.
  unfold Api.book_appointment, try_except.
  destruct (contents_cases (clients_file w)) as [[clients Hc]|Hc];
    [|rewrite !book_load_failure by auto; unfold ret;
      eexists _, _, _, _; repeat split].
  destruct (contents_cases (services_file w)) as [[services Hs]|Hs];
    [|rewrite !book_load_failure by auto; unfold ret;
      eexists _, _, _, _; repeat split].
  destruct (contents_cases (staff_file w)) as [[staff Hst]|Hst];
    [|rewrite !book_load_failure by auto; unfold ret;
      eexists _, _, _, _; repeat split].
  destruct (contents_cases (appointments_file w)) as [[appointments Ha]|Ha];
    [|rewrite !book_load_failure by auto; unfold ret;
      eexists _, _, _, _; repeat split].
  destruct (Api.find_service (BookingRequest.service_name booking) services)
    as [[service_id service]|] eqn:Hfind.
  - rewrite (book_run now booking w _ _ _ _ _ _ Hc Hs Hst Ha Hfind).
    rewrite (book_run now (rescheduled date time booking) w _ _ _ _ _ _
               Hc Hs Hst Ha Hfind).
    cbv zeta.
    change (Api.determine_staff (rescheduled date time booking) service staff)
      with (Api.determine_staff booking service staff).
    change (BookingRequest.client_phone (rescheduled date time booking))
      with (BookingRequest.client_phone booking).
    change (Api.new_client now (client_key (len clients + 1))
              (rescheduled date time booking))
      with (Api.new_client now (client_key (len clients + 1)) booking).
    destruct (if Py.truthy _ then _ else None) as [staff_id|];
      [|unfold ret; eexists _, _, _, _; repeat split].
    destruct (get staff_id staff) as [staff_member|];
      [|unfold ret; eexists _, _, _, _; repeat split].
    match goal with
    | |- context [get ?cid ?d] =>
        match d with
        | staff => fail 1
        | _ => destruct (get cid d) as [client|]
        end
    end; unfold ret; eexists _, _, _, _; repeat split.
  - unfold Api.book, bind, load_data. cbn [read record_of].
    rewrite Hc, Hs, Hst, Ha.
    change (BookingRequest.service_name (rescheduled date time booking))
      with (BookingRequest.service_name booking).
    rewrite Hfind. unfold ret. eexists _, _, _, _. repeat split.
Qed.

Lemma is_available_raises t apts bad :
  In bad apts ->
  Datetime.strptime_HM (Appointment.time bad) = None ->
  uncovered apts t = true ->
  exists e, Api.is_available t apts = Raise e.
Proof.
  intros Hin Hbad. induction apts as [|a apts IH]; [destruct Hin|].
  simpl. unfold covers.
  destruct (Datetime.strptime_HM (Appointment.time a)) as [st|] eqn:Est;
    simpl; [|eauto].
  destruct (Datetime.add_minutes st (Appointment.duration_minutes a))
    as [en|] eqn:Een; simpl; [|eauto].
  apply add_minutes_sum in Een. subst en.
  destruct ((st <=? t) && (t <? st + Appointment.duration_minutes a));
    simpl; [discriminate|].
  intros Hrest. apply IH; [|exact Hrest].
  destruct Hin as [->|Hin]; [congruence|exact Hin].
Qed.

Lemma slots_until_raises end_time sid m apts cur acc :
  cur < end_time ->
  (exists e, Api.is_available cur apts = Raise e) ->
  exists e, Api.slots_until end_time sid m apts cur acc = Raise e.
Proof.
  intros Hlt [e He].
  funelim (Api.slots_until end_time sid m apts cur acc);
    try congruence; try contradiction; eauto.
Qed.

Lemma slots_of_staff_raises appointments date staff sid m st en :
  In (sid, m) staff ->
  window m = Ok (st, en) ->
  st < en ->
  (exists e, Api.is_available st (Server.scheduled_for appointments sid date)
             = Raise e) ->
  forall acc, exists e, Api.slots_of_staff appointments date staff acc = Raise e.
Proof.
  intros Hin Hw Hlt Hraise.
  induction staff as [|[sid' m'] staff IH]; [destruct Hin|].
  intros acc. simpl.
  destruct Hin as [Heq|Hin].
  - injection Heq as -> ->. unfold window in Hw.
    destruct (Api.hour_minute (Staff.start _)) as [a|]; simpl in *;
      [|discriminate].
    destruct (Api.hour_minute (Staff.end_ _)) as [b|]; simpl in *;
      [|discriminate].
    destruct (Api.clock a) as [x|]; simpl in *; [|discriminate].
    destruct (Api.clock b) as [y|]; simpl in *; [|discriminate].
    injection Hw as -> ->.
    destruct (slots_until_raises en sid m _ st acc Hlt Hraise) as [e He].
    rewrite He. simpl. eauto.
  - destruct (Api.hour_minute (Staff.start _)); simpl; [|eauto].
    destruct (Api.hour_minute (Staff.end_ _)); simpl; [|eauto].
    destruct (Api.clock _); simpl; [|eauto].
    destruct (Api.clock _); simpl; [|eauto].
    destruct (Api.slots_until _ _ _ _ _ _); simpl; [|eauto].
    apply IH. exact Hin.
Qed.

(** X12. A stored time that is not a time breaks the availability
    endpoint.  If a staff member who works on the weekday of the date, with
    a window that is not empty, has a scheduled appointment on that date
    whose time [strptime(_, "%H:%M")] rejects, and no scheduled appointment
    of the member covers the opening instant, then the endpoint raises for
    that date instead of answering, and writes nothing. *)
Theorem unreadable_time_breaks_availability date service_id w ymd staff
    appointments sid member start_time end_time k apt :
  Datetime.strptime_Ymd date = Some ymd ->
  contents (staff_file w) = Ok staff ->
  contents (appointments_file w) = Ok appointments ->
  In (sid, member) staff ->
  Py.mem (Datetime.strftime_A ymd) (Staff.available_days member) = true ->
  window member = Ok (start_time, end_time) ->
  start_time < end_time ->
  In (k, apt) appointments ->
  Appointment.staff_id apt = sid ->
  Appointment.date apt = date ->
  Appointment.status apt = "scheduled" ->
  Datetime.strptime_HM (Appointment.time apt) = None ->
  uncovered (Server.scheduled_for appointments sid date) start_time = true ->
  exists e, Api.check_availability date service_id w = (w, Raise e).
Proof.
  intros Hd Hst Ha Hin Hday Hw Hlt Hapt Hsid Hdate Hstatus Hbad Hfree.
  unfold Api.check_availability. rewrite Hd.
  unfold bind, load_data, lift, ret. cbn [read record_of].
  destruct (contents (services_file w)); [|eauto].
  rewrite Hst, Ha.
  assert (In apt (Server.scheduled_for appointments sid date)) as Hsched.
  { unfold Server.scheduled_for. apply filter_In. split.
    - unfold values. apply (in_map snd) in Hapt. exact Hapt.
    - rewrite Hsid, Hdate, Hstatus, !String.eqb_refl. reflexivity. }
  assert (In (sid, member) (Server.working_on (Datetime.strftime_A ymd) staff))
    as Hworks
    by (unfold Server.working_on; apply filter_In; split; assumption).
  destruct (slots_of_staff_raises appointments date _ sid member _ _
              Hworks Hw Hlt
              (is_available_raises _ _ _ Hsched Hbad Hfree) []) as [e He].
  unfold Api.compute_slots. rewrite He. eauto.
Qed.

Lemma unreadable_time_breaks_availability_witness :
  BookingResponse.success (response_of noon_booking) = true /\
  exists e, Api.check_availability saturday None (fst noon_booking)
            = (fst noon_booking, Raise e).
Proof.
  split; [reflexivity|].
  eapply (unreadable_time_breaks_availability saturday None (fst noon_booking)
            (2026, 11, 7) Server.default_staff _ "STF002"
            (snd (Server.member "STF002" "Sarah Johnson" "Licensed Aesthetician"
                    ["Facials"; "Skin Treatments"]
                    ["Tuesday"; "Wednesday"; "Thursday"; "Friday"; "Saturday"]
                    "10:00" "18:00"))
            600 1080 "APT0001");
    try reflexivity; simpl; tauto.
Defined.

(** * The catalogs *)

(** X13. [initialize_default_data] never raises, writes a catalog only
    where the file is missing and keeps every file that exists, readable or
    not, as well as the appointments and the clients; a second run changes
    nothing. *)
Theorem seeding_keeps_existing_files w :
  let w' := fst (Server.initialize_default_data w) in
  snd (Server.initialize_default_data w) = Ok tt /\
  appointments_file w' = appointments_file w /\
  clients_file w' = clients_file w /\
  services_file w'
    = match services_file w with
      | Absent => Json Server.default_services
      | f => f
      end /\
  staff_file w'
    = match staff_file w with
      | Absent => Json Server.default_staff
      | f => f
      end /\
  Server.initialize_default_data w' = (w', Ok tt).
Proof.
  destruct w as [fa fc fs fst]. destruct fs, fst; repeat split.
Qed.

Lemma find_values {A : Type} (p : A -> bool) (d : dict A) :
  find p (values d) = option_map snd (find (fun '(_, v) => p v) d).
Proof.
  unfold values. induction d as [|[k v] d IH]; simpl; [reflexivity|].
  destruct (p v); [reflexivity|exact IH].
Qed.

Lemma find_filter {A : Type} (p : A -> bool) (l : list A) :
  match find p l with
  | Some x => exists rest, filter p l = x :: rest
  | None => filter p l = []
  end.
Proof.
  induction l as [|x l IH]; simpl; [reflexivity|].
  destruct (p x); [eauto|exact IH].
Qed.

Lemma find_first {A : Type} (p : A -> bool) (l : list A) x :
  find p l = Some x ->
  exists l1 l2, l = (l1 ++ x :: l2)%list /\ p x = true /\
                forall y, In y l1 -> p y = false.
Proof.
  induction l as [|y l IH]; simpl; [discriminate|].
  destruct (p y) eqn:Ey.
  - intros [= <-]. exists [], l. repeat split; [exact Ey|intros ? []].
  - intros H. destruct (IH H) as (l1 & l2 & -> & Hp & Hno).
    exists (y :: l1), l2. repeat split; [exact Hp|].
    intros z [<-|Hz]; auto.
Qed.

(** X14. [GET /services/search] answers "found" by name exactly when a
    booking under that name resolves a service, and it is the same service;
    otherwise it falls back on the first service, in the order of the
    catalog, whose category contains the query, a match that a booking
    under that name does not make, or reports that nothing matches.  It
    writes nothing. *)
Theorem search_agrees_with_booking query w services :
  contents (services_file w) = Ok services ->
  match Api.find_service query services with
  | Some (_, service) =>
      Api.search_service query w = (w, Ok (Api.found_by_name service))
  | None =>
      (exists before service after,
         Api.search_service query w = (w, Ok (Api.found_by_category service)) /\
         values services = (before ++ service :: after)%list /\
         Py.contains (Py.lower query) (Py.lower (Service.category service))
           = true /\
         forall earlier, In earlier before ->
           Py.contains (Py.lower query) (Py.lower (Service.category earlier))
             = false) \/
      (Api.search_service query w
         = (w, Ok (Api.no_match ("No service found matching '" ++ query ++ "'"))) /\
       forall service, In service (values services) ->
         Py.contains (Py.lower query) (Py.lower (Service.category service))
           = false)
  end.
Proof.
  intros Hs. unfold Api.search_service, bind, load_data.
  cbn [read record_of]. rewrite Hs.
  rewrite (find_values
             (fun service =>
                Py.contains (Py.lower query) (Py.lower (Service.name service)))).
  unfold Api.find_service.
  destruct (find _ services) as [[sid service]|]; [reflexivity|].
  cbn [option_map].
  destruct (find _ (values services)) as [service|] eqn:Ecat.
  - left. destruct (find_first _ _ _ Ecat) as (before & after & Heq & Hc & Hno).
    exists before, service, after. auto.
  - right. split; [reflexivity|].
    intros service Hin. exact (find_none _ _ Ecat service Hin).
Qed.

Lemma search_agrees_with_booking_witness :
  Api.find_service "facials" Server.default_services = None /\
  ((exists before service after,
      Api.search_service "facials" seeded
        = (seeded, Ok (Api.found_by_category service)) /\
      values Server.default_services = (before ++ service :: after)%list /\
      Py.contains (Py.lower "facials") (Py.lower (Service.category service))
        = true /\
      forall earlier, In earlier before ->
        Py.contains (Py.lower "facials") (Py.lower (Service.category earlier))
          = false) \/
   (Api.search_service "facials" seeded
      = (seeded, Ok (Api.no_match "No service found matching 'facials'")) /\
    forall service, In service (values Server.default_services) ->
      Py.contains (Py.lower "facials") (Py.lower (Service.category service))
        = false)).
Proof.
  split; [reflexivity|].
  exact (search_agrees_with_booking "facials" seeded Server.default_services
           eq_refl).
Defined.

(** X15. For a category that is not the empty string, a booking that names
    no staff member assigns the member that
    [GET /staff/available?specialty=category] lists first, and finds nobody
    exactly when that list is empty. *)
Theorem auto_assignment_is_first_available booking service w staff :
  contents (staff_file w) = Ok staff ->
  Service.category service <> "" ->
  Py.truthy (BookingRequest.staff_id booking) = false ->
  match Api.get_available_staff (Some (Service.category service)) w with
  | (w', Ok (first :: _)) =>
      w' = w /\
      exists sid, Api.determine_staff booking service staff = Some sid /\
                  In (sid, first) staff
  | (w', Ok []) =>
      w' = w /\
      Api.determine_staff booking service staff = BookingRequest.staff_id booking
  | (_, Raise _) => False
  end.
Proof.
  intros Hst Hcat Hnone.
  unfold Api.get_available_staff, bind, load_data. cbn [read record_of].
  rewrite Hst. unfold ret. rewrite (truthy_some _ Hcat).
  unfold Api.determine_staff, Api.find_staff. rewrite Hnone. cbn [negb].
  pose proof (find_filter
                (fun s => Py.mem (Service.category service) (Staff.specialties s))
                (values staff)) as Hff.
  rewrite find_values in Hff.
  destruct (find _ staff) as [[sid m]|] eqn:Efind; cbn [option_map] in Hff.
  - destruct Hff as [rest ->]. split; [reflexivity|].
    exists sid. split; [reflexivity|].
    apply find_some in Efind as [Hin _]. exact Hin.
  - rewrite Hff. split; reflexivity.
Qed.

Lemma auto_assignment_is_first_available_witness :
  exists rest sid,
    Api.get_available_staff (Some "Facials") seeded
      = (seeded, Ok (snd (Server.member "STF002" "Sarah Johnson"
                            "Licensed Aesthetician"
                            ["Facials"; "Skin Treatments"]
                            ["Tuesday"; "Wednesday"; "Thursday"; "Friday";
                             "Saturday"] "10:00" "18:00") :: rest)) /\
    Api.determine_staff
      (request "hydrafacial" tuesday "10:00" "305-555-0100" None)
      (snd (Server.service "SVC003" "Hydrafacial" "Facials" 60 250%float
              "Deep cleansing and hydration facial treatment"))
      Server.default_staff = Some sid /\
    sid = "STF002".
Proof.
  pose proof (auto_assignment_is_first_available
                (request "hydrafacial" tuesday "10:00" "305-555-0100" None)
                (snd (Server.service "SVC003" "Hydrafacial" "Facials" 60
                        250%float
                        "Deep cleansing and hydration facial treatment"))
                seeded Server.default_staff eq_refl) as H.
  cbv beta in H.
  assert (Api.get_available_staff (Some "Facials") seeded
          = (seeded, Ok [snd (Server.member "STF002" "Sarah Johnson"
                                "Licensed Aesthetician"
                                ["Facials"; "Skin Treatments"]
                                ["Tuesday"; "Wednesday"; "Thursday"; "Friday";
                                 "Saturday"] "10:00" "18:00")])) as Hlist
    by reflexivity.
  change (Service.category _) with "Facials" in H.
  rewrite Hlist in H.
  destruct H as (_ & sid & Hd & Hin); [discriminate|reflexivity|].
  exists [], sid. split; [exact Hlist|]. split; [exact Hd|].
  vm_compute in Hd. congruence.
Defined.

(** * Keys and order of the stores *)

Lemma appointment_key_inj a b :
  0 < a -> 0 < b -> appointment_key a = appointment_key b -> a = b.
Proof.
  unfold appointment_key. intros Ha Hb Heq. injection Heq as Heq.
  eapply zfill_inj; eassumption.
Qed.

(** X16. In an appointments store whose keys are APT0001, APT0002, ... in
    order, a successful [book_appointment] and a [create_appointment] with
    known ids put the new appointment after all the others, under the next
    key, and overwrite nothing; the keys stay sequential. *)
Theorem bookings_append str_exn format_2f now w appointments :
  contents (appointments_file w) = Ok appointments ->
  sequential appointment_key appointments ->
  let next := appointment_key (len appointments + 1) in
  (forall booking w' r,
     Api.book_appointment str_exn now booking w = (w', Ok r) ->
     BookingResponse.success r = true ->
     BookingResponse.appointment_id r = Some next /\
     exists apt,
       appointments_file w' = Json (appointments ++ [(next, apt)])%list /\
       sequential appointment_key (appointments ++ [(next, apt)])%list) /\
  (forall client_id service_id staff_id date time notes
          clients services staff client svc member,
     contents (clients_file w) = Ok clients ->
     contents (services_file w) = Ok services ->
     contents (staff_file w) = Ok staff ->
     get client_id clients = Some client ->
     get service_id services = Some svc ->
     get staff_id staff = Some member ->
     exists apt,
       appointments_file
         (fst (Server.create_appointment format_2f now client_id service_id
                 staff_id date time notes w))
         = Json (appointments ++ [(next, apt)])%list /\
       sequential appointment_key (appointments ++ [(next, apt)])%list).
Proof.
  intros Ha Hseq next.
  pose proof (sequential_fresh appointment_key appointment_key_inj _ Hseq)
    as Hfresh.
  split.
  - intros booking w' r Hrun Hok.
    destruct (book_appointment_success _ _ _ _ _ _ Hrun Hok)
      as (clients & services & staff & appointments' & service_id & service
          & staff_id & staff_member & client & _ & _ & _ & Ha' & _ & _ & _
          & _ & _ & Hfile & _ & ->).
    rewrite Ha in Ha'. injection Ha' as <-.
    split; [reflexivity|].
    eexists. rewrite Hfile, (set_fresh _ _ _ Hfresh). split; [reflexivity|].
    rewrite <- (set_fresh _ _ _ Hfresh).
    apply (sequential_add appointment_key appointment_key_inj). exact Hseq.
  - intros client_id service_id staff_id date time notes
           clients services staff client svc member Hc Hs Hst Hgc Hgs Hgst.
    destruct (create_appointment_run format_2f now client_id service_id
                staff_id date time notes w _ _ _ _ _ _ _
                Ha Hc Hs Hst Hgc Hgs Hgst) as (message & ->).
    eexists. cbn [fst with_appointments write appointments_file].
    rewrite (set_fresh _ _ _ Hfresh). split; [reflexivity|].
    rewrite <- (set_fresh _ _ _ Hfresh).
    apply (sequential_add appointment_key appointment_key_inj). exact Hseq.
Qed.

Lemma bookings_append_witness :
  BookingResponse.appointment_id (response_of second_booking) = Some "APT0002" /\
  exists apt,
    appointments_file (fst second_booking)
      = Json [("APT0001", hydrafacial tuesday "10:00"); ("APT0002", apt)].
Proof.
  destruct (proj1 (bookings_append no_text no_digits clock_now
                     (fst first_booking)
                     [("APT0001", hydrafacial tuesday "10:00")]
                     eq_refl eq_refl)
              (request "hydrafacial" tuesday "10:00" "305-555-0100" None)
              (fst second_booking) (response_of second_booking)
              eq_refl eq_refl) as (Hid & apt & Hfile & _).
  split; [exact Hid|]. exists apt. exact Hfile.
Defined.

(** X17. Status changes never add, remove or reorder appointments:
    whatever [update_appointment_status], the [cancel_appointment] tool and
    the HTTP cancellation are given and whatever they answer, the store
    has the same keys in the same order afterwards. *)
Theorem status_changes_keep_the_keys now appointment_id status notes reason
    w appointments :
  contents (appointments_file w) = Ok appointments ->
  let same_keys w' :=
    exists appointments',
      contents (appointments_file w') = Ok appointments' /\
      keys appointments' = keys appointments in
  same_keys (fst (Server.update_appointment_status now appointment_id status
                    notes w)) /\
  same_keys (fst (Server.cancel_appointment now appointment_id reason w)) /\
  same_keys (fst (Api.cancel_appointment now appointment_id reason w)).
Proof.
  intros Ha same_keys.
  assert (forall st nt,
            same_keys (fst (Server.update_appointment_status now appointment_id
                              st nt w))) as Hupdate.
  { intros st nt.
    unfold Server.update_appointment_status, bind, load_data.
    cbn [read record_of]. rewrite Ha.
    destruct (get appointment_id appointments) as [apt|] eqn:Hg;
      [|exists appointments; split; [exact Ha|reflexivity]].
    destruct (negb (Py.mem st Server.valid_statuses));
      [exists appointments; split; [exact Ha|reflexivity]|].
    eexists. split; [reflexivity|].
    apply keys_set_present. congruence. }
  split; [apply Hupdate|]. split; [apply Hupdate|].
  unfold Api.cancel_appointment, bind, load_data. cbn [read record_of].
  rewrite Ha.
  destruct (get appointment_id appointments) as [apt|] eqn:Hg;
    [|exists appointments; split; [exact Ha|reflexivity]].
  eexists. split; [reflexivity|]. apply keys_set_present. congruence.
Qed.

Lemma status_changes_keep_the_keys_witness :
  exists appointments',
    contents (appointments_file
                (fst (Api.cancel_appointment clock_now "APT0002" None
                        (fst second_booking)))) = Ok appointments' /\
    keys appointments' = ["APT0001"; "APT0002"].
Proof.
  destruct (status_changes_keep_the_keys clock_now "APT0002" "" None None
              (fst second_booking) _ eq_refl) as (_ & _ & H).
  exact H.
Defined.

Lemma add_client_run now name email phone date_of_birth address
    emergency_contact medical_notes w clients :
  contents (clients_file w) = Ok clients ->
  exists message,
    Server.add_client now name email phone date_of_birth address
      emergency_contact medical_notes w
    = (write CLIENTS_FILE
         (Json (set (client_key (len clients + 1))
                  (registered_client now (client_key (len clients + 1)) name
                     email phone date_of_birth address emergency_contact
                     medical_notes)
                  clients)) w,
       Ok message).
Proof.
  intros Hc. eexists. unfold Server.add_client, bind, load_data.
  cbn [read record_of]. rewrite Hc. reflexivity.
Qed.

(** X18. In a clients store whose keys are CL0001, CL0002, ... in order,
    [add_client] always appends one record under the next key, with zero
    counters, also when another client already has the same phone number;
    both [add_client] and [book_appointment], whatever it answers, leave
    the keys sequential, so a generated key never overwrites a client. *)
Theorem client_keys_stay_sequential str_exn now w clients :
  contents (clients_file w) = Ok clients ->
  sequential client_key clients ->
  (forall name email phone date_of_birth address emergency_contact
          medical_notes,
     exists client,
       clients_file (fst (Server.add_client now name email phone date_of_birth
                            address emergency_contact medical_notes w))
         = Json (clients ++ [(client_key (len clients + 1), client)])%list /\
       Client.phone client = phone /\
       Client.total_visits client = 0 /\
       Client.total_spent client = 0%float /\
       sequential client_key
         (clients ++ [(client_key (len clients + 1), client)])%list) /\
  (forall booking,
     exists clients',
       contents (clients_file (fst (Api.book_appointment str_exn now booking w)))
         = Ok clients' /\
       sequential client_key clients' /\
       Dict.wf clients').
Proof.
  intros Hc Hseq.
  pose proof (sequential_fresh client_key client_key_inj _ Hseq) as Hfresh.
  split.
  - intros name email phone date_of_birth address emergency_contact
           medical_notes.
    destruct (add_client_run now name email phone date_of_birth address
                emergency_contact medical_notes w clients Hc)
      as (message & ->).
    eexists. cbn [fst write clients_file].
    rewrite (set_fresh _ _ _ Hfresh). split; [reflexivity|].
    repeat (split; [reflexivity|]).
    rewrite <- (set_fresh _ _ _ Hfresh).
    apply (sequential_add client_key client_key_inj). exact Hseq.
  - intros booking.
    destruct (book_appointment_sequential str_exn now booking w clients Hc Hseq)
      as (clients' & Hc' & Hseq').
    exists clients'. split; [exact Hc'|]. split; [exact Hseq'|].
    eapply sequential_wf; [exact client_key_inj|exact Hseq'].
Qed.

Lemma client_keys_stay_sequential_witness :
  exists client,
    clients_file
      (fst (Server.add_client clock_now "Ana Diaz" "ana2@example.com"
              "305-555-0100" "1990-04-12" "" "" "" (fst first_booking)))
    = Json [("CL0001",
             Client.add_visit 250
               (Api.new_client clock_now "CL0001"
                  (request "hydrafacial" tuesday "10:00" "305-555-0100" None)));
            ("CL0002", client)] /\
    Client.phone client = "305-555-0100".
Proof.
  destruct (proj1 (client_keys_stay_sequential no_text clock_now
                     (fst first_booking) _ eq_refl eq_refl)
              "Ana Diaz" "ana2@example.com" "305-555-0100" "1990-04-12"
              "" "" "")
    as (client & Hfile & Hphone & _).
  exists client. split; [exact Hfile|exact Hphone].
Defined.

Lemma find_client_last phone (clients : dict Client.t) k c :
  (forall cid c', In (cid, c') clients -> Client.phone c' <> phone) ->
  Client.phone c = phone ->
  Api.find_client phone (clients ++ [(k, c)])%list = Some k.
Proof.
  intros Hnone Hc. unfold Api.find_client.
  induction clients as [|[k0 c0] clients IH]; simpl.
  - rewrite Hc, String.eqb_refl. reflexivity.
  - destruct (String.eqb_spec (Client.phone c0) phone) as [Heq|_].
    + exfalso. eapply Hnone; [left; reflexivity|exact Heq].
    + apply IH. intros cid c' Hin. apply (Hnone cid c'). right. exact Hin.
Qed.

(** X19. A client registered with [add_client] is the one a later booking
    with the same phone number is made for.  In a clients store with
    sequential keys where nobody had that number, the successful booking
    adds no client, credits the registered record with the visit and the
    price, and stores the appointment under the registered key and the
    registered name, not the name given in the request. *)
Theorem registered_client_is_reused str_exn now now' name email phone
    date_of_birth address emergency_contact medical_notes booking w clients
    w' r :
  contents (clients_file w) = Ok clients ->
  sequential client_key clients ->
  (forall cid c, In (cid, c) clients -> Client.phone c <> phone) ->
  BookingRequest.client_phone booking = phone ->
  Api.book_appointment str_exn now' booking
    (fst (Server.add_client now name email phone date_of_birth address
            emergency_contact medical_notes w)) = (w', Ok r) ->
  BookingResponse.success r = true ->
  let key := client_key (len clients + 1) in
  let client := registered_client now key name email phone date_of_birth
                  address emergency_contact medical_notes in
  exists apt_id apt price,
    clients_file w'
      = Json (clients ++ [(key, Client.add_visit price client)])%list /\
    BookingResponse.appointment_id r = Some apt_id /\
    Api.get_appointment apt_id w' = (w', Ok apt) /\
    Appointment.price apt = price /\
    Appointment.client_id apt = key /\
    Appointment.client_name apt = name.
Proof.
  intros Hc Hseq Hnone Hphone Hrun Hok key client.
  pose proof (sequential_fresh client_key client_key_inj _ Hseq) as Hfresh.
  destruct (add_client_run now name email phone date_of_birth address
              emergency_contact medical_notes w clients Hc)
    as (message & Hadd).
  rewrite Hadd in Hrun. cbn [fst] in Hrun.
  fold key in Hrun, Hfresh. fold client in Hrun.
  rewrite (set_fresh _ _ _ Hfresh) in Hrun.
  destruct (book_appointment_success _ _ _ _ _ _ Hrun Hok)
    as (clients1 & services & staff & appointments & service_id & service
        & staff_id & staff_member & client1 & Hc1 & _ & _ & _ & _ & _ & _
        & _ & Hclient & Hafile & Hcfile & ->).
  cbn [write clients_file contents] in Hc1. injection Hc1 as <-.
  assert (Api.find_client (BookingRequest.client_phone booking)
            (clients ++ [(key, client)])%list = Some key) as Hfound
    by (rewrite Hphone; apply find_client_last; [exact Hnone|reflexivity]).
  assert (key <> "") as Hkey by discriminate.
  unfold booking_client_id, clients_with_booker in *.
  rewrite Hfound in *. rewrite (truthy_some _ Hkey) in *.
  destruct (String.eqb_spec key ""); [contradiction|].
  rewrite (get_middle _ _ _ _ Hfresh) in Hclient. injection Hclient as <-.
  rewrite (set_split _ _ _ _ _ Hfresh) in Hcfile.
  eexists _, _, (Service.price service).
  split; [exact Hcfile|]. split; [reflexivity|]. split.
  { unfold Api.get_appointment, bind, load_data. cbn [read record_of].
    rewrite Hafile. cbn [contents]. rewrite get_set_same. reflexivity. }
  repeat split.
Qed.

Lemma registered_client_is_reused_witness :
  exists apt_id apt price,
    clients_file (fst booking_after_registration)
      = Json [("CL0001",
               Client.add_visit price
                 (registered_client clock_now "CL0001" "Ana Diaz"
                    "ana@example.com" "305-555-0100" "1990-04-12" "" "" ""))] /\
    BookingResponse.appointment_id (response_of booking_after_registration)
      = Some apt_id /\
    Api.get_appointment apt_id (fst booking_after_registration)
      = (fst booking_after_registration, Ok apt) /\
    Appointment.price apt = price /\
    Appointment.client_id apt = "CL0001" /\
    Appointment.client_name apt = "Ana Diaz".
Proof.
  apply (registered_client_is_reused no_text clock_now clock_now "Ana Diaz"
           "ana@example.com" "305-555-0100" "1990-04-12" "" "" ""
           {| BookingRequest.service_name := "botox";
              BookingRequest.date := tuesday;
              BookingRequest.time := "09:00";
              BookingRequest.client_name := "A. Diaz";
              BookingRequest.client_phone := "305-555-0100";
              BookingRequest.client_email := None;
              BookingRequest.staff_id := None |}
           seeded [] (fst booking_after_registration)
           (response_of booking_after_registration)).
  - reflexivity.
  - reflexivity.
  - intros cid c [].
  - reflexivity.
  - vm_compute. reflexivity.
  - reflexivity.
Defined.

(** * The availability tool *)

Lemma get_filter_none {A : Type} (p : string * A -> bool) (d : dict A) k :
  Dict.wf d ->
  get k d = None \/ (exists v, get k d = Some v /\ p (k, v) = false) ->
  get k (filter p d) = None.
Proof.
  intros Hwf Hk. apply get_None_keys. unfold keys. intros Hin.
  apply in_map_iff in Hin as ([k' v] & Hfst & Hin). simpl in Hfst. subst k'.
  apply filter_In in Hin as [Hin Hp].
  pose proof (In_get _ _ _ Hwf Hin) as Hg.
  destruct Hk as [Hnone|(v' & Hsome & Hp')]; [congruence|].
  rewrite Hg in Hsome. injection Hsome as <-. congruence.
Qed.

Lemma filter_none {A : Type} (p : A -> bool) (l : list A) :
  (forall x, In x l -> p x = false) -> filter p l = [].
Proof.
  induction l as [|x l IH]; simpl; [reflexivity|].
  intros H. rewrite (H x) by auto. apply IH. auto.
Qed.

(** X20. On a date it can read, the availability tool refuses without
    raising or writing: a staff id that is unknown, or whose member does
    not work on the weekday of the date, gives "Error: Staff member <id>
    is not available on <Weekday>s"; without a staff id, a weekday on which
    nobody works gives "No staff members available on <Weekday>s". *)
Theorem tool_availability_refusals date ymd staff_id w appointments staff :
  Datetime.strptime_Ymd date = Some ymd ->
  contents (appointments_file w) = Ok appointments ->
  contents (staff_file w) = Ok staff ->
  Dict.wf staff ->
  let day := Datetime.strftime_A ymd in
  (forall sid, staff_id = Some sid -> sid <> "" ->
     get sid staff = None \/
     (exists m, get sid staff = Some m /\
                Py.mem day (Staff.available_days m) = false) ->
     Server.check_availability date staff_id w
       = (w, Ok ("Error: Staff member " ++ sid ++ " is not available on "
                 ++ day ++ "s"))) /\
  (Py.truthy staff_id = false ->
   (forall sid m, In (sid, m) staff ->
      Py.mem day (Staff.available_days m) = false) ->
   Server.check_availability date staff_id w
     = (w, Ok ("No staff members available on " ++ day ++ "s"))).
Proof.
  intros Hd Ha Hst Hwf day.
  unfold Server.check_availability, bind, load_data. cbn [read record_of].
  rewrite Ha, Hst, Hd. fold day. split.
  - intros sid -> Hne Hoff. rewrite (truthy_some _ Hne).
    unfold Server.working_on.
    rewrite (get_filter_none
               (fun '(_, s) => Py.mem day (Staff.available_days s))
               staff sid Hwf Hoff).
    reflexivity.
  - intros Hnone Hnobody. rewrite Hnone.
    unfold Server.working_on. rewrite filter_none; [reflexivity|].
    intros [sid m] Hin. eauto.
Qed.

Lemma tool_availability_refusals_witness :
  Server.check_availability "2026-11-08" None seeded
    = (seeded, Ok "No staff members available on Sundays") /\
  Server.check_availability saturday (Some "STF001") seeded
    = (seeded, Ok "Error: Staff member STF001 is not available on Saturdays").
Proof.
  split.
  - apply (proj2 (tool_availability_refusals "2026-11-08" (2026, 11, 8) None
                    seeded [] Server.default_staff eq_refl eq_refl eq_refl
                    default_staff_wf)).
    + reflexivity.
    + intros sid m Hin. simpl in Hin.
      repeat (destruct Hin as [Hin|Hin]; [injection Hin as <- <-; reflexivity|]).
      contradiction.
  - apply (proj1 (tool_availability_refusals saturday (2026, 11, 7)
                    (Some "STF001") seeded [] Server.default_staff
                    eq_refl eq_refl eq_refl default_staff_wf)
             "STF001" eq_refl).
    + discriminate.
    + right. eexists. split; reflexivity.
Defined.

(** * Resolving a service name *)

Lemma prefix_refl s : String.prefix s s = true.
Proof.
  induction s as [|c s IH]; simpl; [reflexivity|].
  destruct (ascii_dec c c); [exact IH|contradiction].
Qed.

Lemma contains_refl s : Py.contains s s = true.
Proof.
  destruct s as [|c s]; [reflexivity|].
  cbn [Py.contains]. rewrite prefix_refl. reflexivity.
Qed.

(** X21. The service a booking resolves is the first one, in the order of
    the catalog, whose lower-cased name contains the lower-cased requested
    name; so the name of a cataloged service, typed as the catalog has it,
    always resolves to some service, which is the service itself when no
    earlier name contains it. *)
Theorem service_resolution services :
  (forall query sid svc,
     Api.find_service query services = Some (sid, svc) ->
     exists before after,
       services = (before ++ (sid, svc) :: after)%list /\
       Py.contains (Py.lower query) (Py.lower (Service.name svc)) = true /\
       forall sid' svc', In (sid', svc') before ->
         Py.contains (Py.lower query) (Py.lower (Service.name svc')) = false) /\
  (forall sid svc, In (sid, svc) services ->
     exists sid' svc',
       Api.find_service (Service.name svc) services = Some (sid', svc') /\
       ((forall before after,
           services = (before ++ (sid, svc) :: after)%list ->
           (forall k s, In (k, s) before ->
              Py.contains (Py.lower (Service.name svc))
                          (Py.lower (Service.name s)) = false) ->
           (sid', svc') = (sid, svc)))).
Proof.
  split.
  - intros query sid svc Hfind. unfold Api.find_service in Hfind.
    destruct (find_first _ _ _ Hfind) as (l1 & l2 & -> & Hp & Hno).
    exists l1, l2. repeat split; [exact Hp|].
    intros sid' svc' Hin. exact (Hno (sid', svc') Hin).
  - intros sid svc Hin.
    destruct (Api.find_service (Service.name svc) services)
      as [[sid' svc']|] eqn:Hfind.
    + exists sid', svc'. split; [reflexivity|].
      intros before after -> Hno.
      unfold Api.find_service in Hfind.
      assert (find (fun '(_, s) =>
                      Py.contains (Py.lower (Service.name svc))
                                  (Py.lower (Service.name s)))
                   (before ++ (sid, svc) :: after)%list = Some (sid, svc))
        as Hhere.
      { clear Hfind Hin. induction before as [|[k s] before IH]; simpl.
        - rewrite contains_refl. reflexivity.
        - rewrite (Hno k s) by (left; reflexivity).
          apply IH. intros k' s' Hin'. apply (Hno k' s'). right. exact Hin'. }
      congruence.
    + exfalso. unfold Api.find_service in Hfind.
      pose proof (find_none _ _ Hfind (sid, svc) Hin) as Hn.
      cbv beta iota in Hn. rewrite contains_refl in Hn. discriminate.
Qed.

Lemma service_resolution_witness :
  exists sid' svc',
    Api.find_service "Hydrafacial" Server.default_services = Some (sid', svc') /\
    sid' = "SVC003".
Proof.
  destruct (proj2 (service_resolution Server.default_services) "SVC003"
              (snd (Server.service "SVC003" "Hydrafacial" "Facials" 60
                      250%float
                      "Deep cleansing and hydration facial treatment")))
    as (sid' & svc' & Hfind & Hsame).
  - simpl. tauto.
  - exists sid', svc'. split; [exact Hfind|].
    vm_compute in Hfind. congruence.
Defined.
